(** * Nodejs-authenticator: OTP engine, credential-URI parser and QR pipeline

    A shallow embedding of
      - [src/services/otp-generator.js]        (module [OTPGenerator]),
      - [src/lib/otp-parser.js]                (module [OTPParser]),
      - [src/services/qr-service-optimized.js] (module [QRService]),
    together with the pieces of the JavaScript and Node.js run time they
    rely on (module [JS]: exceptions, strings, Numbers, [Buffer]; module
    [Crypto]: SHA-1, SHA-256, SHA-512 and HMAC), followed by the
    specification-side definitions (module [Spec]) and the properties.

    Conventions.
      - A JavaScript function that may throw returns [result A].
      - Strings are sequences of code units below 256; the case conversions
        act on the ASCII letters.
      - In the generator, numbers are integers ([Z], digit counts [N]) in
        the range where double-precision arithmetic is exact; a property
        that may be [undefined] is an [option].  In the parser, where
        [Number(text)] produces fractions, infinities and NaN, numbers are
        [jsnum]: binary64 values, with [Number] rounding to nearest.
      - [Date.now()], [uuidv4()], [decodeURIComponent], the HMAC provider
        and the barcode decoder are inputs of the functions that use them;
        default arguments ([count = 3], [windowSize = 1]) are passed
        explicitly. *)

From Stdlib Require Import ZArith NArith List String Ascii Bool Lia DecimalString.
From Stdlib Require DecimalFacts DecimalPos DecimalN.
Import ListNotations.
Open Scope string_scope.
Open Scope list_scope.
Open Scope Z_scope.

(* ===================================================================== *)
(** * The JavaScript run time                                             *)
(* ===================================================================== *)

Module JS.

(** ** Exceptions

    An exception created by the program or by the engine is identified
    by its constructor and its message.  A RangeError created by Node's
    library is identified by its [code] property: its message quotes the
    offending value and its wording has changed between releases. *)

Inductive JsError : Type :=
| RangeError (msg : string)
| NodeRangeError (code : string)
| TypeError (msg : string)
| URIError (msg : string)
| Error (msg : string).

Inductive result (A : Type) : Type :=
| Ok (a : A)
| Throw (e : JsError).
Arguments Ok {A} a.
Arguments Throw {A} e.

Definition bind {A B} (r : result A) (k : A -> result B) : result B :=
  match r with
  | Ok a => k a
  | Throw e => Throw e
  end.

Definition is_ok {A} (r : result A) : bool :=
  match r with Ok _ => true | Throw _ => false end.

(** ** Strings *)

Definition code_of (c : ascii) : Z := Z.of_nat (nat_of_ascii c).

Definition in_range (lo hi : string) (c : ascii) : bool :=
  match lo, hi with
  | String l _, String h _ => (code_of l <=? code_of c) && (code_of c <=? code_of h)
  | _, _ => false
  end.

Definition lower_char (c : ascii) : ascii :=
  if in_range "A" "Z" c then ascii_of_nat (nat_of_ascii c + 32)%nat else c.
Definition upper_char (c : ascii) : ascii :=
  if in_range "a" "z" c then ascii_of_nat (nat_of_ascii c - 32)%nat else c.

Fixpoint map_string (f : ascii -> ascii) (s : string) : string :=
  match s with
  | EmptyString => EmptyString
  | String c r => String (f c) (map_string f r)
  end.

Definition toLowerCase : string -> string := map_string lower_char.
Definition toUpperCase : string -> string := map_string upper_char.

Fixpoint startsWith (s p : string) : bool :=
  match p, s with
  | EmptyString, _ => true
  | String a p', String b s' => Ascii.eqb a b && startsWith s' p'
  | String _ _, EmptyString => false
  end.

Fixpoint drop (n : nat) (s : string) : string :=
  match n, s with
  | O, _ => s
  | S k, String _ r => drop k r
  | S _, EmptyString => EmptyString
  end.

Fixpoint take (n : nat) (s : string) : string :=
  match n, s with
  | S k, String c r => String c (take k r)
  | _, _ => EmptyString
  end.

(** [s.substr(start, len)] and [s.substr(start)] for [start >= 0]. *)
Definition substr (s : string) (start len : nat) : string := take len (drop start s).
Definition substr_from (s : string) (start : nat) : string := drop start s.

Fixpoint rev_string_acc (s acc : string) : string :=
  match s with
  | EmptyString => acc
  | String c r => rev_string_acc r (String c acc)
  end.
Definition rev_string (s : string) : string := rev_string_acc s EmptyString.

(** [s.split(sep)] for a non-empty separator: [skip] counts the code
    units of a separator just matched that are still to be passed over,
    [cur] holds the current piece in reverse. *)
Fixpoint split_go (sep : string) (skip : nat) (cur : string) (s : string)
  : list string :=
  match s with
  | EmptyString => [rev_string cur]
  | String c r =>
      match skip with
      | S k => split_go sep k cur r
      | O =>
          if startsWith s sep
          then rev_string cur :: split_go sep (String.length sep - 1) EmptyString r
          else split_go sep O (String c cur) r
      end
  end.
Definition split (s sep : string) : list string := split_go sep O EmptyString s.

(** [s.indexOf(c) !== -1] for a one-character needle. *)
Fixpoint includes_char (s : string) (c : ascii) : bool :=
  match s with
  | EmptyString => false
  | String a r => Ascii.eqb a c || includes_char r c
  end.

(** [alphabet.indexOf(c)], [None] standing for [-1]. *)
Fixpoint indexOf_char (alphabet : string) (c : ascii) : option Z :=
  match alphabet with
  | EmptyString => None
  | String a r =>
      if Ascii.eqb a c then Some 0
      else option_map Z.succ (indexOf_char r c)
  end.

(** [s.replace(/c/g, by)] for a one-character pattern. *)
Fixpoint replace_all_char (c : ascii) (by_ : string) (s : string) : string :=
  match s with
  | EmptyString => EmptyString
  | String a r =>
      if Ascii.eqb a c then (by_ ++ replace_all_char c by_ r)%string
      else String a (replace_all_char c by_ r)
  end.

Fixpoint repeat_char (c : ascii) (n : nat) : string :=
  match n with
  | O => EmptyString
  | S k => String c (repeat_char c k)
  end.

(** [s] with copies of [c] in front, up to [n] characters. *)
Definition pad_left (s : string) (n : nat) (c : ascii) : string :=
  (repeat_char c (n - String.length s) ++ s)%string.

(** The greatest length of a string: V8's [String::kMaxLength] on 64-bit
    platforms, which Node exports as [buffer.constants.MAX_STRING_LENGTH]. *)
Definition MAX_STRING_LENGTH : N := 2 ^ 29 - 24.

(** [s.padStart(n, c)] with a one-character filler, for an integer
    [n >= 0]: the string itself when it has [n] characters or more; a
    RangeError when [n] exceeds the greatest length of a string; the
    padded string otherwise. *)
Definition padStart (s : string) (n : N) (c : ascii) : result string :=
  if (n <=? N.of_nat (String.length s))%N then Ok s
  else if (MAX_STRING_LENGTH <? n)%N then Throw (RangeError "Invalid string length")
  else Ok (pad_left s (N.to_nat n) c).

(** [n.toString()] for an integer [n]. *)
Definition N_toString (n : N) : string := NilZero.string_of_uint (N.to_uint n).
Definition Z_toString (z : Z) : string :=
  if z <? 0 then ("-" ++ N_toString (Z.abs_N z))%string else N_toString (Z.abs_N z).

(** [s || dflt]: the empty string is falsy. *)
Definition or_string (s : option string) (dflt : string) : string :=
  match s with
  | Some (String c r) => String c r
  | _ => dflt
  end.

(** [n || dflt] on integers: zero and [undefined] are falsy. *)
Definition or_Z (n : option Z) (dflt : Z) : Z :=
  match n with
  | Some v => if v =? 0 then dflt else v
  | None => dflt
  end.

(** ** Buffers *)

Definition Buffer : Type := list Z.

Definition Buffer_alloc (n : nat) : Buffer := repeat 0 n.

Fixpoint be_bytes (n : nat) (x : Z) : list Z :=
  match n with
  | O => []
  | S k => be_bytes k (Z.shiftr x 8) ++ [Z.land x 0xff]
  end.

Definition be_value (bs : list Z) : Z :=
  fold_left (fun acc b => Z.lor (Z.shiftl acc 8) b) bs 0.

(** Node's [boundsError] for an access of four bytes at an integer
    offset that does not fit: [ERR_BUFFER_OUT_OF_BOUNDS] when the buffer
    has fewer than four bytes, [ERR_OUT_OF_RANGE] otherwise. *)
Definition boundsError (buf : Buffer) : JsError :=
  if Nat.ltb (List.length buf) 4
  then NodeRangeError "ERR_BUFFER_OUT_OF_BOUNDS"
  else NodeRangeError "ERR_OUT_OF_RANGE".

(** [buf.writeUInt32BE(value, offset)]: Node checks the value against
    [0 .. 2^32 - 1] first, then the offset against the length; each
    check throws a RangeError, for the value with the code
    [ERR_OUT_OF_RANGE]. *)
Definition writeUInt32BE (buf : Buffer) (value : Z) (offset : nat) : result Buffer :=
  if (value <? 0) || (0xffffffff <? value)
  then Throw (NodeRangeError "ERR_OUT_OF_RANGE")
  else if Nat.ltb (List.length buf) (offset + 4)
  then Throw (boundsError buf)
  else Ok (firstn offset buf ++ be_bytes 4 value ++ skipn (offset + 4) buf).

(** [buf.readUInt32BE(offset)]. *)
Definition readUInt32BE (buf : Buffer) (offset : nat) : result Z :=
  if Nat.ltb (List.length buf) (offset + 4)
  then Throw (boundsError buf)
  else Ok (be_value (firstn 4 (skipn offset buf))).

(** Value of a hexadecimal digit, as in Node's [unhex] table. *)
Definition unhex (c : ascii) : option Z :=
  if in_range "0" "9" c then Some (code_of c - 48)
  else if in_range "a" "f" c then Some (code_of c - 87)
  else if in_range "A" "F" c then Some (code_of c - 55)
  else None.

(** [Buffer.from(text, 'hex')]: pairs of digits are decoded from the
    left; decoding stops, without an exception, at the first pair that
    is not made of two hexadecimal digits, and a trailing single
    character is dropped. *)
Fixpoint Buffer_from_hex (s : string) : Buffer :=
  match s with
  | String a (String b r) =>
      match unhex a, unhex b with
      | Some x, Some y => (16 * x + y) :: Buffer_from_hex r
      | _, _ => []
      end
  | _ => []
  end.

(** ** Numbers

    A Number is NaN, an infinity, or the finite value
    [(-1)^neg * m * 2^e].  Finite values are kept in normal form ([m] odd,
    or [m = 0] and [e = 0]), so that equal numbers are equal terms up to
    the sign of zero. *)

Inductive jsnum : Type :=
| NaN
| Inf (neg : bool)
| Fin (neg : bool) (m : N) (e : Z).

Fixpoint strip_pos (p : positive) (e : Z) : positive * Z :=
  match p with
  | xO q => strip_pos q (e + 1)
  | _ => (p, e)
  end.

Definition mk_fin (neg : bool) (m : N) (e : Z) : jsnum :=
  match m with
  | N0 => Fin neg 0 0
  | Npos p => let '(q, e') := strip_pos p e in Fin neg (Npos q) e'
  end.

Definition num_of_Z (z : Z) : jsnum := mk_fin (z <? 0) (Z.abs_N z) 0.

Definition signed (neg : bool) (m : N) : Z :=
  if neg then - Z.of_N m else Z.of_N m.

(** Comparison of two Numbers; [None] when one of them is NaN. *)
Definition num_compare (a b : jsnum) : option comparison :=
  match a, b with
  | NaN, _ | _, NaN => None
  | Inf na, Inf nb => Some (if na then (if nb then Eq else Lt) else (if nb then Gt else Eq))
  | Inf na, Fin _ _ _ => Some (if na then Lt else Gt)
  | Fin _ _ _, Inf nb => Some (if nb then Gt else Lt)
  | Fin na ma ea, Fin nb mb eb =>
      let q := Z.min ea eb in
      Some (Z.compare (signed na ma * 2 ^ (ea - q)) (signed nb mb * 2 ^ (eb - q)))
  end.

Definition isNaN (a : jsnum) : bool :=
  match a with NaN => true | _ => false end.
Definition num_lt (a b : jsnum) : bool :=
  match num_compare a b with Some Lt => true | _ => false end.
Definition num_gt (a b : jsnum) : bool :=
  match num_compare a b with Some Gt => true | _ => false end.
(** [a === b] on Numbers. *)
Definition num_eq (a b : jsnum) : bool :=
  match num_compare a b with Some Eq => true | _ => false end.

(** [a % b]: the remainder has the sign of the dividend and is exact. *)
Definition num_rem (a b : jsnum) : jsnum :=
  match a, b with
  | NaN, _ | _, NaN | Inf _, _ => NaN
  | Fin _ _ _, Inf _ => a
  | Fin na ma ea, Fin nb mb eb =>
      if N.eqb mb 0 then NaN
      else if N.eqb ma 0 then a
      else
        let q := Z.min ea eb in
        mk_fin na (Z.to_N (Z.rem (Z.of_N ma * 2 ^ (ea - q)) (Z.of_N mb * 2 ^ (eb - q)))) q
  end.

(** Truthiness of a Number: NaN and the zeros are falsy. *)
Definition num_truthy (a : jsnum) : bool :=
  match a with
  | NaN => false
  | Inf _ => true
  | Fin _ m _ => negb (N.eqb m 0)
  end.

(** [n || dflt] where [n] may be [undefined]. *)
Definition or_num (n : option jsnum) (dflt : jsnum) : jsnum :=
  match n with
  | Some v => if num_truthy v then v else dflt
  | None => dflt
  end.

(** The Number nearest to [n / d] ([0 <= n], [0 < d]), ties to even:
    IEEE 754 binary64, with gradual underflow and overflow to infinity. *)
Definition round_ratio (neg : bool) (n d : Z) : jsnum :=
  if n =? 0 then Fin neg 0 0
  else
    let e0 := Z.log2 n - Z.log2 d in
    let e := if d * 2 ^ Z.max 0 e0 <=? n * 2 ^ Z.max 0 (- e0) then e0 else e0 - 1 in
    let q := Z.max (e - 52) (-1074) in
    let num := n * 2 ^ Z.max 0 (- q) in
    let den := d * 2 ^ Z.max 0 q in
    let m := num / den in
    let r := num mod den in
    let m := if (den <? 2 * r) || ((den =? 2 * r) && Z.odd m) then m + 1 else m in
    if m =? 0 then Fin neg 0 0
    else if 1024 <=? Z.log2 m + q then Inf neg
    else mk_fin neg (Z.to_N m) q.

(** *** [Number(text)]: the StringToNumber grammar *)

Definition is_StrWhiteSpaceChar (c : ascii) : bool :=
  let n := code_of c in
  ((9 <=? n) && (n <=? 13)) || (n =? 32) || (n =? 160).

Fixpoint trimStart (s : string) : string :=
  match s with
  | String c r => if is_StrWhiteSpaceChar c then trimStart r else s
  | EmptyString => EmptyString
  end.
Definition trim (s : string) : string :=
  rev_string (trimStart (rev_string (trimStart s))).

Definition digit_in (base : Z) (c : ascii) : option Z :=
  match unhex c with
  | Some v => if v <? base then Some v else None
  | None => None
  end.

(** Value of a string made of digits of [base] only. *)
Fixpoint digits_value (base : Z) (s : string) (acc : Z) : option Z :=
  match s with
  | EmptyString => Some acc
  | String c r =>
      match digit_in base c with
      | Some v => digits_value base r (base * acc + v)
      | None => None
      end
  end.

(** The longest prefix of decimal digits, and what follows it. *)
Fixpoint span_digits (s : string) : string * string :=
  match s with
  | String c r =>
      if in_range "0" "9" c
      then let '(ds, rest) := span_digits r in (String c ds, rest)
      else (EmptyString, s)
  | EmptyString => (EmptyString, EmptyString)
  end.

(** NonDecimalIntegerLiteral: [0x], [0o] or [0b] and at least one digit. *)
Definition parse_nondecimal (s : string) : option jsnum :=
  match s with
  | String "0" (String k (String c r)) =>
      let base :=
        if Ascii.eqb (lower_char k) "x" then 16
        else if Ascii.eqb (lower_char k) "o" then 8
        else if Ascii.eqb (lower_char k) "b" then 2
        else 0 in
      if base =? 0 then None
      else option_map (fun v => round_ratio false v 1) (digits_value base (String c r) 0)
  | _ => None
  end.

(** ExponentPart, or nothing. *)
Definition parse_exponent (s : string) : option Z :=
  match s with
  | EmptyString => Some 0
  | String e r =>
      if Ascii.eqb (lower_char e) "e"
      then
        let '(neg, ds) :=
          match r with
          | String "+" r' => (false, r')
          | String "-" r' => (true, r')
          | _ => (false, r)
          end in
        match ds with
        | EmptyString => None
        | _ => option_map (fun v => if neg then - v else v) (digits_value 10 ds 0)
        end
      else None
  end.

(** StrDecimalLiteral. *)
Definition parse_decimal (s : string) : option jsnum :=
  let '(neg, s) :=
    match s with
    | String "+" r => (false, r)
    | String "-" r => (true, r)
    | _ => (false, s)
    end in
  if String.eqb s "Infinity" then Some (Inf neg)
  else
    let '(ip, s1) := span_digits s in
    let '(fp, s2) :=
      match s1 with
      | String "." r => span_digits r
      | _ => (EmptyString, s1)
      end in
    if String.eqb ip "" && String.eqb fp "" then None
    else
      match parse_exponent s2, digits_value 10 (String.append ip fp) 0 with
      | Some ex, Some mant =>
          let e10 := ex - Z.of_nat (String.length fp) in
          Some (if 0 <=? e10 then round_ratio neg (mant * 10 ^ e10) 1
                else round_ratio neg mant (10 ^ (- e10)))
      | _, _ => None
      end.

Definition StringToNumber (s : string) : jsnum :=
  let s := trim s in
  if String.eqb s "" then Fin false 0 0
  else
    match parse_nondecimal s with
    | Some n => n
    | None =>
        match parse_decimal s with
        | Some n => n
        | None => NaN
        end
    end.

(** [Number(value)], where [value] is a string or [undefined]. *)
Definition Number (value : option string) : jsnum :=
  match value with
  | None => NaN
  | Some s => StringToNumber s
  end.

End JS.

(* ===================================================================== *)
(** * Node's [crypto.createHmac]: SHA-1, SHA-2 and HMAC                   *)
(* ===================================================================== *)

Module Crypto.
Import JS.

(** [chunks fuel n l] cuts [l] into pieces of [n] elements. *)
Fixpoint chunks (fuel n : nat) (l : list Z) : list (list Z) :=
  match fuel with
  | O => []
  | S fuel' =>
      match l with
      | [] => []
      | _ => firstn n l :: chunks fuel' n (skipn n l)
      end
  end.

(** Merkle-Damgard padding (FIPS 180-4, 5.1): a 1 bit, zeros, and the
    bit length on [len_bytes] bytes, up to a multiple of [block]. *)
Definition pad (block len_bytes : nat) (msg : list Z) : list Z :=
  let l := Z.of_nat (List.length msg) in
  let k := (Z.of_nat block - 1 - Z.of_nat len_bytes - l) mod Z.of_nat block in
  msg ++ [0x80] ++ repeat 0 (Z.to_nat k) ++ be_bytes len_bytes (8 * l).

Definition blocks (block : nat) (l : list Z) : list (list Z) :=
  chunks (List.length l) block l.

(** ** SHA-1 (FIPS 180-4, 6.1) *)
Module SHA1.
Definition w32 (x : Z) : Z := x mod 2 ^ 32.
Definition add32 (x y : Z) : Z := w32 (x + y).
Definition rotl (n x : Z) : Z :=
  Z.lor (w32 (Z.shiftl x n)) (Z.shiftr x (32 - n)).
Definition not32 (x : Z) : Z := Z.lxor x 0xffffffff.
Definition Ch (x y z : Z) : Z := Z.lxor (Z.land x y) (Z.land (not32 x) z).
Definition Parity (x y z : Z) : Z := Z.lxor (Z.lxor x y) z.
Definition Maj (x y z : Z) : Z :=
  Z.lxor (Z.lxor (Z.land x y) (Z.land x z)) (Z.land y z).

Definition f (t : nat) : Z -> Z -> Z -> Z :=
  if Nat.ltb t 20 then Ch
  else if Nat.ltb t 40 then Parity
  else if Nat.ltb t 60 then Maj
  else Parity.

Definition K (t : nat) : Z :=
  if Nat.ltb t 20 then 0x5a827999
  else if Nat.ltb t 40 then 0x6ed9eba1
  else if Nat.ltb t 60 then 0x8f1bbcdc
  else 0xca62c1d6.

Definition words (block : list Z) : list Z := map be_value (chunks 16 4 block).

(** The message schedule, produced through a sliding window of the
    last sixteen words: W(t+16) = ROTL1 (W(t+13) xor W(t+8) xor
    W(t+2) xor W(t)). *)
Fixpoint schedule (n : nat) (win : list Z) : list Z :=
  match n with
  | O => []
  | S n' =>
      match win with
      | w0 :: rest =>
          let wn :=
            rotl 1 (Z.lxor (Z.lxor (Z.lxor (nth 12 rest 0) (nth 7 rest 0))
                                   (nth 1 rest 0)) w0) in
          w0 :: schedule n' (rest ++ [wn])
      | [] => []
      end
  end.

Definition state : Type := (Z * Z * Z * Z * Z)%type.

Definition round (s : state) (tw : nat * Z) : state :=
  let '(a, b, c, d, e) := s in
  let '(t, wt) := tw in
  let T := add32 (add32 (add32 (add32 (rotl 5 a) (f t b c d)) e) (K t)) wt in
  (T, a, rotl 30 b, c, d).

Definition compress (h : state) (block : list Z) : state :=
  let W := schedule 80 (words block) in
  let '(a, b, c, d, e) := fold_left round (combine (seq 0 80) W) h in
  let '(h0, h1, h2, h3, h4) := h in
  (add32 h0 a, add32 h1 b, add32 h2 c, add32 h3 d, add32 h4 e).

Definition H0 : state :=
  (0x67452301, 0xefcdab89, 0x98badcfe, 0x10325476, 0xc3d2e1f0).

Definition digest (msg : list Z) : list Z :=
  let '(h0, h1, h2, h3, h4) := fold_left compress (blocks 64 (pad 64 8 msg)) H0 in
  be_bytes 4 h0 ++ be_bytes 4 h1 ++ be_bytes 4 h2 ++ be_bytes 4 h3 ++ be_bytes 4 h4.
End SHA1.

(** ** SHA-256 and SHA-512 (FIPS 180-4, 6.2 and 6.4), which differ in
    the word size, the constants and the rotation amounts only. *)
Module SHA2.
Record params : Type := {
  wbits : Z;
  Kc : list Z;
  Hinit : list Z;
  bigS0 : Z * Z * Z;
  bigS1 : Z * Z * Z;
  smallS0 : Z * Z * Z;
  smallS1 : Z * Z * Z
}.

Section WithParams.
Variable p : params.

Definition wbytes : nat := Z.to_nat (wbits p / 8).
Definition wrap (x : Z) : Z := x mod 2 ^ wbits p.
Definition add (x y : Z) : Z := wrap (x + y).
Definition rotr (n x : Z) : Z :=
  Z.lor (Z.shiftr x n) (wrap (Z.shiftl x (wbits p - n))).
Definition lnot (x : Z) : Z := Z.lxor x (2 ^ wbits p - 1).
Definition Ch (x y z : Z) : Z := Z.lxor (Z.land x y) (Z.land (lnot x) z).
Definition Maj (x y z : Z) : Z :=
  Z.lxor (Z.lxor (Z.land x y) (Z.land x z)) (Z.land y z).
Definition Sigma (r : Z * Z * Z) (x : Z) : Z :=
  let '(a, b, c) := r in Z.lxor (Z.lxor (rotr a x) (rotr b x)) (rotr c x).
Definition sigma (r : Z * Z * Z) (x : Z) : Z :=
  let '(a, b, c) := r in Z.lxor (Z.lxor (rotr a x) (rotr b x)) (Z.shiftr x c).

Definition words (block : list Z) : list Z :=
  map be_value (chunks 16 wbytes block).

(** W(t+16) = s1 (W(t+14)) + W(t+9) + s0 (W(t+1)) + W(t). *)
Fixpoint schedule (n : nat) (win : list Z) : list Z :=
  match n with
  | O => []
  | S n' =>
      match win with
      | w0 :: rest =>
          let wn :=
            add (add (add (sigma (smallS1 p) (nth 13 rest 0)) (nth 8 rest 0))
                     (sigma (smallS0 p) (nth 0 rest 0))) w0 in
          w0 :: schedule n' (rest ++ [wn])
      | [] => []
      end
  end.

Definition round (s : list Z) (kw : Z * Z) : list Z :=
  match s with
  | [a; b; c; d; e; f; g; h] =>
      let '(kt, wt) := kw in
      let T1 := add (add (add (add h (Sigma (bigS1 p) e)) (Ch e f g)) kt) wt in
      let T2 := add (Sigma (bigS0 p) a) (Maj a b c) in
      [add T1 T2; a; b; c; add d T1; e; f; g]
  | _ => s
  end.

Definition compress (h : list Z) (block : list Z) : list Z :=
  let W := schedule (List.length (Kc p)) (words block) in
  let s := fold_left round (combine (Kc p) W) h in
  map (fun xy => add (fst xy) (snd xy)) (combine h s).

Definition digest (msg : list Z) : list Z :=
  let h :=
    fold_left compress
      (blocks (16 * wbytes) (pad (16 * wbytes) (2 * wbytes) msg)) (Hinit p) in
  flat_map (be_bytes wbytes) h.
End WithParams.

(** The first eighty primes. *)
Definition primes : list Z :=
  [
    2; 3; 5; 7; 11; 13; 17; 19; 23; 29; 31; 37; 41; 43; 47; 53;
    59; 61; 67; 71; 73; 79; 83; 89; 97; 101; 103; 107; 109; 113; 127; 131;
    137; 139; 149; 151; 157; 163; 167; 173; 179; 181; 191; 193; 197; 199; 211; 223;
    227; 229; 233; 239; 241; 251; 257; 263; 269; 271; 277; 281; 283; 293; 307; 311;
    313; 317; 331; 337; 347; 349; 353; 359; 367; 373; 379; 383; 389; 397; 401; 409 ].

(** The integer [r]-th root of [x], found one bit at a time below bit
    [n], starting from [acc]. *)
Fixpoint root_bits (r x : Z) (n : nat) (acc : Z) : Z :=
  match n with
  | O => acc
  | S k =>
      let candidate := acc + 2 ^ Z.of_nat k in
      root_bits r x k (if candidate ^ r <=? x then candidate else acc)
  end.

(** The first [w] bits of the fractional part of the [r]-th root of [q]:
    the constants of FIPS 180-4, 4.2.2 and 4.2.3 (cube roots) and the
    initial hash values of 5.3.3 and 5.3.5 (square roots). *)
Definition root_fraction (r w q : Z) : Z :=
  root_bits r (q * 2 ^ (r * w)) (Z.to_nat (w + 8)) 0 mod 2 ^ w.

Definition sha256 : params := {|
  wbits := 32;
  Kc := map (root_fraction 3 32) (firstn 64 primes);
  Hinit := map (root_fraction 2 32) (firstn 8 primes);
  bigS0 := (2, 13, 22);
  bigS1 := (6, 11, 25);
  smallS0 := (7, 18, 3);
  smallS1 := (17, 19, 10)
|}.

Definition sha512 : params := {|
  wbits := 64;
  Kc := map (root_fraction 3 64) primes;
  Hinit := map (root_fraction 2 64) (firstn 8 primes);
  bigS0 := (28, 34, 39);
  bigS1 := (14, 18, 41);
  smallS0 := (1, 8, 7);
  smallS1 := (19, 61, 6)
|}.
End SHA2.

(** ** HMAC (RFC 2104) over a hash with blocks of [block] bytes *)
Definition hmac (H : list Z -> list Z) (block : nat) (key msg : Buffer) : Buffer :=
  let k0 := if Nat.ltb block (List.length key) then H key else key in
  let k := k0 ++ repeat 0 (block - List.length k0) in
  let ipad := map (fun b => Z.lxor b 0x36) k in
  let opad := map (fun b => Z.lxor b 0x5c) k in
  H (opad ++ H (ipad ++ msg)).

(** [crypto.createHmac(name, key).update(msg).digest()] for the digests
    of the descriptor's algorithm enumeration that Node provides; an
    unknown digest name makes [createHmac] throw. *)
Definition createHmac (name : string) (key msg : Buffer) : result Buffer :=
  if String.eqb name "sha1" then Ok (hmac SHA1.digest 64 key msg)
  else if String.eqb name "sha256" then Ok (hmac (SHA2.digest SHA2.sha256) 64 key msg)
  else if String.eqb name "sha512" then Ok (hmac (SHA2.digest SHA2.sha512) 128 key msg)
  else Throw (Error "Invalid digest").

End Crypto.

(* ===================================================================== *)
(** * src/services/otp-generator.js                                       *)
(* ===================================================================== *)

Module OTPGenerator.
Import JS.

(** The [otpData] object, as far as the generator reads it. *)
Record OtpData : Type := {
  type : string;
  secret : string;
  algorithm : option string;
  digits : option N;
  period : option Z;
  counter : option Z
}.

(** [{ ...otpData, counter: c }] *)
Definition with_counter (o : OtpData) (c : Z) : OtpData :=
  {| type := type o; secret := secret o; algorithm := algorithm o;
     digits := digits o; period := period o; counter := Some c |}.

(** [n || dflt] for a digit count. *)
Definition or_N (n : option N) (dflt : N) : N :=
  match n with
  | Some v => if N.eqb v 0 then dflt else v
  | None => dflt
  end.

(** Result of the time-based generators; [valid] is set by
    [generateTOTP] only, [nextRefresh] is the [Date] in milliseconds. *)
Module TimeResult.
Record t : Type := {
  code : string;
  type : string;
  timeRemaining : Z;
  period : Z;
  counter : Z;
  nextRefresh : Z;
  valid : option bool
}.
End TimeResult.

Module CounterResult.
Record t : Type := {
  code : string;
  type : string;
  counter : Z;
  nextCounter : Z;
  note : string
}.
End CounterResult.

Inductive CodeResult : Type :=
| Timed (r : TimeResult.t)
| Counted (r : CounterResult.t).

(** Entries of the arrays built by [getMultipleCodes]. *)
Module HotpEntry.
Record t : Type := {
  result : CounterResult.t;
  sequence : Z;
  counterValue : Z
}.
End HotpEntry.

Module TotpEntry.
Record t : Type := {
  result : TimeResult.t;
  sequence : Z;
  timeWindow : string;
  timestamp : Z
}.
End TotpEntry.

Inductive MultipleCodes : Type :=
| HotpCodes (codes : list HotpEntry.t)
| TotpCodes (codes : list TotpEntry.t).

Module VerifyResult.
Record t : Type := {
  valid : bool;
  counter : option Z;
  timeOffset : option Z;
  providedCode : string;
  expectedCode : string;
  timeWindow : option string
}.
End VerifyResult.

(** ** Secret decoding *)

Definition base32Chars : string := "ABCDEFGHIJKLMNOPQRSTUVWXYZ234567".

(** [val.toString(2).padStart(5, '0')] for [0 <= val < 32]. *)
Definition bits5 (val : Z) : string :=
  let bit (k : Z) : ascii := if Z.testbit val k then "1"%char else "0"%char in
  String (bit 4) (String (bit 3) (String (bit 2) (String (bit 1) (String (bit 0) "")))).

(** First loop of [base32ToBuffer]: the bit string, or the exception. *)
Fixpoint base32_bits (base32 : string) (bits : string) : result string :=
  match base32 with
  | EmptyString => Ok bits
  | String char rest =>
      match indexOf_char base32Chars char with
      | None => Throw (Error (String.append "Invalid Base32 character: " (String char "")))
      | Some val => base32_bits rest (String.append bits (bits5 val))
      end
  end.

(** [parseInt(text, 2)] on a string of binary digits. *)
Fixpoint parseInt2 (text : string) (acc : Z) : Z :=
  match text with
  | EmptyString => acc
  | String c r => parseInt2 r (2 * acc + (if Ascii.eqb c "1" then 1 else 0))
  end.

(** Second loop: [for (i = 0; i + 8 <= bits.length; i += 8)]. *)
Fixpoint bits_to_bytes (fuel : nat) (bits : string) : list Z :=
  match fuel with
  | O => []
  | S fuel' =>
      if Nat.leb 8 (String.length bits)
      then parseInt2 (substr bits 0 8) 0 :: bits_to_bytes fuel' (substr_from bits 8)
      else []
  end.

Definition base32ToBuffer (base32 : string) : result Buffer :=
  let base32 := replace_all_char "=" "" (toUpperCase base32) in
  bind (base32_bits base32 "") (fun bits =>
  Ok (bits_to_bytes (String.length bits) bits)).

Definition hexToBuffer (hex : string) : result Buffer :=
  let hex := if Nat.eqb (String.length hex mod 2) 0 then hex else String "0" hex in
  Ok (Buffer_from_hex hex).

(** ** Code computation *)

(** The counter message of [generateOTPCode] and [generateSteamOTP]:
    [Buffer.alloc(8)], a zero upper word, the counter as the lower word. *)
Definition counterBuffer (counter : Z) : result Buffer :=
  let counterBuffer := Buffer_alloc 8 in
  bind (writeUInt32BE counterBuffer 0 0) (fun counterBuffer =>
  writeUInt32BE counterBuffer counter 4).

(** Dynamic truncation: [hash.readUInt32BE(hash[hash.length - 1] & 0x0f)
    & 0x7fffffff]. *)
Definition truncate (hash : Buffer) : result Z :=
  let offset := Z.land (last hash 0) 0x0f in
  bind (readUInt32BE hash (Z.to_nat offset)) (fun word =>
  Ok (Z.land word 0x7fffffff)).

Definition steamChars : string := "23456789BCDFGHJKMNPQRTVWXY".

(** [steamChars[i]]; out of range it is [undefined], which [+=] appends
    as text. *)
Definition steamChar (i : Z) : string :=
  match String.get (Z.to_nat i) steamChars with
  | Some c => String c ""
  | None => "undefined"
  end.

Fixpoint steam_loop (n : nat) (code : string) (num : Z) : string :=
  match n with
  | O => code
  | S n' =>
      steam_loop n'
        (String.append code (steamChar (Z.rem num (Z.of_nat (String.length steamChars)))))
        (num / Z.of_nat (String.length steamChars))
  end.

Section WithCrypto.
(** [createHmac name key msg] stands for
    [crypto.createHmac(name, key).update(msg).digest()]. *)
Variable createHmac : string -> Buffer -> Buffer -> result Buffer.

Definition generateOTPCode (secret : string) (counter : Z) (digits : N)
    (algorithm : string) (isHex : bool) : result string :=
  bind (if isHex then hexToBuffer secret else base32ToBuffer secret) (fun key =>
  bind (counterBuffer counter) (fun counterBuffer =>
  bind (createHmac (toLowerCase algorithm) key counterBuffer) (fun hash =>
  bind (truncate hash) (fun truncatedHash =>
  let code := Z.rem truncatedHash (10 ^ Z.of_N digits) in
  padStart (Z_toString code) digits "0")))).

Definition generateSteamOTP (secret : string) (counter : Z) : result string :=
  bind (base32ToBuffer secret) (fun key =>
  bind (counterBuffer counter) (fun counterBuffer =>
  bind (createHmac "sha1" key counterBuffer) (fun hash =>
  bind (truncate hash) (fun truncatedHash =>
  Ok (steam_loop 5 "" truncatedHash))))).

Definition generateTOTP (otpData : OtpData) (currentTime : Z)
  : result TimeResult.t :=
  let period := or_Z (period otpData) 30 in
  let counter := currentTime / period in
  let timeRemaining := period - Z.rem currentTime period in
  bind (generateOTPCode (secret otpData) counter (or_N (digits otpData) 6)
          (or_string (algorithm otpData) "SHA1")
          (String.eqb (type otpData) "hex")) (fun code =>
  Ok {| TimeResult.code := code;
        TimeResult.type := "TOTP";
        TimeResult.timeRemaining := timeRemaining;
        TimeResult.period := period;
        TimeResult.counter := counter;
        TimeResult.nextRefresh := (currentTime / period + 1) * period * 1000;
        TimeResult.valid := Some (0 <? timeRemaining) |}).

Definition generateHOTP (otpData : OtpData) : result CounterResult.t :=
  let counter := or_Z (counter otpData) 0 in
  bind (generateOTPCode (secret otpData) counter (or_N (digits otpData) 6)
          (or_string (algorithm otpData) "SHA1")
          (String.eqb (type otpData) "hhex")) (fun code =>
  Ok {| CounterResult.code := code;
        CounterResult.type := "HOTP";
        CounterResult.counter := counter;
        CounterResult.nextCounter := counter + 1;
        CounterResult.note :=
          "Counter-based codes must be incremented after each use" |}).

Definition generateSteamCode (otpData : OtpData) (currentTime : Z)
  : result TimeResult.t :=
  let period := 30 in
  let counter := currentTime / period in
  let timeRemaining := period - Z.rem currentTime period in
  bind (generateSteamOTP (secret otpData) counter) (fun code =>
  Ok {| TimeResult.code := code;
        TimeResult.type := "Steam";
        TimeResult.timeRemaining := timeRemaining;
        TimeResult.period := period;
        TimeResult.counter := counter;
        TimeResult.nextRefresh := (currentTime / period + 1) * period * 1000;
        TimeResult.valid := None |}).

Definition generateBattleCode (otpData : OtpData) (currentTime : Z)
  : result TimeResult.t :=
  let period := 30 in
  let counter := currentTime / period in
  let timeRemaining := period - Z.rem currentTime period in
  bind (generateOTPCode (secret otpData) counter 8 "SHA1" false) (fun code =>
  Ok {| TimeResult.code := code;
        TimeResult.type := "Battle.net";
        TimeResult.timeRemaining := timeRemaining;
        TimeResult.period := period;
        TimeResult.counter := counter;
        TimeResult.nextRefresh := (currentTime / period + 1) * period * 1000;
        TimeResult.valid := None |}).

(** [currentTime] is [Math.floor(Date.now() / 1000)]. *)
Definition generateCurrentCode (currentTime : Z) (otpData : option OtpData)
  : result CodeResult :=
  match otpData with
  | None => Throw (Error "Invalid OTP data or missing secret")
  | Some otpData =>
      if String.eqb (secret otpData) ""
      then Throw (Error "Invalid OTP data or missing secret")
      else
        let ty := type otpData in
        if String.eqb ty "totp" || String.eqb ty "hex"
        then bind (generateTOTP otpData currentTime) (fun r => Ok (Timed r))
        else if String.eqb ty "hotp" || String.eqb ty "hhex"
        then bind (generateHOTP otpData) (fun r => Ok (Counted r))
        else if String.eqb ty "steam"
        then bind (generateSteamCode otpData currentTime) (fun r => Ok (Timed r))
        else if String.eqb ty "battle"
        then bind (generateBattleCode otpData currentTime) (fun r => Ok (Timed r))
        else Throw (Error (String.append "Unsupported OTP type: " ty))
  end.

(** ** Windows of codes

    [getMultipleCodes] receives a reference to the caller's object and
    builds fresh objects with the spread syntax.  Objects live in a
    store; [alloc] is the only store operation the function performs. *)

Definition Store : Type := list OtpData.
Definition deref (st : Store) (ref : nat) : option OtpData := nth_error st ref.
Definition alloc (st : Store) (o : OtpData) : nat * Store :=
  (List.length st, st ++ [o]).

(** [for (let i = 0; i < count; i++)] of the counter branch, with [n]
    iterations left. *)
Fixpoint hotp_loop (n : nat) (i : Z) (st : Store) (otpData : nat)
    (codes : list HotpEntry.t) : result (list HotpEntry.t) * Store :=
  match n with
  | O => (Ok codes, st)
  | S n' =>
      match deref st otpData with
      | None => (Throw (TypeError "Cannot read properties of undefined"), st)
      | Some o =>
          let c := or_Z (counter o) 0 + i in
          let hopData := with_counter o c in
          let '(_, st) := alloc st hopData in
          match generateHOTP hopData with
          | Throw e => (Throw e, st)
          | Ok result =>
              hotp_loop n' (i + 1) st otpData
                (codes ++ [ {| HotpEntry.result := result;
                               HotpEntry.sequence := i;
                               HotpEntry.counterValue := c |} ])
          end
      end
  end.

(** The same loop of the time branch. *)
Fixpoint totp_loop (n : nat) (i : Z) (currentTime period : Z) (st : Store)
    (otpData : nat) (codes : list TotpEntry.t)
  : result (list TotpEntry.t) * Store :=
  match n with
  | O => (Ok codes, st)
  | S n' =>
      let timeOffset := i * period in
      let adjustedTime := currentTime + timeOffset in
      match deref st otpData with
      | None => (Throw (TypeError "Cannot read properties of undefined"), st)
      | Some o =>
          match generateTOTP o adjustedTime with
          | Throw e => (Throw e, st)
          | Ok result =>
              totp_loop n' (i + 1) currentTime period st otpData
                (codes ++ [ {| TotpEntry.result := result;
                               TotpEntry.sequence := i;
                               TotpEntry.timeWindow :=
                                 if i =? 0 then "current"
                                 else String.append "+"
                                        (String.append (Z_toString (i * period)) "s");
                               TotpEntry.timestamp := adjustedTime * 1000 |} ])
          end
      end
  end.

(** [currentTime] is [Math.floor(Date.now() / 1000)]; [count] is an
    integer, so that the loop runs [count] times when it is positive
    and not at all otherwise. *)
Definition getMultipleCodes (currentTime : Z) (st : Store) (otpData : nat)
    (count : Z) : result MultipleCodes * Store :=
  match deref st otpData with
  | None => (Throw (TypeError "Cannot read properties of undefined"), st)
  | Some o =>
      if String.eqb (type o) "hotp" || String.eqb (type o) "hhex"
      then
        let '(r, st) := hotp_loop (Z.to_nat count) 0 st otpData [] in
        (bind r (fun codes => Ok (HotpCodes codes)), st)
      else
        let period := or_Z (period o) 30 in
        let '(r, st) :=
          totp_loop (Z.to_nat count) 0 currentTime period st otpData [] in
        (bind r (fun codes => Ok (TotpCodes codes)), st)
  end.

(** ** Verification *)

(** [for (let i = -windowSize; i <= windowSize; i++)] with [n]
    iterations left; [None] when the loop ends without a match. *)
Fixpoint verify_loop (n : nat) (i : Z) (otpData : OtpData) (providedCode : string)
    (currentTime period : Z) : result (option VerifyResult.t) :=
  match n with
  | O => Ok None
  | S n' =>
      let testTime := currentTime + i * period in
      bind (generateTOTP otpData testTime) (fun testCode =>
      if String.eqb (TimeResult.code testCode) providedCode
      then Ok (Some {| VerifyResult.valid := true;
                       VerifyResult.counter := None;
                       VerifyResult.timeOffset := Some (i * period);
                       VerifyResult.providedCode := providedCode;
                       VerifyResult.expectedCode := TimeResult.code testCode;
                       VerifyResult.timeWindow :=
                         Some (if i =? 0 then "current"
                               else if i <? 0 then "previous" else "next") |})
      else verify_loop n' (i + 1) otpData providedCode currentTime period)
  end.

Definition verifyCode (currentTime : Z) (otpData : OtpData) (providedCode : string)
    (windowSize : Z) : result VerifyResult.t :=
  if String.eqb (type otpData) "hotp" || String.eqb (type otpData) "hhex"
  then
    bind (generateHOTP otpData) (fun current =>
    Ok {| VerifyResult.valid := String.eqb (CounterResult.code current) providedCode;
          VerifyResult.counter := counter otpData;
          VerifyResult.timeOffset := None;
          VerifyResult.providedCode := providedCode;
          VerifyResult.expectedCode := CounterResult.code current;
          VerifyResult.timeWindow := None |})
  else
    let period := or_Z (period otpData) 30 in
    bind (verify_loop (Z.to_nat (2 * windowSize + 1)) (- windowSize) otpData
            providedCode currentTime period) (fun found =>
    match found with
    | Some r => Ok r
    | None =>
        bind (generateTOTP otpData currentTime) (fun current =>
        Ok {| VerifyResult.valid := false;
              VerifyResult.counter := None;
              VerifyResult.timeOffset := None;
              VerifyResult.providedCode := providedCode;
              VerifyResult.expectedCode := TimeResult.code current;
              VerifyResult.timeWindow := Some "none" |})
    end).
End WithCrypto.

End OTPGenerator.

(* ===================================================================== *)
(** * src/lib/otp-parser.js                                               *)
(* ===================================================================== *)

Module OTPParser.
Import JS.

(** The object built by [parseStandardOTPUrl]. *)
Record ParsedOTP : Type := {
  type : string;
  label : string;
  issuer : string;
  account : string;
  secret : string;
  algorithm : string;
  digits : jsnum;
  period : jsnum;
  counter : jsnum;
  hash : string;
  originalUrl : string;
  valid : bool
}.

(** What the parsing functions return: [null], the diagnostic object of
    a secret of the wrong shape, the migration notice, or the result. *)
Inductive ParseResult : Type :=
| Null
| InvalidSecret (error secret originalUrl : string)
| Migration (originalUrl : string)
| Parsed (d : ParsedOTP).

(** [/^[0-9a-f]+$/i.test(s)] *)
Fixpoint all_hex (s : string) : bool :=
  match s with
  | EmptyString => true
  | String c r => (match unhex c with Some _ => true | None => false end) && all_hex r
  end.
Definition test_hex (s : string) : bool :=
  negb (String.eqb s "") && all_hex s.

(** [/^[2-7a-z]+=*$/i.test(s)] *)
Definition is_base32_char (c : ascii) : bool :=
  in_range "2" "7" c || in_range "a" "z" c || in_range "A" "Z" c.
Fixpoint all_equals (s : string) : bool :=
  match s with
  | EmptyString => true
  | String c r => Ascii.eqb c "=" && all_equals r
  end.
Fixpoint base32_tail (s : string) : bool :=
  match s with
  | EmptyString => true
  | String c r => if is_base32_char c then base32_tail r else all_equals s
  end.
Definition test_base32 (s : string) : bool :=
  match s with
  | String c r => is_base32_char c && base32_tail r
  | EmptyString => false
  end.

(** What the group [.*] captures at the start of [s]: up to a line terminator. *)
Fixpoint dot_star (s : string) : string :=
  match s with
  | EmptyString => EmptyString
  | String c r =>
      if Ascii.eqb c "010" || Ascii.eqb c "013" then EmptyString
      else String c (dot_star r)
  end.

(** The variables assigned by the [forEach] over the parameters. *)
Record Params : Type := {
  p_secret : option string;
  p_issuer : option string;
  p_algorithm : option string;
  p_period : option jsnum;
  p_digits : option jsnum;
  p_counter : option jsnum
}.

(** The period rule of the [switch]. *)
Definition normalize_period (value : option string) : option jsnum :=
  let period := Number value in
  if isNaN period || num_lt period (num_of_Z 0) || num_gt period (num_of_Z 60)
     || negb (num_eq (num_rem (num_of_Z 60) period) (num_of_Z 0))
  then None
  else Some period.

Definition normalize_digits (value : option string) : jsnum :=
  let digits := Number value in
  if isNaN digits || num_eq digits (num_of_Z 0) then num_of_Z 6 else digits.

Definition normalize_counter (value : option string) : jsnum :=
  let counter := Number value in
  if isNaN counter || num_lt counter (num_of_Z 0) then num_of_Z 0 else counter.

Section WithEnvironment.
(** [decodeURIComponent], which throws a URIError on a malformed
    escape, and the identifier drawn by [uuidv4()]. *)
Variable decodeURIComponent : string -> result string.
Variable uuidv4 : string.

(** Body of the [forEach] callback for one [item]. *)
Definition parameter_step (st : Params) (item : string) : result Params :=
  let parameter := split item "=" in
  let key := toLowerCase (nth 0 parameter "") in
  let value := nth_error parameter 1 in
  if String.eqb key "secret" then
    Ok {| p_secret := value; p_issuer := p_issuer st;
          p_algorithm := p_algorithm st; p_period := p_period st;
          p_digits := p_digits st; p_counter := p_counter st |}
  else if String.eqb key "issuer" then
    let issuer :=
      match value with
      | None => "undefined"
      | Some v =>
          match decodeURIComponent v with
          | Ok decoded => decoded
          | Throw _ => v
          end
      end in
    Ok {| p_secret := p_secret st;
          p_issuer := Some (replace_all_char "+" " " issuer);
          p_algorithm := p_algorithm st; p_period := p_period st;
          p_digits := p_digits st; p_counter := p_counter st |}
  else if String.eqb key "counter" then
    Ok {| p_secret := p_secret st; p_issuer := p_issuer st;
          p_algorithm := p_algorithm st; p_period := p_period st;
          p_digits := p_digits st;
          p_counter := Some (normalize_counter value) |}
  else if String.eqb key "period" then
    Ok {| p_secret := p_secret st; p_issuer := p_issuer st;
          p_algorithm := p_algorithm st;
          p_period := normalize_period value;
          p_digits := p_digits st; p_counter := p_counter st |}
  else if String.eqb key "digits" then
    Ok {| p_secret := p_secret st; p_issuer := p_issuer st;
          p_algorithm := p_algorithm st; p_period := p_period st;
          p_digits := Some (normalize_digits value);
          p_counter := p_counter st |}
  else if String.eqb key "algorithm" then
    match value with
    | None => Throw (TypeError "Cannot read properties of undefined")
    | Some v =>
        Ok {| p_secret := p_secret st; p_issuer := p_issuer st;
              p_algorithm := Some (toUpperCase v); p_period := p_period st;
              p_digits := p_digits st; p_counter := p_counter st |}
    end
  else Ok st.

Fixpoint parameters_forEach (parameters : list string) (st : Params)
  : result Params :=
  match parameters with
  | [] => Ok st
  | item :: rest => bind (parameter_step st item) (parameters_forEach rest)
  end.

(** The part of [parseStandardOTPUrl] that follows the [forEach]. *)
Definition build_result (otpUrl type label : string) (issuer account : option string)
    (st : Params) : ParseResult :=
  match p_secret st with
  | None | Some EmptyString => Null
  | Some secret =>
      if negb (test_hex secret) && negb (test_base32 secret)
      then InvalidSecret "Invalid secret format" secret otpUrl
      else
        let type :=
          if negb (test_base32 secret) && test_hex secret
          then (if String.eqb type "totp" then "hex"
                else if String.eqb type "hotp" then "hhex"
                else type)
          else type in
        let '(secret, type) :=
          if startsWith secret "blz-" then (dot_star (drop 4 secret), "battle")
          else if startsWith secret "bliz-" then (dot_star (drop 5 secret), "battle")
          else (secret, type) in
        let '(secret, type) :=
          if startsWith secret "stm-" then (dot_star (drop 4 secret), "steam")
          else (secret, type) in
        Parsed {| type := type;
                  label := label;
                  issuer := or_string issuer "";
                  account := or_string account "";
                  secret := secret;
                  algorithm := or_string (p_algorithm st) "SHA1";
                  digits := or_num (p_digits st) (num_of_Z 6);
                  period := or_num (p_period st) (num_of_Z 30);
                  counter := or_num (p_counter st) (num_of_Z 0);
                  hash := uuidv4;
                  originalUrl := otpUrl;
                  valid := true |}
  end.

Definition parseStandardOTPUrl (otpUrl : string) : ParseResult :=
  match nth_error (split otpUrl "otpauth://") 1 with
  | None | Some EmptyString => Null
  | Some uri =>
      let type := toLowerCase (substr uri 0 4) in
      let uri := substr_from uri 5 in
      let label := nth 0 (split uri "?") "" in
      let parameterPart := nth_error (split uri "?") 1 in
      match label, parameterPart with
      | EmptyString, _ | _, None | _, Some EmptyString => Null
      | _, Some parameterPart =>
          let label :=
            match decodeURIComponent label with
            | Ok decoded => decoded
            | Throw _ => label
            end in
          let '(issuer, account) :=
            if includes_char label ":"
            then (nth_error (split label ":") 0, nth_error (split label ":") 1)
            else (None, Some label) in
          let parameters := split parameterPart "&" in
          match parameters_forEach parameters
                  {| p_secret := Some ""; p_issuer := issuer;
                     p_algorithm := None; p_period := None;
                     p_digits := None; p_counter := None |} with
          | Throw _ => Null
          | Ok st => build_result otpUrl type label (p_issuer st) account st
          end
      end
  end.

Definition parseMigrationUrl (migrationUrl : string) : ParseResult :=
  Migration migrationUrl.

Definition parseOTPAuth (otpUrl : string) : ParseResult :=
  if String.eqb otpUrl "" then Null
  else if startsWith otpUrl "otpauth-migration://" then parseMigrationUrl otpUrl
  else if startsWith otpUrl "otpauth://" then parseStandardOTPUrl otpUrl
  else Null.
End WithEnvironment.

(** ** Validation: [validateOTPData] *)

(** [Object.values(OTPType)] and [Object.values(OTPAlgorithm)]. *)
Definition OTPType_values : list string :=
  ["totp"; "hotp"; "battle"; "steam"; "hex"; "hhex"].
Definition OTPAlgorithm_values : list string :=
  ["SHA1"; "SHA256"; "SHA512"; "GOST3411_2012_256"; "GOST3411_2012_512"].

(** [values.includes(s)] *)
Definition includes (values : list string) (s : string) : bool :=
  existsb (String.eqb s) values.

(** Truthiness of a property that holds a string or is [undefined]. *)
Definition string_truthy (s : option string) : bool :=
  match s with
  | Some (String _ _) => true
  | _ => false
  end.

(** The properties that [validateOTPData] reads from the objects that
    the parsing functions return; [None] stands for [undefined]. *)
Definition get_secret (o : ParseResult) : option string :=
  match o with
  | InvalidSecret _ s _ => Some s
  | Parsed d => Some (secret d)
  | _ => None
  end.
Definition get_type (o : ParseResult) : option string :=
  match o with
  | Migration _ => Some "migration"
  | Parsed d => Some (type d)
  | _ => None
  end.
Definition get_algorithm (o : ParseResult) : option string :=
  match o with
  | Parsed d => Some (algorithm d)
  | _ => None
  end.
Definition get_digits (o : ParseResult) : option jsnum :=
  match o with
  | Parsed d => Some (digits d)
  | _ => None
  end.
Definition get_period (o : ParseResult) : option jsnum :=
  match o with
  | Parsed d => Some (period d)
  | _ => None
  end.
Definition get_issuer (o : ParseResult) : option string :=
  match o with
  | Parsed d => Some (issuer d)
  | _ => None
  end.

(** The object returned by [validateOTPData]; the early return for a
    missing argument has no [warnings]. *)
Module Validation.
Record t : Type := {
  valid : bool;
  errors : list string;
  warnings : option (list string)
}.
End Validation.

Section WithNumberFormat.
(** The text that a template literal inserts for a Number. *)
Variable Number_toString : jsnum -> string.

Definition validateOTPData (otpData : ParseResult) : Validation.t :=
  match otpData with
  | Null =>
      {| Validation.valid := false;
         Validation.errors := ["No OTP data provided"];
         Validation.warnings := None |}
  | _ =>
      let errors := [] in
      let warnings := [] in
      let errors :=
        if string_truthy (get_secret otpData) then errors
        else errors ++ ["Secret is required"] in
      let errors :=
        if string_truthy (get_type otpData) then errors
        else errors ++ ["OTP type is required"] in
      let errors :=
        match get_type otpData with
        | Some (String c r) =>
            if includes OTPType_values (String c r) then errors
            else errors ++ [String.append "Invalid OTP type: " (String c r)]
        | _ => errors
        end in
      let warnings :=
        match get_algorithm otpData with
        | Some (String c r) =>
            if includes OTPAlgorithm_values (String c r) then warnings
            else warnings ++
                 [String.append "Unknown algorithm: "
                    (String.append (String c r) ", will default to SHA1")]
        | _ => warnings
        end in
      let warnings :=
        match get_digits otpData with
        | Some n =>
            if num_truthy n && (num_lt n (num_of_Z 4) || num_gt n (num_of_Z 10))
            then warnings ++
                 [String.append "Unusual digit count: "
                    (String.append (Number_toString n) ", typical values are 6-8")]
            else warnings
        | None => warnings
        end in
      let warnings :=
        match get_type otpData, get_period otpData with
        | Some ty, Some p =>
            if String.eqb ty "totp" && num_truthy p
            then
              if num_lt p (num_of_Z 15) || num_gt p (num_of_Z 300)
              then warnings ++
                   [String.append "Unusual period: "
                      (String.append (Number_toString p)
                         " seconds, typical value is 30")]
              else warnings
            else warnings
        | _, _ => warnings
        end in
      let warnings :=
        if string_truthy (get_issuer otpData) then warnings
        else warnings ++
             ["No issuer specified - this may make it harder to identify the account"] in
      {| Validation.valid := Nat.eqb (List.length errors) 0;
         Validation.errors := errors;
         Validation.warnings := Some warnings |}
  end.
End WithNumberFormat.

End OTPParser.

(* ===================================================================== *)
(** * src/services/qr-service-optimized.js and the older QR processor     *)
(* ===================================================================== *)

(** [isValidOTPUrl] of the canvas-based processor (src/unnamed/part_002),
    the one place of the repository that tests the scheme prefix of a
    decoded text. *)
Definition isValidOTPUrl (data : string) : bool :=
  if String.eqb data "" then false
  else JS.startsWith data "otpauth://" || JS.startsWith data "otpauth-migration://".

Module QRService.
Import JS.

Inductive InversionAttempts : Type := dontInvert | onlyInvert | attemptBoth.

Record ImageInfo : Type := {
  width : Z;
  height : Z;
  hasAlpha : bool;
  channels : Z
}.

Section WithLibraries.
(** Jimp images with the operations used on them, and jsQR.  Every
    operation is applied to a fresh [clone()], so the operations are
    functions.  [jsQR] returns the decoded text of the code it finds,
    [None] for [null], or throws. *)
Variable Image : Type.
Variable getWidth getHeight : Image -> Z.
Variable image_hasAlpha : Image -> bool.
Variable greyscale invert : Image -> Image.
Variable contrast scale : jsnum -> Image -> Image.
Variable jsQR : Image -> option InversionAttempts -> result (option string).
Variable parseOTPAuth : string -> OTPParser.ParseResult.

Record Attempt : Type := {
  image : Image;
  description : string
}.

(** The object returned by [processJimpImage]. *)
Record ProcessResult : Type := {
  success : bool;
  error : option string;
  code : option string;
  data : option OTPParser.ParseResult;
  qrData : option string;
  imageInfo : option ImageInfo;
  detectionMethod : option string;
  attemptsCount : option nat
}.

(** [qrCode && qrCode.data]: a code was found and its text is not
    empty. *)
Definition has_data (qrCode : option string) : option string :=
  match qrCode with
  | Some (String c r) => Some (String c r)
  | _ => None
  end.

Definition extractQRFromJimp (image : Image) : option string :=
  match jsQR image (Some dontInvert) with
  | Throw _ => None
  | Ok qrCode =>
      match has_data qrCode with
      | Some text => Some text
      | None =>
          match jsQR image (Some attemptBoth) with
          | Throw _ => None
          | Ok qrCodeWithInversion => has_data qrCodeWithInversion
          end
      end
  end.

(** [maxDimension / width] and [Math.min] on the two quotients. *)
Definition scale_factor (maxDimension w h : Z) : jsnum :=
  let a := round_ratio false maxDimension w in
  let b := round_ratio false maxDimension h in
  if num_lt b a then b else a.

(** [Math.round(n * scale)] printed in a template literal, for a
    positive finite [scale]. *)
Definition round_scaled (n : Z) (scale : jsnum) : string :=
  match scale with
  | Fin false m e =>
      match round_ratio false (n * Z.of_N m * 2 ^ Z.max 0 e) (2 ^ Z.max 0 (- e)) with
      | Fin _ pm pe =>
          Z_toString ((2 * Z.of_N pm * 2 ^ Z.max 0 pe + 2 ^ Z.max 0 (- pe))
                      / (2 * 2 ^ Z.max 0 (- pe)))
      | _ => "Infinity"
      end
  | _ => "NaN"
  end.

Definition attempts_of (img : Image) : list Attempt :=
  let attempts :=
    [ {| image := img; description := "original" |};
      {| image := greyscale img; description := "grayscale" |};
      {| image := contrast (round_ratio false 5 10) img;
         description := "high contrast" |};
      {| image := invert img; description := "inverted" |};
      {| image := contrast (round_ratio false 3 10) (greyscale img);
         description := "grayscale + contrast" |} ] in
  if (1000 <? getWidth img) || (1000 <? getHeight img)
  then
    let maxDimension := 800 in
    let scale_ := scale_factor maxDimension (getWidth img) (getHeight img) in
    attempts ++
    [ {| image := scale scale_ img;
         description :=
           String.append "resized to "
             (String.append (round_scaled (getWidth img) scale_)
                (String.append "x" (round_scaled (getHeight img) scale_))) |} ]
  else attempts.

(** [for (const attempt of attempts)]: the text and the description
    of the first attempt whose extraction returns a text. *)
Fixpoint try_attempts (attempts : list Attempt) : option (string * string) :=
  match attempts with
  | [] => None
  | attempt :: rest =>
      match extractQRFromJimp (image attempt) with
      | Some result => Some (result, description attempt)
      | None => try_attempts rest
      end
  end.

Definition processJimpImage (img : Image) : ProcessResult :=
  let imageInfo :=
    {| width := getWidth img; height := getHeight img;
       hasAlpha := image_hasAlpha img;
       channels := if image_hasAlpha img then 4 else 3 |} in
  let attempts := attempts_of img in
  match try_attempts attempts with
  | None =>
      {| success := false;
         error := Some "No QR code detected in image";
         code := Some "NO_QR_FOUND";
         data := None; qrData := None;
         imageInfo := Some imageInfo;
         detectionMethod := None;
         attemptsCount := Some (List.length attempts) |}
  | Some (qrData_, successfulMethod) =>
      match parseOTPAuth qrData_ with
      | OTPParser.Null =>
          {| success := false;
             error := Some "QR code does not contain valid OTP data";
             code := Some "INVALID_QR_DATA";
             data := None; qrData := Some qrData_;
             imageInfo := Some imageInfo;
             detectionMethod := Some successfulMethod;
             attemptsCount := None |}
      | parsedOTP =>
          {| success := true;
             error := None; code := None;
             data := Some parsedOTP; qrData := Some qrData_;
             imageInfo := Some imageInfo;
             detectionMethod := Some successfulMethod;
             attemptsCount := None |}
      end
  end.

(** ** The fast profile: [QRServiceOptimized] *)

(** [processQRResult(qrResult, method)], with [rawData] in [qrData]. *)
Definition processQRResult (qrText : string) (method : string) : ProcessResult :=
  match parseOTPAuth qrText with
  | OTPParser.Null =>
      {| success := false;
         error := Some "QR code does not contain valid OTP data";
         code := Some "INVALID_OTP_DATA";
         data := None; qrData := Some qrText;
         imageInfo := None; detectionMethod := None;
         attemptsCount := None |}
  | otpData =>
      {| success := true;
         error := None; code := None;
         data := Some otpData; qrData := Some qrText;
         imageInfo := None; detectionMethod := Some method;
         attemptsCount := None |}
  end.

Definition scan_error : ProcessResult :=
  {| success := false;
     error := Some "Failed to scan QR code";
     code := Some "SCAN_ERROR";
     data := None; qrData := None; imageInfo := None;
     detectionMethod := None; attemptsCount := None |}.

Definition fastQRScan (img : Image) : ProcessResult :=
  match jsQR img None with
  | Throw _ => scan_error
  | Ok (Some qrText) => processQRResult qrText "optimized"
  | Ok None =>
      match jsQR (invert img) None with
      | Throw _ => scan_error
      | Ok (Some qrText) => processQRResult qrText "inverted"
      | Ok None =>
          match jsQR (contrast (round_ratio false 5 10) img) None with
          | Throw _ => scan_error
          | Ok (Some qrText) => processQRResult qrText "high-contrast"
          | Ok None =>
              {| success := false;
                 error := Some "No QR code found in image";
                 code := Some "NO_QR_FOUND";
                 data := None; qrData := None; imageInfo := None;
                 detectionMethod := None; attemptsCount := None |}
          end
      end
  end.
End WithLibraries.

End QRService.

(* ===================================================================== *)
(** * Specification-side definitions and sample inputs                    *)
(* ===================================================================== *)

Module Spec.
Import JS.

(** ** Code generation *)

Definition is_byte (b : Z) : Prop := 0 <= b < 256.

(** RFC 4226, 5.3, as the specification words it: the offset is the
    low nibble of the last byte, four bytes from there are read as a
    big-endian number, whose top bit is dropped. *)
Definition rfc4226_offset (hash : list Z) : nat :=
  Z.to_nat (last hash 0 mod 16).

Definition rfc4226_truncation (hash : list Z) : Z :=
  let offset := rfc4226_offset hash in
  let word :=
    nth offset hash 0 * 2 ^ 24 + nth (offset + 1) hash 0 * 2 ^ 16
    + nth (offset + 2) hash 0 * 2 ^ 8 + nth (offset + 3) hash 0 in
  word mod 2 ^ 31.

(** The decimal code: reduction modulo [10^digits], padded with zeros. *)
Definition rfc4226_code (hash : list Z) (digits : N) : string :=
  pad_left (Z_toString (rfc4226_truncation hash mod 10 ^ Z.of_N digits))
    (N.to_nat digits) "0".

(** The value of eight bytes read as a big-endian number. *)
Definition be64_value (bs : list Z) : Z :=
  match bs with
  | [b0; b1; b2; b3; b4; b5; b6; b7] =>
      b0 * 2 ^ 56 + b1 * 2 ^ 48 + b2 * 2 ^ 40 + b3 * 2 ^ 32
      + b4 * 2 ^ 24 + b5 * 2 ^ 16 + b6 * 2 ^ 8 + b7
  | _ => -1
  end.

(** ** Time windows and verification *)

(** The period that the time-based functions use for a descriptor. *)
Definition effective_period (o : OTPGenerator.OtpData) : Z :=
  or_Z (OTPGenerator.period o) 30.

(** The code of a generation, or its exception. *)
Definition code_of_result (r : result OTPGenerator.TimeResult.t) : result string :=
  bind r (fun r => Ok (OTPGenerator.TimeResult.code r)).

(** The code of the window [i] periods away from the current one. *)
Definition code_at (createHmac : string -> Buffer -> Buffer -> result Buffer)
    (otpData : OTPGenerator.OtpData) (currentTime i : Z) : result string :=
  code_of_result
    (OTPGenerator.generateTOTP createHmac otpData
       (currentTime + i * effective_period otpData)).

(** The window [k] produces a code, and another one than the candidate. *)
Definition differs_at (createHmac : string -> Buffer -> Buffer -> result Buffer)
    (otpData : OTPGenerator.OtpData) (providedCode : string) (currentTime k : Z)
  : Prop :=
  exists c, code_at createHmac otpData currentTime k = Ok c /\ c <> providedCode.

(** The object returned for a match at offset [i]. *)
Definition match_at (otpData : OTPGenerator.OtpData) (providedCode : string) (i : Z)
  : OTPGenerator.VerifyResult.t :=
  {| OTPGenerator.VerifyResult.valid := true;
     OTPGenerator.VerifyResult.counter := None;
     OTPGenerator.VerifyResult.timeOffset := Some (i * effective_period otpData);
     OTPGenerator.VerifyResult.providedCode := providedCode;
     OTPGenerator.VerifyResult.expectedCode := providedCode;
     OTPGenerator.VerifyResult.timeWindow :=
       Some (if i =? 0 then "current" else if i <? 0 then "previous" else "next") |}.

(** The object returned when no window matches. *)
Definition no_match (providedCode expected : string) : OTPGenerator.VerifyResult.t :=
  {| OTPGenerator.VerifyResult.valid := false;
     OTPGenerator.VerifyResult.counter := None;
     OTPGenerator.VerifyResult.timeOffset := None;
     OTPGenerator.VerifyResult.providedCode := providedCode;
     OTPGenerator.VerifyResult.expectedCode := expected;
     OTPGenerator.VerifyResult.timeWindow := Some "none" |}.

(** ** Windows of counters *)

(** The counters [c, c + 1, ..., c + (n - 1)]. *)
Fixpoint counters_from (c : Z) (n : nat) : list Z :=
  match n with
  | O => []
  | S k => c :: counters_from (c + 1) k
  end.

Definition entry_counter (e : OTPGenerator.HotpEntry.t) : Z :=
  OTPGenerator.CounterResult.counter (OTPGenerator.HotpEntry.result e).

(** ** Numbers, read as exact values with the fractions cleared *)

(** [z <= n] and [n <= z] for a Number [n] and an integer [z]. *)
Definition num_ge_Z (n : jsnum) (z : Z) : Prop :=
  match n with
  | NaN => False
  | Inf neg => neg = false
  | Fin neg m e => z * 2 ^ Z.max 0 (- e) <= signed neg m * 2 ^ Z.max 0 e
  end.

Definition num_le_Z (n : jsnum) (z : Z) : Prop :=
  match n with
  | NaN => False
  | Inf neg => neg = true
  | Fin neg m e => signed neg m * 2 ^ Z.max 0 e <= z * 2 ^ Z.max 0 (- e)
  end.

(** [k * n = z] for a finite Number [n] and integers [k] and [z]. *)
Definition num_times_is (k : Z) (n : jsnum) (z : Z) : Prop :=
  match n with
  | Fin neg m e => k * signed neg m * 2 ^ Z.max 0 e = z * 2 ^ Z.max 0 (- e)
  | _ => False
  end.

Definition num_is_zero (n : jsnum) : bool :=
  match n with
  | Fin _ m _ => N.eqb m 0
  | _ => false
  end.

(** A period that the specification keeps: a number that is
    non-negative, at most 60, and an exact divisor of 60. *)
Definition valid_period (n : jsnum) : Prop :=
  num_ge_Z n 0 /\ num_le_Z n 60 /\ exists k, num_times_is k n 60.

(** The test that the period rule of the parser applies to the Number. *)
Definition period_test (n : jsnum) : bool :=
  isNaN n || num_lt n (num_of_Z 0) || num_gt n (num_of_Z 60)
  || negb (num_eq (num_rem (num_of_Z 60) n) (num_of_Z 0)).

(** The digit counts of the specification's data model. *)
Definition digits_in_range (n : jsnum) : Prop :=
  num_ge_Z n 4 /\ num_le_Z n 10.

(** ** The query of a credential URI *)

(** The parameters that [parseStandardOTPUrl] iterates over. *)
Definition query_parameters (otpUrl : string) : list string :=
  match nth_error (split otpUrl "otpauth://") 1 with
  | Some uri =>
      match nth_error (split (substr_from uri 5) "?") 1 with
      | Some parameterPart => split parameterPart "&"
      | None => []
      end
  | None => []
  end.

Definition parameter_key (item : string) : string :=
  toLowerCase (nth 0 (split item "=") "").
Definition parameter_value (item : string) : option string :=
  nth_error (split item "=") 1.

(** The value of the last parameter named [key]: [None] when no
    parameter has this name, [Some None] when the last one that has it
    carries no value. *)
Fixpoint query_value (key : string) (parameters : list string)
  : option (option string) :=
  match parameters with
  | [] => None
  | item :: rest =>
      match query_value key rest with
      | Some v => Some v
      | None => if String.eqb (parameter_key item) key
                then Some (parameter_value item) else None
      end
  end.

(** ** Sample inputs *)

(** The descriptor of the RFC 6238 test vectors, with eight digits. *)
Definition rfc6238_descriptor : OTPGenerator.OtpData :=
  {| OTPGenerator.type := "totp";
     OTPGenerator.secret := "GEZDGNBVGY3TQOJQGEZDGNBVGY3TQOJQ";
     OTPGenerator.algorithm := Some "SHA1";
     OTPGenerator.digits := Some 8%N;
     OTPGenerator.period := Some 30;
     OTPGenerator.counter := None |}.

(** A descriptor with one digit: the codes of the counters 1, 2 and 3
    of the RFC 4226 secret are "2", "2" and "9". *)
Definition one_digit_descriptor : OTPGenerator.OtpData :=
  {| OTPGenerator.type := "totp";
     OTPGenerator.secret := "GEZDGNBVGY3TQOJQGEZDGNBVGY3TQOJQ";
     OTPGenerator.algorithm := Some "SHA1";
     OTPGenerator.digits := Some 1%N;
     OTPGenerator.period := Some 30;
     OTPGenerator.counter := None |}.

(** The counter descriptor of the specification's example: counter 10. *)
Definition hotp_descriptor_10 : OTPGenerator.OtpData :=
  {| OTPGenerator.type := "hotp";
     OTPGenerator.secret := "GEZDGNBVGY3TQOJQGEZDGNBVGY3TQOJQ";
     OTPGenerator.algorithm := Some "SHA1";
     OTPGenerator.digits := Some 6%N;
     OTPGenerator.period := None;
     OTPGenerator.counter := Some 10 |}.

(** A counter descriptor at the last counter of 32 bits. *)
Definition hotp_descriptor_last : OTPGenerator.OtpData :=
  {| OTPGenerator.type := "hotp";
     OTPGenerator.secret := "GEZDGNBVGY3TQOJQGEZDGNBVGY3TQOJQ";
     OTPGenerator.algorithm := Some "SHA1";
     OTPGenerator.digits := Some 6%N;
     OTPGenerator.period := None;
     OTPGenerator.counter := Some 4294967295 |}.

(** The secret decoder that the counter generator selects. *)
Definition hotp_key (o : OTPGenerator.OtpData) : result Buffer :=
  if String.eqb (OTPGenerator.type o) "hhex"
  then OTPGenerator.hexToBuffer (OTPGenerator.secret o)
  else OTPGenerator.base32ToBuffer (OTPGenerator.secret o).

(** ** The fast profile *)

(** The transforms of the fast profile, in the order in which it tries
    them, each with the method name reported for it. *)
Definition fast_transforms {Image : Type} (invert : Image -> Image)
    (contrast : jsnum -> Image -> Image) (img : Image) : list (Image * string) :=
  [ (img, "optimized");
    (invert img, "inverted");
    (contrast (round_ratio false 5 10) img, "high-contrast") ].

(** [decodeURIComponent] on a text without escape sequences, and a
    drawn identifier. *)
Definition plain_decodeURIComponent (s : string) : result string := Ok s.
Definition sample_uuid : string := "2f1e4fc0-81fd-11da-9156-00036a0f876a".

(** A photograph of a code that holds a web address: every transform
    of the image decodes it. *)
Definition web_address_decoder (img : unit)
    (options : option QRService.InversionAttempts) : result (option string) :=
  Ok (Some "https://example.com/").

Definition web_address_result : QRService.ProcessResult :=
  QRService.processJimpImage unit (fun _ => 640) (fun _ => 480) (fun _ => false)
    (fun i => i) (fun i => i) (fun _ i => i) (fun _ i => i) web_address_decoder
    (OTPParser.parseOTPAuth plain_decodeURIComponent sample_uuid) tt.

End Spec.

Import JS Spec.

(* ===================================================================== *)
(** * Reference encoders and further specification-side definitions       *)
(* ===================================================================== *)

Module Reference.
Import JS Spec.

(** ** Base32 (RFC 4648, 6) *)

(** The eight bits of a byte, most significant first. *)
Definition byte_bits (b : Z) : list bool :=
  map (Z.testbit b) [7; 6; 5; 4; 3; 2; 1; 0].

(** The number written by a list of bits, most significant first. *)
Definition bits_value (bits : list bool) : Z :=
  fold_left (fun acc (b : bool) => 2 * acc + (if b then 1 else 0)) bits 0.

(** The bit stream cut into groups of five, the last one completed with
    zero bits. *)
Fixpoint quintets (bits : list bool) : list (list bool) :=
  match bits with
  | [] => []
  | [a] => [[a; false; false; false; false]]
  | [a; b] => [[a; b; false; false; false]]
  | [a; b; c] => [[a; b; c; false; false]]
  | [a; b; c; d] => [[a; b; c; d; false]]
  | a :: b :: c :: d :: e :: rest => [a; b; c; d; e] :: quintets rest
  end.

(** The letter of a group, in the alphabet [A-Z2-7]. *)
Definition base32_symbol (q : list bool) : ascii :=
  nth (Z.to_nat (bits_value q)) (list_ascii_of_string "ABCDEFGHIJKLMNOPQRSTUVWXYZ234567")
    "="%char.

Definition base32_symbols (bytes : list Z) : list ascii :=
  map base32_symbol (quintets (flat_map byte_bits bytes)).

(** The encoding, with [=] up to a multiple of eight characters. *)
Definition base32_encode (bytes : list Z) : string :=
  let symbols := base32_symbols bytes in
  string_of_list_ascii
    (symbols ++ repeat "="%char ((8 - List.length symbols mod 8) mod 8)%nat).

(** The characters of a secret that [base32ToBuffer] decodes: upper case,
    without the [=]. *)
Definition base32_letters (base32 : string) : string :=
  replace_all_char "=" "" (toUpperCase base32).

Fixpoint string_forallb (f : ascii -> bool) (s : string) : bool :=
  match s with
  | EmptyString => true
  | String c r => f c && string_forallb f r
  end.

Definition in_base32_alphabet (c : ascii) : bool :=
  in_range "A" "Z" c || in_range "2" "7" c.

Definition is_quintet (q : list bool) : Prop :=
  exists a b c d e, q = [a; b; c; d; e].

(** A list of bits written with the characters 0 and 1. *)
Fixpoint bitstring (bits : list bool) : string :=
  match bits with
  | [] => EmptyString
  | b :: rest => String (if b then "1" else "0")%char (bitstring rest)
  end.

(** ** Hexadecimal *)

Definition hex_digit (upper : bool) (v : Z) : ascii :=
  nth (Z.to_nat v)
    (list_ascii_of_string (if upper then "0123456789ABCDEF" else "0123456789abcdef"))
    "0"%char.

(** Two digits per byte, in lower or in upper case. *)
Fixpoint hex_encode (upper : bool) (bytes : list Z) : string :=
  match bytes with
  | [] => EmptyString
  | b :: rest =>
      String (hex_digit upper (b / 16)) (String (hex_digit upper (b mod 16))
        (hex_encode upper rest))
  end.

(** The value of a list of bytes read as a big-endian number. *)
Definition bytes_value (bytes : list Z) : Z :=
  fold_left (fun acc b => 256 * acc + b) bytes 0.

(** The value of a hexadecimal numeral, or [None] when a character is
    not a hexadecimal digit. *)
Fixpoint hex_value_from (acc : Z) (s : string) : option Z :=
  match s with
  | EmptyString => Some acc
  | String c r =>
      match unhex c with
      | Some v => hex_value_from (16 * acc + v) r
      | None => None
      end
  end.
Definition hex_value (s : string) : option Z := hex_value_from 0 s.

(** The scheme token that [parseStandardOTPUrl] reads: the first four
    characters after the prefix, in lower case. *)
Definition scheme_token (otpUrl : string) : string :=
  match nth_error (split otpUrl "otpauth://") 1 with
  | Some uri => toLowerCase (substr uri 0 4)
  | None => ""
  end.

(** The label as the URI spells it: what stands between the scheme
    token with its separator and the first question mark. *)
Definition raw_label (otpUrl : string) : string :=
  match nth_error (split otpUrl "otpauth://") 1 with
  | Some uri => nth 0 (split (substr_from uri 5) "?") ""
  | None => ""
  end.

(** A text decoded when [decodeURIComponent] accepts it, and left as it
    is otherwise. *)
Definition decoded_or_raw (decodeURIComponent : string -> result string) (s : string)
  : string :=
  match decodeURIComponent s with
  | Ok decoded => decoded
  | Throw _ => s
  end.

(** The issuer that an [issuer] parameter with the value [v] gives. *)
Definition issuer_text (decodeURIComponent : string -> result string)
    (v : option string) : string :=
  replace_all_char "+" " "
    (match v with
     | None => "undefined"
     | Some v => decoded_or_raw decodeURIComponent v
     end).

(** A descriptor of the time family turned into the counter family,
    with the counter [c]. *)
Definition counter_view (o : OTPGenerator.OtpData) (c : Z) : OTPGenerator.OtpData :=
  {| OTPGenerator.type := if String.eqb (OTPGenerator.type o) "hex" then "hhex" else "hotp";
     OTPGenerator.secret := OTPGenerator.secret o;
     OTPGenerator.algorithm := OTPGenerator.algorithm o;
     OTPGenerator.digits := OTPGenerator.digits o;
     OTPGenerator.period := OTPGenerator.period o;
     OTPGenerator.counter := Some c |}.

(** ** Further sample inputs *)

(** The generator's view of the descriptor that the parser returns for
    [otpauth://totp/X?secret=JBSWY3DPEHPK3PXP&algorithm=sha256]. *)
Definition sha256_descriptor : OTPGenerator.OtpData :=
  {| OTPGenerator.type := "totp";
     OTPGenerator.secret := "JBSWY3DPEHPK3PXP";
     OTPGenerator.algorithm := Some "SHA256";
     OTPGenerator.digits := Some 6%N;
     OTPGenerator.period := Some 30;
     OTPGenerator.counter := Some 0 |}.

(** A photograph of a credential code: the decoder reads it at once. *)
Definition credential_decoder (img : unit)
    (options : option QRService.InversionAttempts) : result (option string) :=
  Ok (Some "otpauth://totp/X?secret=JBSWY3DPEHPK3PXP").

Definition credential_scan : QRService.ProcessResult :=
  QRService.fastQRScan unit (fun i => i) (fun _ i => i) credential_decoder
    (OTPParser.parseOTPAuth plain_decodeURIComponent sample_uuid) tt.

(** The characters of a decimal code. *)
Definition is_decimal_digit (c : ascii) : bool := in_range "0" "9" c.

End Reference.

Import Reference.

(* ===================================================================== *)
(** * Properties of the code generator                                    *)
(* ===================================================================== *)

(** ** Big-endian bytes *)

Lemma land_shiftl8_byte (x b : Z) : is_byte b -> Z.land (Z.shiftl x 8) b = 0.
Proof.
  intros Hb. apply Z.bits_inj'. intros n Hn.
  rewrite Z.land_spec, Z.bits_0.
  destruct (Z.ltb_spec n 8) as [Hlt | Hge].
  - rewrite Z.shiftl_spec_low by lia. reflexivity.
  - assert (Hbn : Z.testbit b n = false).
    { destruct (Z.eq_dec b 0) as [-> | Hnz]; [apply Z.bits_0 |].
      apply Z.bits_above_log2; [unfold is_byte in Hb; lia |].
      assert (Z.log2 b < 8) by (apply Z.log2_lt_pow2; unfold is_byte in Hb; lia).
      lia. }
    rewrite Hbn. apply andb_false_r.
Qed.

Lemma lor_shiftl8_byte (x b : Z) :
  is_byte b -> Z.lor (Z.shiftl x 8) b = x * 256 + b.
Proof.
  intros Hb.
  pose proof (Z.add_lor_land (Z.shiftl x 8) b) as Hsum.
  rewrite land_shiftl8_byte in Hsum by assumption.
  rewrite Z.shiftl_mul_pow2 in Hsum by lia. rewrite Z.shiftl_mul_pow2 by lia.
  change (2 ^ 8) with 256 in *. lia.
Qed.

Lemma be_value_4 (a b c d : Z) :
  is_byte a -> is_byte b -> is_byte c -> is_byte d ->
  be_value [a; b; c; d] = a * 2 ^ 24 + b * 2 ^ 16 + c * 2 ^ 8 + d.
Proof.
  intros Ha Hb Hc Hd. unfold be_value. cbn [fold_left].
  rewrite !lor_shiftl8_byte by assumption. lia.
Qed.

Lemma firstn4_skipn (l : list Z) (o : nat) :
  (o + 4 <= List.length l)%nat ->
  firstn 4 (skipn o l) = [nth o l 0; nth (o + 1) l 0; nth (o + 2) l 0; nth (o + 3) l 0].
Proof.
  revert l. induction o as [| o IH]; intros l Hlen.
  - destruct l as [| a [| b [| c [| d l]]]]; cbn in Hlen; try lia. reflexivity.
  - destruct l as [| a l]; cbn in Hlen; [lia |].
    cbn [skipn Nat.add nth]. apply IH. lia.
Qed.

(** The truncation of the code is the truncation of RFC 4226 on every
    digest that is long enough for its offset. *)
Lemma truncate_rfc4226 (hash : list Z) :
  Forall is_byte hash ->
  (rfc4226_offset hash + 4 <= List.length hash)%nat ->
  OTPGenerator.truncate hash = Ok (rfc4226_truncation hash).
Proof.
  intros Hbytes Hlen. unfold OTPGenerator.truncate, rfc4226_truncation, rfc4226_offset, readUInt32BE in *.
  change 0x0f with (Z.ones 4). rewrite Z.land_ones by lia. change (2 ^ 4) with 16.
  set (o := Z.to_nat (last hash 0 mod 16)) in *.
  destruct (Nat.ltb_spec (List.length hash) (o + 4)) as [Hbad | _]; [lia |].
  cbn [bind]. rewrite firstn4_skipn by assumption.
  assert (Hnth : forall k, (k < List.length hash)%nat -> is_byte (nth k hash 0)).
  { intros k Hk. rewrite Forall_forall in Hbytes. apply Hbytes, nth_In, Hk. }
  rewrite be_value_4 by (apply Hnth; lia).
  change 0x7fffffff with (Z.ones 31). rewrite Z.land_ones by lia. reflexivity.
Qed.

Lemma be_bytes_4 (x : Z) :
  0 <= x < 2 ^ 32 ->
  exists b4 b5 b6 b7,
    be_bytes 4 x = [b4; b5; b6; b7] /\
    is_byte b4 /\ is_byte b5 /\ is_byte b6 /\ is_byte b7 /\
    b4 * 2 ^ 24 + b5 * 2 ^ 16 + b6 * 2 ^ 8 + b7 = x.
Proof.
  intros Hx.
  exists (Z.land (Z.shiftr (Z.shiftr (Z.shiftr x 8) 8) 8) 0xff),
         (Z.land (Z.shiftr (Z.shiftr x 8) 8) 0xff),
         (Z.land (Z.shiftr x 8) 0xff), (Z.land x 0xff).
  split; [reflexivity |].
  change 0xff with (Z.ones 8). rewrite !Z.land_ones by lia.
  rewrite !Z.shiftr_div_pow2 by lia. change (2 ^ 8) with 256.
  unfold is_byte.
  pose proof (Z.mod_pos_bound x 256 ltac:(lia)).
  pose proof (Z.mod_pos_bound (x / 256) 256 ltac:(lia)).
  pose proof (Z.mod_pos_bound (x / 256 / 256) 256 ltac:(lia)).
  pose proof (Z.mod_pos_bound (x / 256 / 256 / 256) 256 ltac:(lia)).
  repeat split; try lia.
  pose proof (Z.div_mod x 256 ltac:(lia)).
  pose proof (Z.div_mod (x / 256) 256 ltac:(lia)).
  pose proof (Z.div_mod (x / 256 / 256) 256 ltac:(lia)).
  assert (x / 256 / 256 / 256 < 256).
  { rewrite !Z.div_div by lia. apply Z.div_lt_upper_bound; lia. }
  assert (0 <= x / 256 / 256 / 256).
  { rewrite !Z.div_div by lia. apply Z.div_pos; lia. }
  rewrite (Z.mod_small (x / 256 / 256 / 256) 256) by lia.
  lia.
Qed.

(** ** The counter message *)

Lemma counterBuffer_in_range (counter : Z) :
  0 <= counter < 2 ^ 32 ->
  OTPGenerator.counterBuffer counter = Ok ([0; 0; 0; 0] ++ be_bytes 4 counter).
Proof.
  intros Hc. unfold OTPGenerator.counterBuffer.
  change (writeUInt32BE (Buffer_alloc 8) 0 0) with (Ok (Buffer_alloc 8)).
  cbn [bind]. unfold writeUInt32BE.
  destruct (Z.ltb_spec counter 0) as [? | _]; [lia |].
  destruct (Z.ltb_spec 0xffffffff counter) as [? | _]; [lia |].
  reflexivity.
Qed.

Lemma counterBuffer_out_of_range (counter : Z) :
  counter < 0 \/ 2 ^ 32 <= counter ->
  OTPGenerator.counterBuffer counter = Throw (NodeRangeError "ERR_OUT_OF_RANGE").
Proof.
  intros Hc. unfold OTPGenerator.counterBuffer.
  change (writeUInt32BE (Buffer_alloc 8) 0 0) with (Ok (Buffer_alloc 8)).
  cbn [bind]. unfold writeUInt32BE.
  destruct (Z.ltb_spec counter 0) as [? | ?]; [reflexivity |].
  destruct (Z.ltb_spec 0xffffffff counter) as [? | ?]; [reflexivity | lia].
Qed.

(** ** Hexadecimal secrets *)

Lemma hexToBuffer_total (hex : string) : exists bytes, OTPGenerator.hexToBuffer hex = Ok bytes.
Proof. unfold OTPGenerator.hexToBuffer. eexists. reflexivity. Qed.


(** ** The code of a digest *)

(** Padding within the greatest length of a string. *)
Lemma padStart_within (s : string) (n : N) (c : ascii) :
  (n <= MAX_STRING_LENGTH)%N ->
  padStart s n c = Ok (pad_left s (N.to_nat n) c).
Proof.
  intros Hn. unfold padStart.
  destruct (N.leb_spec n (N.of_nat (String.length s))) as [Hle | _].
  - unfold pad_left.
    replace (N.to_nat n - String.length s)%nat with 0%nat by lia. reflexivity.
  - destruct (N.ltb_spec MAX_STRING_LENGTH n) as [? | _]; [lia | reflexivity].
Qed.

(** Whenever the secret decodes, the counter fits, the HMAC provider
    returns a digest of at least twenty bytes, and the digit count is
    within the greatest length of a string, the generated code is the
    code of RFC 4226 for that digest. *)
Lemma generateOTPCode_rfc4226
    (createHmac : string -> Buffer -> Buffer -> result Buffer)
    (secret : string) (counter : Z) (digits : N) (algorithm : string) (isHex : bool)
    (key hash : Buffer) :
  (if isHex then OTPGenerator.hexToBuffer secret
   else OTPGenerator.base32ToBuffer secret) = Ok key ->
  0 <= counter < 2 ^ 32 ->
  createHmac (toLowerCase algorithm) key ([0; 0; 0; 0] ++ be_bytes 4 counter) = Ok hash ->
  Forall is_byte hash ->
  (20 <= List.length hash)%nat ->
  (digits <= MAX_STRING_LENGTH)%N ->
  OTPGenerator.generateOTPCode createHmac secret counter digits algorithm isHex
  = Ok (rfc4226_code hash digits).
Proof.
  intros Hkey Hcounter Hhash Hbytes Hlen Hdigits.
  unfold OTPGenerator.generateOTPCode.
  rewrite Hkey, (counterBuffer_in_range counter Hcounter). cbn [bind].
  rewrite Hhash. cbn [bind].
  assert (Hoff : (rfc4226_offset hash + 4 <= List.length hash)%nat).
  { unfold rfc4226_offset.
    pose proof (Z.mod_pos_bound (last hash 0) 16 ltac:(lia)). lia. }
  rewrite (truncate_rfc4226 hash Hbytes Hoff). cbn [bind].
  unfold rfc4226_code. rewrite Z.rem_mod_nonneg.
  - apply padStart_within, Hdigits.
  - unfold rfc4226_truncation. apply Z.mod_pos_bound. lia.
  - apply Z.pow_pos_nonneg; lia.
Qed.

(** C1.  The two RFC 4226 test vectors: the hexadecimal secret decodes to
    the ASCII bytes of "12345678901234567890", and with six digits and
    SHA1 the generated code is "755224" at counter 0 and "287082" at
    counter 1; each is the code that the truncation of RFC 4226 (low
    nibble of the last byte as offset, four big-endian bytes, top bit
    dropped, modulo 10^6, padded with zeros to six characters) extracts
    from the HMAC-SHA1 digest of the eight-byte counter.  (For every
    input with a digit count that a string can hold,
    [generateOTPCode_rfc4226] relates the generated code to that
    truncation.) *)
Theorem rfc4226_test_vectors :
  let secret := "3132333435363738393031323334353637383930" in
  let key := map JS.code_of (list_ascii_of_string "12345678901234567890") in
  OTPGenerator.hexToBuffer secret = Ok key /\
  OTPGenerator.generateOTPCode Crypto.createHmac secret 0 6 "SHA1" true = Ok "755224" /\
  OTPGenerator.generateOTPCode Crypto.createHmac secret 1 6 "SHA1" true = Ok "287082" /\
  rfc4226_code
    (Crypto.hmac Crypto.SHA1.digest 64 key [0; 0; 0; 0; 0; 0; 0; 0]) 6 = "755224" /\
  rfc4226_code
    (Crypto.hmac Crypto.SHA1.digest 64 key [0; 0; 0; 0; 0; 0; 0; 1]) 6 = "287082".
Proof. vm_compute. repeat split; reflexivity. Qed.

(** C3 (as amended).  Counters are 32-bit.  For every counter below
    2^32 the message given to the HMAC, in both generators, is the
    eight-byte big-endian encoding of the counter.  For every counter
    from 2^32 up to 2^64 the counter message cannot be built and no
    code is returned: each generator throws the exception of its secret
    decoder when the secret does not decode, which comes first, and
    otherwise the RangeError that [writeUInt32BE] raises with the code
    ERR_OUT_OF_RANGE. *)
Theorem counter_encoding_32bit
    (createHmac : string -> Buffer -> Buffer -> result Buffer)
    (secret : string) (counter : Z) (digits : N) (algorithm : string) (isHex : bool) :
  let decoded :=
    if isHex then OTPGenerator.hexToBuffer secret
    else OTPGenerator.base32ToBuffer secret in
  (0 <= counter < 2 ^ 32 ->
   exists message,
     OTPGenerator.counterBuffer counter = Ok message /\
     List.length message = 8%nat /\
     Forall is_byte message /\
     be64_value message = counter /\
     OTPGenerator.generateOTPCode createHmac secret counter digits algorithm isHex =
       bind decoded (fun key =>
       bind (createHmac (toLowerCase algorithm) key message) (fun hash =>
       bind (OTPGenerator.truncate hash) (fun truncatedHash =>
       padStart (Z_toString (Z.rem truncatedHash (10 ^ Z.of_N digits))) digits "0"))) /\
     OTPGenerator.generateSteamOTP createHmac secret counter =
       bind (OTPGenerator.base32ToBuffer secret) (fun key =>
       bind (createHmac "sha1" key message) (fun hash =>
       bind (OTPGenerator.truncate hash) (fun truncatedHash =>
       Ok (OTPGenerator.steam_loop 5 "" truncatedHash))))) /\
  (2 ^ 32 <= counter < 2 ^ 64 ->
   OTPGenerator.counterBuffer counter = Throw (NodeRangeError "ERR_OUT_OF_RANGE") /\
   OTPGenerator.generateOTPCode createHmac secret counter digits algorithm isHex =
     match decoded with
     | Ok _ => Throw (NodeRangeError "ERR_OUT_OF_RANGE")
     | Throw e => Throw e
     end /\
   OTPGenerator.generateSteamOTP createHmac secret counter =
     match OTPGenerator.base32ToBuffer secret with
     | Ok _ => Throw (NodeRangeError "ERR_OUT_OF_RANGE")
     | Throw e => Throw e
     end /\
   is_ok (OTPGenerator.generateOTPCode createHmac secret counter digits algorithm isHex)
     = false /\
   is_ok (OTPGenerator.generateSteamOTP createHmac secret counter) = false).
Proof.
  intros decoded. split.
  - intros Hc.
    destruct (be_bytes_4 counter Hc)
      as (b4 & b5 & b6 & b7 & Hbytes & H4 & H5 & H6 & H7 & Hval).
    exists [0; 0; 0; 0; b4; b5; b6; b7].
    assert (Hbuf : OTPGenerator.counterBuffer counter = Ok [0; 0; 0; 0; b4; b5; b6; b7]).
    { rewrite counterBuffer_in_range by assumption.
      rewrite Hbytes. reflexivity. }
    split; [exact Hbuf |]. split; [reflexivity |]. split.
    + assert (is_byte 0) by (unfold is_byte; lia).
      repeat (apply Forall_cons; [assumption |]). apply Forall_nil.
    + split; [cbn [be64_value]; lia |].
      unfold OTPGenerator.generateOTPCode, OTPGenerator.generateSteamOTP.
      rewrite Hbuf. split; reflexivity.
  - intros Hc.
    assert (Hbuf : OTPGenerator.counterBuffer counter =
                   Throw (NodeRangeError "ERR_OUT_OF_RANGE")).
    { apply counterBuffer_out_of_range. lia. }
    split; [exact Hbuf |].
    unfold OTPGenerator.generateOTPCode, OTPGenerator.generateSteamOTP.
    rewrite Hbuf. fold decoded.
    destruct decoded; destruct (OTPGenerator.base32ToBuffer secret);
      repeat split; reflexivity.
Qed.

Lemma counter_encoding_32bit_witness :
  (exists message,
     OTPGenerator.counterBuffer 258 = Ok message /\
     be64_value message = 258) /\
  OTPGenerator.generateOTPCode Crypto.createHmac
    "GEZDGNBVGY3TQOJQGEZDGNBVGY3TQOJQ" (2 ^ 32) 6 "SHA1" false
  = Throw (NodeRangeError "ERR_OUT_OF_RANGE") /\
  OTPGenerator.generateOTPCode Crypto.createHmac "JBSW1Y3D" (2 ^ 32) 6 "SHA1" false
  = Throw (Error "Invalid Base32 character: 1").
Proof.
  split; [| split].
  - destruct (counter_encoding_32bit Crypto.createHmac "GEZDGNBVGY3TQOJQGEZDGNBVGY3TQOJQ"
                258 6 "SHA1" false) as [Hlow _].
    destruct Hlow as (message & Hbuf & _ & _ & Hval & _); [lia |].
    exists message. split; assumption.
  - destruct (counter_encoding_32bit Crypto.createHmac "GEZDGNBVGY3TQOJQGEZDGNBVGY3TQOJQ"
                (2 ^ 32) 6 "SHA1" false) as [_ Hhigh].
    destruct Hhigh as (_ & Hcode & _); [lia |].
    exact Hcode.
  - destruct (counter_encoding_32bit Crypto.createHmac "JBSW1Y3D"
                (2 ^ 32) 6 "SHA1" false) as [_ Hhigh].
    destruct Hhigh as (_ & Hcode & _); [lia |].
    exact Hcode.
Defined.

(** C3, the claim as stated fails: at counter 2^32, with a valid Base32
    secret and SHA1, generation throws where the claim promises a code
    for the eight-byte encoding 00 00 00 01 00 00 00 00. *)
Lemma counter_above_32_bits_throws :
  let key := map JS.code_of (list_ascii_of_string "12345678901234567890") in
  OTPGenerator.base32ToBuffer "GEZDGNBVGY3TQOJQGEZDGNBVGY3TQOJQ" = Ok key /\
  be64_value [0; 0; 0; 1; 0; 0; 0; 0] = 4294967296 /\
  is_ok (Crypto.createHmac "sha1" key [0; 0; 0; 1; 0; 0; 0; 0]) = true /\
  OTPGenerator.generateOTPCode Crypto.createHmac "GEZDGNBVGY3TQOJQGEZDGNBVGY3TQOJQ"
    4294967296 6 "SHA1" false
  = Throw (NodeRangeError "ERR_OUT_OF_RANGE").
Proof. vm_compute. repeat split; reflexivity. Qed.

(** C7, at a failing input: a secret with characters outside the
    hexadecimal alphabet is decoded without an error, up to the first
    pair that is not hexadecimal; here one byte is returned for six
    characters.  (The padding of an odd length is as claimed:
    "abc" decodes as "0abc".) *)
Theorem hexToBuffer_ignores_non_hex :
  OTPGenerator.hexToBuffer "12zz34" = Ok [18] /\
  OTPGenerator.hexToBuffer "xyz" = Ok [] /\
  OTPGenerator.hexToBuffer "abc" = Ok [10; 188] /\
  OTPGenerator.base32ToBuffer "12zz34" = Throw (Error "Invalid Base32 character: 1").
Proof. vm_compute. repeat split; reflexivity. Qed.

Section TimeWindows.
Variable createHmac : string -> Buffer -> Buffer -> result Buffer.

Lemma generateTOTP_counter (o : OTPGenerator.OtpData) (t : Z) (r : OTPGenerator.TimeResult.t) :
  OTPGenerator.generateTOTP createHmac o t = Ok r ->
  OTPGenerator.TimeResult.counter r = t / effective_period o /\
  OTPGenerator.TimeResult.period r = effective_period o.
Proof.
  unfold OTPGenerator.generateTOTP.
  destruct (OTPGenerator.generateOTPCode _ _ _ _ _ _); cbn [bind]; intros H.
  - injection H as <-. split; reflexivity.
  - discriminate H.
Qed.

(** C9.  With [period] the effective period of the descriptor: two
    timestamps of the same window ([floor(t1/period) = floor(t2/period)])
    give the same code (and the same exception when generation fails),
    and two results for timestamps of adjacent windows carry different
    counters. *)
Theorem totp_window_determines_code (o : OTPGenerator.OtpData) (t1 t2 : Z) :
  let period := effective_period o in
  (t1 / period = t2 / period ->
   code_of_result (OTPGenerator.generateTOTP createHmac o t1) =
   code_of_result (OTPGenerator.generateTOTP createHmac o t2)) /\
  (forall r1 r2,
     t2 / period = t1 / period + 1 ->
     OTPGenerator.generateTOTP createHmac o t1 = Ok r1 ->
     OTPGenerator.generateTOTP createHmac o t2 = Ok r2 ->
     OTPGenerator.TimeResult.counter r1 <> OTPGenerator.TimeResult.counter r2 /\
     OTPGenerator.TimeResult.counter r2 = OTPGenerator.TimeResult.counter r1 + 1).
Proof.
  intros period. split.
  - intros Hwin. unfold OTPGenerator.generateTOTP.
    change (or_Z (OTPGenerator.period o) 30) with period. rewrite Hwin.
    destruct (OTPGenerator.generateOTPCode _ _ _ _ _ _); reflexivity.
  - intros r1 r2 Hadj H1 H2.
    apply generateTOTP_counter in H1 as [H1 _].
    apply generateTOTP_counter in H2 as [H2 _].
    fold period in H1, H2. lia.
Qed.
End TimeWindows.

Lemma totp_window_determines_code_witness :
  code_of_result (OTPGenerator.generateTOTP Crypto.createHmac rfc6238_descriptor 59) =
  code_of_result (OTPGenerator.generateTOTP Crypto.createHmac rfc6238_descriptor 31) /\
  code_of_result (OTPGenerator.generateTOTP Crypto.createHmac rfc6238_descriptor 59) =
  Ok "94287082" /\
  exists r1 r2,
    OTPGenerator.generateTOTP Crypto.createHmac rfc6238_descriptor 59 = Ok r1 /\
    OTPGenerator.generateTOTP Crypto.createHmac rfc6238_descriptor 60 = Ok r2 /\
    OTPGenerator.TimeResult.counter r1 <> OTPGenerator.TimeResult.counter r2.
Proof.
  destruct (totp_window_determines_code Crypto.createHmac rfc6238_descriptor 59 31)
    as [Hsame _].
  destruct (totp_window_determines_code Crypto.createHmac rfc6238_descriptor 59 60)
    as [_ Hadj].
  split; [apply Hsame; reflexivity |].
  split; [vm_compute; reflexivity |].
  eexists. eexists.
  split; [vm_compute; reflexivity |].
  split; [vm_compute; reflexivity |].
  eapply Hadj; [reflexivity | vm_compute; reflexivity | vm_compute; reflexivity].
Defined.

Section Verification.
Variable createHmac : string -> Buffer -> Buffer -> result Buffer.
Variable otpData : OTPGenerator.OtpData.
Variable providedCode : string.
Variable currentTime : Z.

Local Abbreviation period := (effective_period otpData).
Local Abbreviation code_at := (Spec.code_at createHmac otpData currentTime).
Local Abbreviation differs_at :=
  (Spec.differs_at createHmac otpData providedCode currentTime).
Local Abbreviation match_at := (Spec.match_at otpData providedCode).
Local Abbreviation no_match := (Spec.no_match providedCode).

Lemma code_at_inv (i : Z) (c : string) :
  code_at i = Ok c ->
  exists r, OTPGenerator.generateTOTP createHmac otpData (currentTime + i * period) = Ok r
            /\ OTPGenerator.TimeResult.code r = c.
Proof.
  unfold Spec.code_at, code_of_result.
  destruct (OTPGenerator.generateTOTP _ _ _) as [r | e]; cbn [bind]; intros H.
  - injection H as <-. exists r. split; reflexivity.
  - discriminate H.
Qed.

Lemma verify_loop_step_differs (n : nat) (i : Z) :
  differs_at i ->
  OTPGenerator.verify_loop createHmac (S n) i otpData providedCode currentTime period =
  OTPGenerator.verify_loop createHmac n (i + 1) otpData providedCode currentTime period.
Proof.
  intros (c & Hc & Hneq). apply code_at_inv in Hc as (r & Hr & <-).
  cbn [OTPGenerator.verify_loop]. rewrite Hr. cbn [bind].
  destruct (String.eqb_spec (OTPGenerator.TimeResult.code r) providedCode) as [Heq | _].
  - contradiction.
  - reflexivity.
Qed.

Lemma verify_loop_step_match (n : nat) (i : Z) :
  code_at i = Ok providedCode ->
  OTPGenerator.verify_loop createHmac (S n) i otpData providedCode currentTime period =
  Ok (Some (match_at i)).
Proof.
  intros Hc. apply code_at_inv in Hc as (r & Hr & Hcode).
  cbn [OTPGenerator.verify_loop]. rewrite Hr. cbn [bind].
  rewrite Hcode, String.eqb_refl. reflexivity.
Qed.

(** The loop returns at the first offset whose code is the candidate. *)
Lemma verify_loop_first_match (n : nat) :
  forall i j,
    i <= j < i + Z.of_nat n ->
    (forall k, i <= k < j -> differs_at k) ->
    code_at j = Ok providedCode ->
    OTPGenerator.verify_loop createHmac n i otpData providedCode currentTime period =
    Ok (Some (match_at j)).
Proof.
  induction n as [| n IH]; intros i j Hj Hbefore Hmatch; [lia |].
  destruct (Z.eq_dec i j) as [-> | Hneq].
  - apply verify_loop_step_match, Hmatch.
  - rewrite verify_loop_step_differs by (apply Hbefore; lia).
    apply IH; [lia | intros k Hk; apply Hbefore; lia | exact Hmatch].
Qed.

Lemma verify_loop_no_match (n : nat) :
  forall i,
    (forall k, i <= k < i + Z.of_nat n -> differs_at k) ->
    OTPGenerator.verify_loop createHmac n i otpData providedCode currentTime period =
    Ok None.
Proof.
  induction n as [| n IH]; intros i Hall; [reflexivity |].
  rewrite verify_loop_step_differs by (apply Hall; lia).
  apply IH. intros k Hk. apply Hall. lia.
Qed.

(** Among windows that all produce a code, a matching window is
    preceded by a first matching window. *)
Lemma first_match_exists (n : nat) :
  forall i j,
    j = i + Z.of_nat n ->
    (forall k, i <= k <= j -> is_ok (code_at k) = true) ->
    code_at j = Ok providedCode ->
    exists j', i <= j' <= j /\ code_at j' = Ok providedCode /\
               forall k, i <= k < j' -> differs_at k.
Proof.
  induction n as [| n IH]; intros i j Hj Hok Hmatch.
  - exists j. split; [lia |]. split; [exact Hmatch |]. intros k Hk. lia.
  - destruct (code_at i) as [c | e] eqn:Hi.
    + destruct (String.eqb_spec c providedCode) as [-> | Hneq].
      * exists i. split; [lia |]. split; [exact Hi |]. intros k Hk. lia.
      * destruct (IH (i + 1) j) as (j' & Hj' & Hm & Hbefore);
          [lia | intros k Hk; apply Hok; lia | exact Hmatch |].
        exists j'. split; [lia |]. split; [exact Hm |].
        intros k Hk. destruct (Z.eq_dec k i) as [-> | Hki].
        -- exists c. split; assumption.
        -- apply Hbefore. lia.
    + specialize (Hok i ltac:(lia)). rewrite Hi in Hok. discriminate Hok.
Qed.

(** C10.  For a descriptor of the time family and a window size [w]:
    the offsets [-w .. w] are tried in increasing order and the first
    one whose code is the candidate decides the result; hence a
    candidate that matches a window before the current one is reported
    with a negative time offset and the window "previous", also when it
    matches the current window; and when no offset matches, the result
    is invalid and carries the code expected at the current time. *)
Theorem verifyCode_first_match_wins (windowSize : Z) :
  String.eqb (OTPGenerator.type otpData) "hotp" = false ->
  String.eqb (OTPGenerator.type otpData) "hhex" = false ->
  0 <= windowSize ->
  (forall j,
     - windowSize <= j <= windowSize ->
     (forall k, - windowSize <= k < j -> differs_at k) ->
     code_at j = Ok providedCode ->
     OTPGenerator.verifyCode createHmac currentTime otpData providedCode windowSize
     = Ok (match_at j)) /\
  (forall i,
     - windowSize <= i < 0 ->
     0 < period ->
     (forall k, - windowSize <= k <= i -> is_ok (code_at k) = true) ->
     code_at i = Ok providedCode ->
     exists r offset,
       OTPGenerator.verifyCode createHmac currentTime otpData providedCode windowSize
       = Ok r /\
       OTPGenerator.VerifyResult.valid r = true /\
       OTPGenerator.VerifyResult.timeOffset r = Some offset /\ offset < 0 /\
       OTPGenerator.VerifyResult.timeWindow r = Some "previous") /\
  ((forall k, - windowSize <= k <= windowSize -> differs_at k) ->
   exists expected,
     code_at 0 = Ok expected /\
     OTPGenerator.verifyCode createHmac currentTime otpData providedCode windowSize
     = Ok (no_match expected)).
Proof.
  intros Hhotp Hhhex Hw.
  assert (Hfirst : forall j,
     - windowSize <= j <= windowSize ->
     (forall k, - windowSize <= k < j -> differs_at k) ->
     code_at j = Ok providedCode ->
     OTPGenerator.verifyCode createHmac currentTime otpData providedCode windowSize
     = Ok (match_at j)).
  { intros j Hj Hbefore Hmatch. unfold OTPGenerator.verifyCode.
    rewrite Hhotp, Hhhex. cbn [orb].
    change (or_Z (OTPGenerator.period otpData) 30) with period.
    rewrite (verify_loop_first_match _ (- windowSize) j); [reflexivity | lia | | ];
      assumption. }
  split; [exact Hfirst |]. split.
  - intros i Hi Hperiod Hok Hmatch.
    destruct (first_match_exists (Z.to_nat (i + windowSize)) (- windowSize) i)
      as (j & Hj & Hm & Hbefore); [lia | exact Hok | exact Hmatch |].
    exists (match_at j), (j * period).
    split; [apply Hfirst; [lia | exact Hbefore | exact Hm] |].
    split; [reflexivity |]. split; [reflexivity |]. split; [nia |].
    cbn [Spec.match_at OTPGenerator.VerifyResult.timeWindow].
    destruct (Z.eqb_spec j 0) as [? | _]; [lia |].
    destruct (Z.ltb_spec j 0) as [_ | ?]; [reflexivity | lia].
  - intros Hall.
    destruct (Hall 0 ltac:(lia)) as (expected & Hexp & _).
    exists expected. split; [exact Hexp |].
    unfold OTPGenerator.verifyCode. rewrite Hhotp, Hhhex. cbn [orb].
    change (or_Z (OTPGenerator.period otpData) 30) with period.
    rewrite verify_loop_no_match by (intros k Hk; apply Hall; lia).
    cbn [bind]. apply code_at_inv in Hexp as (r & Hr & <-).
    replace (currentTime + 0 * period) with currentTime in Hr by lia.
    rewrite Hr. reflexivity.
Qed.
End Verification.

Lemma verifyCode_first_match_wins_witness :
  (exists r,
     OTPGenerator.verifyCode Crypto.createHmac 60 one_digit_descriptor "2" 1 = Ok r /\
     OTPGenerator.VerifyResult.timeOffset r = Some (-30) /\
     OTPGenerator.VerifyResult.timeWindow r = Some "previous") /\
  code_at Crypto.createHmac one_digit_descriptor 60 0 = Ok "2" /\
  OTPGenerator.verifyCode Crypto.createHmac 60 one_digit_descriptor "7" 1 =
  Ok (no_match "7" "2").
Proof.
  destruct (verifyCode_first_match_wins Crypto.createHmac one_digit_descriptor "2" 60 1)
    as (Hfirst & Hprev & _); [reflexivity | reflexivity | lia |].
  destruct (verifyCode_first_match_wins Crypto.createHmac one_digit_descriptor "7" 60 1)
    as (_ & _ & Hnone); [reflexivity | reflexivity | lia |].
  split; [| split].
  - destruct (Hprev (-1)) as (r & offset & Hr & _ & Hoff & _ & Hwin).
    + lia.
    + reflexivity.
    + intros k Hk. assert (k = -1) as -> by lia. vm_compute. reflexivity.
    + vm_compute. reflexivity.
    + exists r. split; [exact Hr |]. split; [| exact Hwin].
      rewrite (Hfirst (-1)) in Hr.
      * injection Hr as <-. reflexivity.
      * lia.
      * intros k Hk. lia.
      * vm_compute. reflexivity.
  - vm_compute. reflexivity.
  - destruct Hnone as (expected & Hexp & Hres).
    + intros k Hk.
      assert (k = -1 \/ k = 0 \/ k = 1) as [-> | [-> | ->]] by lia.
      * exists "2". split; [vm_compute; reflexivity | discriminate].
      * exists "2". split; [vm_compute; reflexivity | discriminate].
      * exists "9". split; [vm_compute; reflexivity | discriminate].
    + rewrite Hres. f_equal. f_equal.
      assert (Hc : code_at Crypto.createHmac one_digit_descriptor 60 0 = Ok "2")
        by (vm_compute; reflexivity).
      rewrite Hc in Hexp. injection Hexp as <-. reflexivity.
Defined.

Section MultipleCodes.
Variable createHmac : string -> Buffer -> Buffer -> result Buffer.

Lemma counters_from_length (c : Z) (n : nat) : List.length (counters_from c n) = n.
Proof. revert c. induction n as [| n IH]; intros c; cbn; [| rewrite IH]; reflexivity. Qed.

Lemma counters_from_nth (n : nat) :
  forall c k, (k < n)%nat -> nth k (counters_from c n) 0 = c + Z.of_nat k.
Proof.
  induction n as [| n IH]; intros c k Hk; [lia |].
  destruct k as [| k]; cbn [counters_from nth]; [lia |].
  rewrite IH by lia. lia.
Qed.

(** The list is strictly increasing, and starts at [c]. *)
Lemma counters_from_increasing (c : Z) (n i j : nat) :
  (i < j < n)%nat ->
  nth i (counters_from c n) 0 < nth j (counters_from c n) 0.
Proof. intros Hij. rewrite !counters_from_nth by lia. lia. Qed.

Lemma or_Z_Some_0 (c : Z) : or_Z (Some c) 0 = c.
Proof. unfold or_Z. destruct (Z.eqb_spec c 0); congruence. Qed.

Lemma generateHOTP_counter (h : OTPGenerator.OtpData) (r : OTPGenerator.CounterResult.t) :
  OTPGenerator.generateHOTP createHmac h = Ok r ->
  OTPGenerator.CounterResult.counter r = or_Z (OTPGenerator.counter h) 0 /\
  OTPGenerator.CounterResult.nextCounter r = or_Z (OTPGenerator.counter h) 0 + 1.
Proof.
  unfold OTPGenerator.generateHOTP.
  destruct (OTPGenerator.generateOTPCode _ _ _ _ _ _); cbn [bind]; intros H.
  - injection H as <-. split; reflexivity.
  - discriminate H.
Qed.

(** Allocation leaves every object of the store in place. *)
Lemma deref_alloc (st : OTPGenerator.Store) (h x : OTPGenerator.OtpData) (ref : nat) :
  OTPGenerator.deref st ref = Some x ->
  OTPGenerator.deref (snd (OTPGenerator.alloc st h)) ref = Some x.
Proof.
  unfold OTPGenerator.deref, OTPGenerator.alloc. cbn [snd]. intros H.
  rewrite nth_error_app1; [exact H |].
  apply nth_error_Some. rewrite H. discriminate.
Qed.

Lemma hotp_loop_preserves (n : nat) :
  forall i st otpData codes ref x,
    OTPGenerator.deref st ref = Some x ->
    OTPGenerator.deref
      (snd (OTPGenerator.hotp_loop createHmac n i st otpData codes)) ref = Some x.
Proof.
  induction n as [| n IH]; intros i st otpData codes ref x Hx; [exact Hx |].
  cbn [OTPGenerator.hotp_loop].
  destruct (OTPGenerator.deref st otpData) as [o |]; [| exact Hx].
  cbn [OTPGenerator.alloc].
  pose proof (deref_alloc st
                (OTPGenerator.with_counter o (or_Z (OTPGenerator.counter o) 0 + i))
                x ref Hx) as Hx'.
  cbn [OTPGenerator.alloc snd] in Hx'.
  destruct (OTPGenerator.generateHOTP _ _); [apply IH, Hx' | exact Hx'].
Qed.

Lemma totp_loop_preserves (n : nat) :
  forall i currentTime period st otpData codes ref x,
    OTPGenerator.deref st ref = Some x ->
    OTPGenerator.deref
      (snd (OTPGenerator.totp_loop createHmac n i currentTime period st otpData codes))
      ref = Some x.
Proof.
  induction n as [| n IH]; intros i currentTime period st otpData codes ref x Hx;
    [exact Hx |].
  cbn [OTPGenerator.totp_loop].
  destruct (OTPGenerator.deref st otpData) as [o |]; [| exact Hx].
  destruct (OTPGenerator.generateTOTP _ _ _); [apply IH, Hx | exact Hx].
Qed.

(** No call of [getMultipleCodes], whether it returns or throws, changes
    an object that was in the store. *)
Lemma getMultipleCodes_preserves (currentTime : Z) (st : OTPGenerator.Store)
    (otpData : nat) (count : Z) (ref : nat) (x : OTPGenerator.OtpData) :
  OTPGenerator.deref st ref = Some x ->
  OTPGenerator.deref
    (snd (OTPGenerator.getMultipleCodes createHmac currentTime st otpData count)) ref
  = Some x.
Proof.
  intros Hx. unfold OTPGenerator.getMultipleCodes.
  destruct (OTPGenerator.deref st otpData) as [o |]; [| exact Hx].
  destruct (String.eqb (OTPGenerator.type o) "hotp"
            || String.eqb (OTPGenerator.type o) "hhex").
  - pose proof (hotp_loop_preserves (Z.to_nat count) 0 st otpData [] ref x Hx) as H.
    destruct (OTPGenerator.hotp_loop _ _ _ _ _ _). exact H.
  - pose proof (totp_loop_preserves (Z.to_nat count) 0 currentTime
                  (or_Z (OTPGenerator.period o) 30) st otpData [] ref x Hx) as H.
    destruct (OTPGenerator.totp_loop _ _ _ _ _ _ _ _). exact H.
Qed.

(** The counter loop, started at index [i] with [codes] collected. *)
Lemma hotp_loop_counters (o : OTPGenerator.OtpData) (otpData : nat) (n : nat) :
  forall i st codes,
    OTPGenerator.deref st otpData = Some o ->
    (forall k, i <= k < i + Z.of_nat n ->
       is_ok (OTPGenerator.generateHOTP createHmac
                (OTPGenerator.with_counter o (or_Z (OTPGenerator.counter o) 0 + k)))
       = true) ->
    exists new st',
      OTPGenerator.hotp_loop createHmac n i st otpData codes = (Ok (codes ++ new), st') /\
      map entry_counter new = counters_from (or_Z (OTPGenerator.counter o) 0 + i) n /\
      map OTPGenerator.HotpEntry.counterValue new =
        counters_from (or_Z (OTPGenerator.counter o) 0 + i) n /\
      map OTPGenerator.HotpEntry.sequence new = counters_from i n.
Proof.
  induction n as [| n IH]; intros i st codes Ho Hok.
  - exists [], st. cbn. rewrite app_nil_r. repeat split; reflexivity.
  - cbn [OTPGenerator.hotp_loop]. rewrite Ho. cbn [OTPGenerator.alloc].
    set (c := or_Z (OTPGenerator.counter o) 0 + i).
    pose proof (Hok i ltac:(lia)) as Hi. fold c in Hi.
    destruct (OTPGenerator.generateHOTP createHmac (OTPGenerator.with_counter o c))
      as [r | e] eqn:Hgen; [| discriminate Hi].
    apply generateHOTP_counter in Hgen as [Hcounter _].
    cbn [OTPGenerator.with_counter OTPGenerator.counter] in Hcounter.
    rewrite or_Z_Some_0 in Hcounter.
    destruct (IH (i + 1) (st ++ [OTPGenerator.with_counter o c])
                (codes ++ [ {| OTPGenerator.HotpEntry.result := r;
                               OTPGenerator.HotpEntry.sequence := i;
                               OTPGenerator.HotpEntry.counterValue := c |} ]))
      as (new & st' & Hloop & Hc & Hv & Hs).
    + pose proof (deref_alloc st (OTPGenerator.with_counter o c) o otpData Ho) as H.
      exact H.
    + intros k Hk. apply Hok. lia.
    + eexists (_ :: new), st'. split.
      * rewrite Hloop. rewrite <- app_assoc. reflexivity.
      * replace (or_Z (OTPGenerator.counter o) 0 + (i + 1)) with (c + 1)
          in Hc, Hv by (unfold c; lia).
        cbn [map counters_from]. rewrite Hc, Hv, Hs.
        cbn [entry_counter OTPGenerator.HotpEntry.result
               OTPGenerator.HotpEntry.counterValue OTPGenerator.HotpEntry.sequence].
        unfold entry_counter at 1. cbn [OTPGenerator.HotpEntry.result].
        rewrite Hcounter. repeat split; reflexivity.
Qed.

(** The counter loop stops at the first counter at which generation
    fails, with the exception of that generation. *)
Lemma hotp_loop_first_failure (o : OTPGenerator.OtpData) (otpData : nat) (n : nat) :
  forall i st codes j e,
    OTPGenerator.deref st otpData = Some o ->
    0 <= j < Z.of_nat n ->
    (forall k, i <= k < i + j ->
       is_ok (OTPGenerator.generateHOTP createHmac
                (OTPGenerator.with_counter o (or_Z (OTPGenerator.counter o) 0 + k)))
       = true) ->
    OTPGenerator.generateHOTP createHmac
      (OTPGenerator.with_counter o (or_Z (OTPGenerator.counter o) 0 + (i + j)))
    = Throw e ->
    fst (OTPGenerator.hotp_loop createHmac n i st otpData codes) = Throw e.
Proof.
  induction n as [| n IH]; intros i st codes j e Ho Hj Hok Hfail; [lia |].
  cbn [OTPGenerator.hotp_loop]. rewrite Ho. cbn [OTPGenerator.alloc].
  destruct (Z.eq_dec j 0) as [-> | Hpos].
  - rewrite Z.add_0_r in Hfail. rewrite Hfail. reflexivity.
  - pose proof (Hok i ltac:(lia)) as Hi.
    destruct (OTPGenerator.generateHOTP createHmac
                (OTPGenerator.with_counter o (or_Z (OTPGenerator.counter o) 0 + i)))
      as [r | e']; [| discriminate Hi].
    apply (IH (i + 1) _ _ (j - 1) e).
    + exact (deref_alloc st _ o otpData Ho).
    + lia.
    + intros k Hk. apply Hok. lia.
    + replace (i + 1 + (j - 1)) with (i + j) by lia. exact Hfail.
Qed.

(** A counter beyond 32 bits makes the counter generator throw, once
    the secret is decoded. *)
Lemma generateHOTP_beyond_32_bits (o : OTPGenerator.OtpData) (c : Z) :
  2 ^ 32 <= c ->
  is_ok (hotp_key o) = true ->
  OTPGenerator.generateHOTP createHmac (OTPGenerator.with_counter o c)
  = Throw (NodeRangeError "ERR_OUT_OF_RANGE").
Proof.
  intros Hc Hkey. unfold OTPGenerator.generateHOTP, OTPGenerator.generateOTPCode.
  cbn [OTPGenerator.with_counter OTPGenerator.counter OTPGenerator.secret
       OTPGenerator.type OTPGenerator.digits OTPGenerator.algorithm].
  unfold hotp_key in Hkey.
  destruct (if String.eqb (OTPGenerator.type o) "hhex" then _ else _) as [key | e];
    [| discriminate Hkey].
  cbn [bind].
  assert (Hval : or_Z (Some c) 0 = c).
  { unfold or_Z. destruct (Z.eqb_spec c 0); [lia | reflexivity]. }
  rewrite Hval, counterBuffer_out_of_range by lia. reflexivity.
Qed.

(** C8 (as amended).  For a descriptor of the counter family in the
    store and a count, [getMultipleCodes] generates at the counters
    [counter, counter + 1, ...], in this order.  When generation
    succeeds at each of the [count] counters, it returns [count]
    entries whose counters are [counter, ..., counter + (count - 1)]
    (strictly increasing, the first being the current counter), numbered
    from 0.  When generation fails at one of them, the call returns no
    list: it throws the exception of the first counter that fails; this
    is the RangeError with the code ERR_OUT_OF_RANGE when that counter
    has reached 2^32 and the secret decodes.  In every case the
    descriptor object, like every object of the store, is left as it
    was. *)
Theorem getMultipleCodes_hotp_counters (currentTime : Z) (st : OTPGenerator.Store)
    (otpData : nat) (o : OTPGenerator.OtpData) (count : Z) :
  OTPGenerator.deref st otpData = Some o ->
  OTPGenerator.type o = "hotp" \/ OTPGenerator.type o = "hhex" ->
  0 <= count ->
  let counter := or_Z (OTPGenerator.counter o) 0 in
  let generation (k : Z) :=
    OTPGenerator.generateHOTP createHmac (OTPGenerator.with_counter o (counter + k)) in
  let call := OTPGenerator.getMultipleCodes createHmac currentTime st otpData count in
  ((forall k, 0 <= k < count -> is_ok (generation k) = true) ->
   exists codes st',
     call = (Ok (OTPGenerator.HotpCodes codes), st') /\
     Z.of_nat (List.length codes) = count /\
     map entry_counter codes = counters_from counter (Z.to_nat count) /\
     map OTPGenerator.HotpEntry.counterValue codes
     = counters_from counter (Z.to_nat count) /\
     map OTPGenerator.HotpEntry.sequence codes = counters_from 0 (Z.to_nat count) /\
     (forall i j, (i < j < List.length codes)%nat ->
        nth i (map entry_counter codes) 0 < nth j (map entry_counter codes) 0)) /\
  (forall j e,
     0 <= j < count ->
     (forall k, 0 <= k < j -> is_ok (generation k) = true) ->
     generation j = Throw e ->
     fst call = Throw e) /\
  (forall j,
     0 <= j < count ->
     (forall k, 0 <= k < j -> is_ok (generation k) = true) ->
     2 ^ 32 <= counter + j ->
     is_ok (hotp_key o) = true ->
     fst call = Throw (NodeRangeError "ERR_OUT_OF_RANGE")) /\
  OTPGenerator.deref (snd call) otpData = Some o /\
  (forall ref x, OTPGenerator.deref st ref = Some x ->
                 OTPGenerator.deref (snd call) ref = Some x).
Proof.
  intros Ho Hty Hcount counter generation call.
  assert (Hb : String.eqb (OTPGenerator.type o) "hotp"
               || String.eqb (OTPGenerator.type o) "hhex" = true).
  { destruct Hty as [-> | ->]; reflexivity. }
  assert (Hpres : forall ref x, OTPGenerator.deref st ref = Some x ->
                                OTPGenerator.deref (snd call) ref = Some x).
  { intros ref x Hx. apply getMultipleCodes_preserves, Hx. }
  assert (Hfail : forall j e,
            0 <= j < count ->
            (forall k, 0 <= k < j -> is_ok (generation k) = true) ->
            generation j = Throw e ->
            fst call = Throw e).
  { intros j e Hj Hok Hgen.
    pose proof (hotp_loop_first_failure o otpData (Z.to_nat count) 0 st [] j e Ho
                  ltac:(lia)) as Hloop.
    unfold call, OTPGenerator.getMultipleCodes. rewrite Ho, Hb.
    destruct (OTPGenerator.hotp_loop createHmac (Z.to_nat count) 0 st otpData [])
      as [r st'].
    cbn [fst] in *. rewrite Hloop; [reflexivity | | exact Hgen].
    intros k Hk. apply Hok. lia. }
  split; [| split; [exact Hfail | split; [| split; [apply Hpres, Ho | exact Hpres]]]].
  - intros Hok.
    destruct (hotp_loop_counters o otpData (Z.to_nat count) 0 st [] Ho)
      as (codes & st' & Hloop & Hc & Hv & Hs).
    { intros k Hk. apply Hok. lia. }
    rewrite Z.add_0_r in Hc, Hv. cbn [app] in Hloop.
    assert (Hlen : List.length codes = Z.to_nat count).
    { rewrite <- (length_map entry_counter), Hc. apply counters_from_length. }
    exists codes, st'.
    split.
    { unfold call, OTPGenerator.getMultipleCodes. rewrite Ho, Hb, Hloop. reflexivity. }
    split; [lia |].
    split; [exact Hc |]. split; [exact Hv |]. split; [exact Hs |].
    intros i j Hij. rewrite Hc. apply counters_from_increasing. lia.
  - intros j Hj Hok Hbig Hkey.
    apply (Hfail j _ Hj Hok).
    apply generateHOTP_beyond_32_bits; assumption.
Qed.
End MultipleCodes.

Lemma getMultipleCodes_hotp_counters_witness :
  (exists codes st',
     OTPGenerator.getMultipleCodes Crypto.createHmac 1700000000 [hotp_descriptor_10] 0 5
     = (Ok (OTPGenerator.HotpCodes codes), st') /\
     map entry_counter codes = [10; 11; 12; 13; 14]) /\
  fst (OTPGenerator.getMultipleCodes Crypto.createHmac 1700000000
         [hotp_descriptor_last] 0 2)
  = Throw (NodeRangeError "ERR_OUT_OF_RANGE") /\
  OTPGenerator.deref
    (snd (OTPGenerator.getMultipleCodes Crypto.createHmac 1700000000
            [hotp_descriptor_last] 0 2)) 0
  = Some hotp_descriptor_last.
Proof.
  split; [| split].
  - destruct (getMultipleCodes_hotp_counters Crypto.createHmac 1700000000
                [hotp_descriptor_10] 0 hotp_descriptor_10 5 eq_refl
                (or_introl eq_refl) ltac:(lia)) as (Hlist & _).
    destruct Hlist as (codes & st' & Hres & _ & Hc & _).
    + intros k Hk.
      assert (k = 0 \/ k = 1 \/ k = 2 \/ k = 3 \/ k = 4)
        as [-> | [-> | [-> | [-> | ->]]]] by lia; vm_compute; reflexivity.
    + exists codes, st'. split; [exact Hres | exact Hc].
  - destruct (getMultipleCodes_hotp_counters Crypto.createHmac 1700000000
                [hotp_descriptor_last] 0 hotp_descriptor_last 2 eq_refl
                (or_introl eq_refl) ltac:(lia)) as (_ & _ & Hrange & _).
    apply (Hrange 1).
    + lia.
    + intros k Hk. assert (k = 0) as -> by lia. vm_compute. reflexivity.
    + vm_compute. discriminate.
    + vm_compute. reflexivity.
  - destruct (getMultipleCodes_hotp_counters Crypto.createHmac 1700000000
                [hotp_descriptor_last] 0 hotp_descriptor_last 2 eq_refl
                (or_introl eq_refl) ltac:(lia)) as (_ & _ & _ & Hsame & _).
    exact Hsame.
Defined.

(** C8, the claim as stated fails: for a descriptor at the counter
    2^32 - 1 and the count 2, the code at the stored counter can be
    generated, but the call returns no list: it throws at the second
    counter. *)
Lemma getMultipleCodes_throws_at_counter_limit :
  OTPGenerator.type hotp_descriptor_last = "hotp" /\
  is_ok (OTPGenerator.generateHOTP Crypto.createHmac hotp_descriptor_last) = true /\
  OTPGenerator.getMultipleCodes Crypto.createHmac 1700000000 [hotp_descriptor_last] 0 2
  = (Throw (NodeRangeError "ERR_OUT_OF_RANGE"),
     [hotp_descriptor_last;
      OTPGenerator.with_counter hotp_descriptor_last 4294967295;
      OTPGenerator.with_counter hotp_descriptor_last 4294967296]).
Proof. vm_compute. repeat split; reflexivity. Qed.

(* ===================================================================== *)
(** * Properties of the credential-URI parser                             *)
(* ===================================================================== *)

Section NumberFacts.

Lemma pow2_pos (k : Z) : 0 <= k -> 0 < 2 ^ k.
Proof. intros Hk. apply Z.pow_pos_nonneg; lia. Qed.

Lemma num_eq_zero_Fin (neg : bool) (m : N) (e : Z) :
  num_eq (Fin neg m e) (Fin false 0 0) = N.eqb m 0.
Proof.
  unfold num_eq, num_compare.
  assert (Hp : 0 < 2 ^ (e - Z.min e 0)) by (apply pow2_pos; lia).
  destruct m as [| p]; cbn [N.eqb].
  - destruct neg; cbn [signed Z.of_N Z.opp Z.mul]; reflexivity.
  - destruct neg; cbn [signed Z.of_N].
    + destruct (Z.compare_spec (- Z.pos p * 2 ^ (e - Z.min e 0))
                  (0 * 2 ^ (0 - Z.min e 0))); try reflexivity; nia.
    + destruct (Z.compare_spec (Z.pos p * 2 ^ (e - Z.min e 0))
                  (0 * 2 ^ (0 - Z.min e 0))); try reflexivity; nia.
Qed.

Lemma num_eq_zero (n : jsnum) : num_eq n (num_of_Z 0) = num_is_zero n.
Proof.
  change (num_of_Z 0) with (Fin false 0 0).
  destruct n as [| neg | neg m e]; [reflexivity | destruct neg; reflexivity |].
  apply num_eq_zero_Fin.
Qed.

Lemma num_eq_zero_mk_fin (neg : bool) (m : N) (e : Z) :
  num_eq (mk_fin neg m e) (Fin false 0 0) = N.eqb m 0.
Proof.
  destruct m as [| p]; cbn [mk_fin]; [apply num_eq_zero_Fin |].
  destruct (strip_pos p e) as [q e']. rewrite num_eq_zero_Fin. reflexivity.
Qed.

(** The remainder test against the divisor relation, once the bound
    [B <= A] is known ([Hc]) and the goal speaks of [Z.rem A B]. *)
Ltac divides_case A B :=
  split;
  [ let Hrem := fresh "Hrem" in
    let Hr := fresh "Hr" in
    intros Hrem; apply negb_false_iff, N.eqb_eq in Hrem;
    assert (Hr : Z.rem A B = 0)
      by (pose proof (Z.rem_nonneg A B ltac:(lia) ltac:(lia)); lia);
    apply Z.rem_divide in Hr; [| lia];
    let k := fresh "k" in
    let Hk := fresh "Hk" in
    destruct Hr as [k Hk];
    split; [lia |]; split; [lia |]; exists k; lia
  | let k := fresh "k" in
    let Hk := fresh "Hk" in
    let Hr := fresh "Hr" in
    intros (_ & _ & k & Hk); apply negb_false_iff, N.eqb_eq;
    assert (Hr : Z.rem A B = 0) by (apply Z.rem_divide; [lia | exists k; lia]);
    rewrite Hr; reflexivity ].

(** The test of the code accepts exactly the valid periods. *)
Lemma period_test_valid (n : jsnum) : period_test n = false <-> valid_period n.
Proof.
  unfold period_test, valid_period.
  change (num_of_Z 0) with (Fin false 0 0). change (num_of_Z 60) with (Fin false 15 2).
  destruct n as [| neg | neg m e].
  - cbn. split; [discriminate | intros [[] _]].
  - destruct neg; cbn.
    + split; [discriminate | intros (H & _); discriminate H].
    + split; [discriminate | intros (_ & H & _); discriminate H].
  - cbn [isNaN orb num_ge_Z num_le_Z num_times_is].
    unfold num_lt, num_gt, num_rem, num_compare.
    destruct m as [| p].
    + (* a zero is no divisor *)
      cbn [N.eqb]. rewrite !orb_true_r.
      split; [discriminate |].
      intros (_ & _ & k & Hk). exfalso.
      assert (0 < 2 ^ Z.max 0 (- e)) by (apply pow2_pos; lia).
      destruct neg; cbn [signed Z.of_N Z.opp] in Hk; nia.
    + cbn [N.eqb]. rewrite num_eq_zero_mk_fin.
      assert (Hp0 : 0 < 2 ^ (e - Z.min e 0)) by (apply pow2_pos; lia).
      destruct neg; cbn [signed Z.of_N].
      * (* negative *)
        destruct (Z.compare_spec (- Z.pos p * 2 ^ (e - Z.min e 0))
                    (0 * 2 ^ (0 - Z.min e 0))) as [H | H | H]; [nia | | nia].
        cbn [orb]. split; [discriminate |].
        intros (Hge & _). exfalso.
        assert (0 < 2 ^ Z.max 0 e) by (apply pow2_pos; lia). nia.
      * destruct (Z.compare_spec (Z.pos p * 2 ^ (e - Z.min e 0))
                    (0 * 2 ^ (0 - Z.min e 0))) as [H | H | H]; try nia.
        cbn [orb]. clear H Hp0.
        set (M := Z.pos p). assert (HM : 0 < M) by (unfold M; lia). clearbody M.
        (* three positions of the exponent *)
        destruct (Z_lt_le_dec e 0) as [Hneg | Hpos];
          [| destruct (Z_lt_le_dec e 2) as [Hsmall | Hbig]].
        -- (* e < 0 *)
           rewrite (Z.min_r 2 e), (Z.min_l e 2), (Z.max_l 0 e), (Z.max_r 0 (- e)) by lia.
           replace (e - e) with 0 by lia. replace (2 - e) with (2 + - e) by lia.
           rewrite Z.pow_add_r by lia. change (2 ^ 0) with 1. change (2 ^ 2) with 4.
           change (Z.of_N 15) with 15.
           assert (HP : 0 < 2 ^ (- e)) by (apply pow2_pos; lia).
           set (P := 2 ^ (- e)) in *. clearbody P.
           rewrite !Z.mul_1_r.
           destruct (Z.compare_spec M (15 * (4 * P))) as [Hc | Hc | Hc]; cbn [orb];
             [divides_case (15 * (4 * P)) M | divides_case (15 * (4 * P)) M |].
           split; [discriminate |]. intros (_ & Hle & _). lia.
        -- (* 0 <= e < 2 *)
           rewrite (Z.min_r 2 e), (Z.min_l e 2), (Z.max_r 0 e), (Z.max_l 0 (- e)) by lia.
           replace (e - e) with 0 by lia. change (2 ^ 0) with 1.
           change (Z.of_N 15) with 15. rewrite !Z.mul_1_r.
           assert (e = 0 \/ e = 1) as [-> | ->] by lia.
           ++ change (15 * 2 ^ (2 - 0)) with 60. change (2 ^ 0) with 1.
              rewrite !Z.mul_1_r.
              destruct (Z.compare_spec M 60) as [Hc | Hc | Hc]; cbn [orb];
                [divides_case 60 M | divides_case 60 M |].
              split; [discriminate |]. intros (_ & Hle & _). lia.
           ++ change (15 * 2 ^ (2 - 1)) with 30. change (2 ^ 1) with 2.
              destruct (Z.compare_spec M 30) as [Hc | Hc | Hc]; cbn [orb];
                [divides_case 30 M | divides_case 30 M |].
              split; [discriminate |]. intros (_ & Hle & _). lia.
        -- (* 2 <= e *)
           rewrite (Z.min_l 2 e), (Z.min_r e 2), (Z.max_r 0 e), (Z.max_l 0 (- e)) by lia.
           replace (2 - 2) with 0 by lia.
           assert (He : 2 ^ e = 4 * 2 ^ (e - 2)).
           { replace e with (2 + (e - 2)) at 1 by lia.
             rewrite Z.pow_add_r by lia. reflexivity. }
           rewrite He. change (2 ^ 0) with 1. change (Z.of_N 15) with 15.
           assert (HP : 0 < 2 ^ (e - 2)) by (apply pow2_pos; lia).
           set (P := 2 ^ (e - 2)) in *. clearbody P.
           rewrite !Z.mul_1_r.
           destruct (Z.compare_spec (M * P) 15) as [Hc | Hc | Hc]; cbn [orb];
             [divides_case 15 (M * P) | divides_case 15 (M * P) |].
           split; [discriminate |]. intros (_ & Hle & _). lia.
Qed.

End NumberFacts.

Section ParserFacts.
Variable decodeURIComponent : string -> result string.
Variable uuidv4 : string.

(** ** The loop over the parameters *)

Lemma parameter_step_period (st st' : OTPParser.Params) (item : string) :
  OTPParser.parameter_step decodeURIComponent st item = Ok st' ->
  OTPParser.p_period st' =
    (if String.eqb (parameter_key item) "period"
     then OTPParser.normalize_period (parameter_value item)
     else OTPParser.p_period st).
Proof.
  unfold OTPParser.parameter_step. cbv zeta.
  fold (parameter_key item). fold (parameter_value item).
  generalize (parameter_key item) (parameter_value item). intros key value.
  destruct (String.eqb_spec key "secret") as [-> | _];
    [intros H; injection H as <-; reflexivity |].
  destruct (String.eqb_spec key "issuer") as [-> | _];
    [intros H; injection H as <-; reflexivity |].
  destruct (String.eqb_spec key "counter") as [-> | _];
    [intros H; injection H as <-; reflexivity |].
  destruct (String.eqb_spec key "period") as [-> | _];
    [intros H; injection H as <-; reflexivity |].
  destruct (String.eqb_spec key "digits") as [-> | _];
    [intros H; injection H as <-; reflexivity |].
  destruct (String.eqb_spec key "algorithm") as [-> | _].
  - destruct value; [| discriminate].
    intros H; injection H as <-; reflexivity.
  - intros H; injection H as <-; reflexivity.
Qed.

Lemma parameter_step_digits (st st' : OTPParser.Params) (item : string) :
  OTPParser.parameter_step decodeURIComponent st item = Ok st' ->
  OTPParser.p_digits st' =
    (if String.eqb (parameter_key item) "digits"
     then Some (OTPParser.normalize_digits (parameter_value item))
     else OTPParser.p_digits st).
Proof.
  unfold OTPParser.parameter_step. cbv zeta.
  fold (parameter_key item). fold (parameter_value item).
  generalize (parameter_key item) (parameter_value item). intros key value.
  destruct (String.eqb_spec key "secret") as [-> | _];
    [intros H; injection H as <-; reflexivity |].
  destruct (String.eqb_spec key "issuer") as [-> | _];
    [intros H; injection H as <-; reflexivity |].
  destruct (String.eqb_spec key "counter") as [-> | _];
    [intros H; injection H as <-; reflexivity |].
  destruct (String.eqb_spec key "period") as [-> | _];
    [intros H; injection H as <-; reflexivity |].
  destruct (String.eqb_spec key "digits") as [-> | _];
    [intros H; injection H as <-; reflexivity |].
  destruct (String.eqb_spec key "algorithm") as [-> | _].
  - destruct value; [| discriminate].
    intros H; injection H as <-; reflexivity.
  - intros H; injection H as <-; reflexivity.
Qed.

(** After the loop, [period] holds the normalized value of the last
    [period] parameter, or what it held before. *)
Lemma forEach_period (parameters : list string) :
  forall st st',
    OTPParser.parameters_forEach decodeURIComponent parameters st = Ok st' ->
    OTPParser.p_period st' =
      match query_value "period" parameters with
      | Some v => OTPParser.normalize_period v
      | None => OTPParser.p_period st
      end.
Proof.
  induction parameters as [| item rest IH]; intros st st' H.
  - injection H as <-. reflexivity.
  - cbn [OTPParser.parameters_forEach] in H.
    destruct (OTPParser.parameter_step decodeURIComponent st item) as [st1 |] eqn:Hstep;
      [| discriminate H].
    cbn [bind] in H. rewrite (IH _ _ H). cbn [query_value].
    destruct (query_value "period" rest); [reflexivity |].
    rewrite (parameter_step_period _ _ _ Hstep).
    destruct (String.eqb (parameter_key item) "period"); reflexivity.
Qed.

Lemma forEach_digits (parameters : list string) :
  forall st st',
    OTPParser.parameters_forEach decodeURIComponent parameters st = Ok st' ->
    OTPParser.p_digits st' =
      match query_value "digits" parameters with
      | Some v => Some (OTPParser.normalize_digits v)
      | None => OTPParser.p_digits st
      end.
Proof.
  induction parameters as [| item rest IH]; intros st st' H.
  - injection H as <-. reflexivity.
  - cbn [OTPParser.parameters_forEach] in H.
    destruct (OTPParser.parameter_step decodeURIComponent st item) as [st1 |] eqn:Hstep;
      [| discriminate H].
    cbn [bind] in H. rewrite (IH _ _ H). cbn [query_value].
    destruct (query_value "digits" rest); [reflexivity |].
    rewrite (parameter_step_digits _ _ _ Hstep).
    destruct (String.eqb (parameter_key item) "digits"); reflexivity.
Qed.

(** ** The result object *)

Lemma startsWith_inv (p : string) :
  forall s, startsWith s p = true -> exists r, s = String.append p r.
Proof.
  induction p as [| a p IH]; intros s H.
  - exists s. reflexivity.
  - destruct s as [| b s]; [discriminate H |].
    cbn [startsWith] in H. apply andb_prop in H as [Hab Hs].
    apply Ascii.eqb_eq in Hab. subst b.
    destruct (IH s Hs) as [r ->]. exists r. reflexivity.
Qed.

Lemma all_equals_dash (pre r : string) :
  OTPParser.all_equals (String.append pre (String "-" r)) = false.
Proof.
  induction pre as [| c pre IH]; cbn [String.append OTPParser.all_equals].
  - reflexivity.
  - rewrite IH. apply andb_false_r.
Qed.

Lemma base32_tail_dash (pre r : string) :
  OTPParser.base32_tail (String.append pre (String "-" r)) = false.
Proof.
  induction pre as [| c pre IH]; cbn [String.append OTPParser.base32_tail].
  - reflexivity.
  - destruct (OTPParser.is_base32_char c); [exact IH |].
    change (String c (String.append pre (String "-" r)))
      with (String.append (String c pre) (String "-" r)).
    apply all_equals_dash.
Qed.

Lemma all_hex_dash (pre r : string) :
  OTPParser.all_hex (String.append pre (String "-" r)) = false.
Proof.
  induction pre as [| c pre IH]; cbn [String.append OTPParser.all_hex].
  - reflexivity.
  - rewrite IH. apply andb_false_r.
Qed.

(** Neither shape admits a dash. *)
Lemma shape_rejects_dash (c : ascii) (pre r : string) :
  let secret := String c (String.append pre (String "-" r)) in
  negb (OTPParser.test_hex secret) && negb (OTPParser.test_base32 secret) = true.
Proof.
  cbn zeta. unfold OTPParser.test_hex, OTPParser.test_base32.
  change (String c (String.append pre (String "-" r)))
    with (String.append (String c pre) (String "-" r)) at 2.
  rewrite all_hex_dash, base32_tail_dash, !andb_false_r. reflexivity.
Qed.

(** A secret that passed the shape test carries no vendor prefix. *)
Lemma shape_excludes_prefix (secret prefix : string) :
  prefix = "stm-" \/ prefix = "blz-" \/ prefix = "bliz-" ->
  startsWith secret prefix = true ->
  negb (OTPParser.test_hex secret) && negb (OTPParser.test_base32 secret) = true.
Proof.
  intros Hp Hs. apply startsWith_inv in Hs as [r ->].
  destruct Hp as [-> | [-> | ->]].
  - apply (shape_rejects_dash "s" "tm" r).
  - apply (shape_rejects_dash "b" "lz" r).
  - apply (shape_rejects_dash "b" "liz" r).
Qed.

(** The fields of a result, read off [build_result]: the vendor
    branches are never taken. *)
Lemma build_result_fields (otpUrl type label : string) (issuer account : option string)
    (st : OTPParser.Params) (d : OTPParser.ParsedOTP) :
  OTPParser.build_result uuidv4 otpUrl type label issuer account st = OTPParser.Parsed d ->
  OTPParser.period d = or_num (OTPParser.p_period st) (num_of_Z 30) /\
  OTPParser.digits d = or_num (OTPParser.p_digits st) (num_of_Z 6) /\
  OTPParser.valid d = true /\
  (OTPParser.type d = type \/ OTPParser.type d = "hex" \/ OTPParser.type d = "hhex") /\
  OTPParser.p_secret st = Some (OTPParser.secret d).
Proof.
  unfold OTPParser.build_result.
  destruct (OTPParser.p_secret st) as [[| c0 s0] |]; try discriminate.
  set (secret := String c0 s0).
  destruct (negb (OTPParser.test_hex secret) && negb (OTPParser.test_base32 secret))
    eqn:Hshape; [discriminate |].
  assert (Hno : forall prefix,
             prefix = "stm-" \/ prefix = "blz-" \/ prefix = "bliz-" ->
             startsWith secret prefix = false).
  { intros prefix Hp. destruct (startsWith secret prefix) eqn:Hs; [| reflexivity].
    rewrite (shape_excludes_prefix secret prefix Hp Hs) in Hshape. discriminate. }
  rewrite (Hno "blz-"), (Hno "bliz-"), (Hno "stm-") by auto.
  match goal with
  | |- context [OTPParser.Parsed {| OTPParser.type := ?t |}] => set (ty := t)
  end.
  assert (Hty : ty = type \/ ty = "hex" \/ ty = "hhex").
  { unfold ty.
    destruct (negb (OTPParser.test_base32 secret) && OTPParser.test_hex secret); [| auto].
    destruct (String.eqb type "totp"); [auto |].
    destruct (String.eqb type "hotp"); auto. }
  clearbody ty. intros H. injection H as <-.
  cbn [OTPParser.period OTPParser.digits OTPParser.valid OTPParser.type OTPParser.secret].
  split; [reflexivity |]. split; [reflexivity |]. split; [reflexivity |].
  split; [exact Hty | reflexivity].
Qed.

(** A result of [parseStandardOTPUrl] comes from a run of the loop over
    [query_parameters], started with no period and no digits. *)
Lemma parseStandardOTPUrl_inv (otpUrl : string) (d : OTPParser.ParsedOTP) :
  OTPParser.parseStandardOTPUrl decodeURIComponent uuidv4 otpUrl = OTPParser.Parsed d ->
  exists st0 st type,
    OTPParser.p_period st0 = None /\ OTPParser.p_digits st0 = None /\
    OTPParser.parameters_forEach decodeURIComponent (query_parameters otpUrl) st0 = Ok st /\
    (String.length type <= 4)%nat /\
    (exists label issuer account,
       OTPParser.build_result uuidv4 otpUrl type label issuer account st
       = OTPParser.Parsed d).
Proof.
  unfold OTPParser.parseStandardOTPUrl, query_parameters.
  destruct (nth_error (split otpUrl "otpauth://") 1) as [[| c0 u0] |]; try discriminate.
  set (uri := String c0 u0).
  destruct (nth 0 (split (substr_from uri 5) "?") "") as [| l0 l1]; [discriminate |].
  destruct (nth_error (split (substr_from uri 5) "?") 1) as [[| p0 p1] |];
    try discriminate.
  set (label := match decodeURIComponent (String l0 l1) with
                | Ok decoded => decoded
                | Throw _ => String l0 l1
                end).
  destruct (if includes_char label ":"
            then (nth_error (split label ":") 0, nth_error (split label ":") 1)
            else (None, Some label)) as [issuer account].
  match goal with
  | |- context [OTPParser.parameters_forEach _ _ ?init] => set (st0 := init)
  end.
  destruct (OTPParser.parameters_forEach decodeURIComponent _ st0) as [st |] eqn:Hloop;
    [| discriminate].
  intros H. exists st0, st, (toLowerCase (substr uri 0 4)).
  split; [reflexivity |]. split; [reflexivity |]. split; [exact Hloop |]. split.
  - unfold toLowerCase, substr. cbn [drop].
    destruct uri as [| a [| b [| c [| e r]]]]; cbn; lia.
  - exists label, (OTPParser.p_issuer st), account. exact H.
Qed.

Lemma or_num_valid_period (n : jsnum) :
  valid_period n -> or_num (Some n) (num_of_Z 30) = n.
Proof.
  intros (Hge & Hle & k & Hk). destruct n as [| neg | neg m e]; try contradiction.
  unfold or_num, num_truthy. destruct m as [| p]; [| reflexivity].
  exfalso. cbn [num_times_is] in Hk.
  assert (0 < 2 ^ Z.max 0 (- e)) by (apply pow2_pos; lia).
  destruct neg; cbn [signed Z.of_N Z.opp] in Hk; nia.
Qed.

Lemma valid_period_30 : valid_period (num_of_Z 30).
Proof.
  change (num_of_Z 30) with (Fin false 15 1).
  split; [cbn; lia |]. split; [cbn; lia |]. exists 2. reflexivity.
Qed.

(** C4.  For every credential URI that parses to a descriptor, with
    [v] the value of the last [period] parameter of the query: the
    period of the descriptor is [Number(v)] exactly when this is a
    number that is non-negative, at most 60 and an exact divisor of 60;
    in every other case, and when the query has no [period], the
    period is 30. *)
Theorem period_normalization (otpUrl : string) (d : OTPParser.ParsedOTP) :
  OTPParser.parseStandardOTPUrl decodeURIComponent uuidv4 otpUrl = OTPParser.Parsed d ->
  match query_value "period" (query_parameters otpUrl) with
  | Some v =>
      (OTPParser.period d = Number v <-> valid_period (Number v)) /\
      (~ valid_period (Number v) -> OTPParser.period d = num_of_Z 30)
  | None => OTPParser.period d = num_of_Z 30
  end.
Proof.
  intros Hparse.
  destruct (parseStandardOTPUrl_inv otpUrl d Hparse)
    as (st0 & st & type & Hp0 & _ & Hloop & _ & label & issuer & account & Hbuild).
  apply build_result_fields in Hbuild as (Hperiod & _).
  rewrite Hperiod, (forEach_period _ _ _ Hloop), Hp0.
  destruct (query_value "period" (query_parameters otpUrl)) as [v |]; [| reflexivity].
  unfold OTPParser.normalize_period. fold (period_test (Number v)).
  destruct (period_test (Number v)) eqn:Htest.
  - assert (Hinvalid : ~ valid_period (Number v)).
    { intros Hvalid. apply period_test_valid in Hvalid. congruence. }
    split; [| reflexivity]. split; [| contradiction].
    cbn [or_num]. intros Heq. rewrite <- Heq. apply valid_period_30.
  - apply period_test_valid in Htest.
    split; [| intros Hno; contradiction].
    split; [intros _; exact Htest | intros _; apply or_num_valid_period, Htest].
Qed.

(** C5 (as amended).  For every credential URI that parses to a
    descriptor, with [v] the value of the last [digits] parameter: the
    digits of the descriptor are [Number(v)] when this is a number
    other than zero, whatever its size, and 6 when it is NaN or zero or
    when the query has no [digits]. *)
Theorem digits_normalization (otpUrl : string) (d : OTPParser.ParsedOTP) :
  OTPParser.parseStandardOTPUrl decodeURIComponent uuidv4 otpUrl = OTPParser.Parsed d ->
  match query_value "digits" (query_parameters otpUrl) with
  | Some v =>
      OTPParser.digits d =
        (if isNaN (Number v) || num_is_zero (Number v) then num_of_Z 6 else Number v)
  | None => OTPParser.digits d = num_of_Z 6
  end.
Proof.
  intros Hparse.
  destruct (parseStandardOTPUrl_inv otpUrl d Hparse)
    as (st0 & st & type & _ & Hd0 & Hloop & _ & label & issuer & account & Hbuild).
  apply build_result_fields in Hbuild as (_ & Hdigits & _).
  rewrite Hdigits, (forEach_digits _ _ _ Hloop), Hd0.
  destruct (query_value "digits" (query_parameters otpUrl)) as [v |]; [| reflexivity].
  unfold OTPParser.normalize_digits. rewrite num_eq_zero.
  destruct (Number v) as [| neg | neg m e]; cbn [isNaN orb num_is_zero].
  - reflexivity.
  - reflexivity.
  - destruct (N.eqb m 0) eqn:Hm; [reflexivity |].
    unfold or_num, num_truthy. rewrite Hm. reflexivity.
Qed.

(** The vendor overrides are out of reach: no credential URI parses to
    a descriptor of the Steam or Battle variant. *)
Lemma parse_never_vendor (otpUrl : string) (d : OTPParser.ParsedOTP) :
  OTPParser.parseStandardOTPUrl decodeURIComponent uuidv4 otpUrl = OTPParser.Parsed d ->
  OTPParser.type d <> "steam" /\ OTPParser.type d <> "battle".
Proof.
  intros Hparse.
  destruct (parseStandardOTPUrl_inv otpUrl d Hparse)
    as (st0 & st & type & _ & _ & _ & Hlen & label & issuer & account & Hbuild).
  apply build_result_fields in Hbuild as (_ & _ & _ & Hty & _).
  destruct Hty as [-> | [-> | ->]]; split; try discriminate.
  - intros ->. cbn in Hlen. lia.
  - intros ->. cbn in Hlen. lia.
Qed.

Lemma parameter_step_secret (st st' : OTPParser.Params) (item : string) :
  OTPParser.parameter_step decodeURIComponent st item = Ok st' ->
  OTPParser.p_secret st' =
    (if String.eqb (parameter_key item) "secret"
     then parameter_value item
     else OTPParser.p_secret st).
Proof.
  unfold OTPParser.parameter_step. cbv zeta.
  fold (parameter_key item). fold (parameter_value item).
  generalize (parameter_key item) (parameter_value item). intros key value.
  destruct (String.eqb_spec key "secret") as [-> | _];
    [intros H; injection H as <-; reflexivity |].
  destruct (String.eqb_spec key "issuer") as [-> | _];
    [intros H; injection H as <-; reflexivity |].
  destruct (String.eqb_spec key "counter") as [-> | _];
    [intros H; injection H as <-; reflexivity |].
  destruct (String.eqb_spec key "period") as [-> | _];
    [intros H; injection H as <-; reflexivity |].
  destruct (String.eqb_spec key "digits") as [-> | _];
    [intros H; injection H as <-; reflexivity |].
  destruct (String.eqb_spec key "algorithm") as [-> | _].
  - destruct value; [| discriminate].
    intros H; injection H as <-; reflexivity.
  - intros H; injection H as <-; reflexivity.
Qed.

Lemma forEach_secret (parameters : list string) :
  forall st st',
    OTPParser.parameters_forEach decodeURIComponent parameters st = Ok st' ->
    OTPParser.p_secret st' =
      match query_value "secret" parameters with
      | Some v => v
      | None => OTPParser.p_secret st
      end.
Proof.
  induction parameters as [| item rest IH]; intros st st' H.
  - injection H as <-. reflexivity.
  - cbn [OTPParser.parameters_forEach] in H.
    destruct (OTPParser.parameter_step decodeURIComponent st item) as [st1 |] eqn:Hstep;
      [| discriminate H].
    cbn [bind] in H. rewrite (IH _ _ H). cbn [query_value].
    destruct (query_value "secret" rest); [reflexivity |].
    rewrite (parameter_step_secret _ _ _ Hstep).
    destruct (String.eqb (parameter_key item) "secret"); reflexivity.
Qed.

(** Whatever the scheme token, a URI whose secret starts with a vendor
    prefix does not parse to a descriptor: the shape test, which comes
    first, refuses the dash of the prefix. *)
Lemma vendor_prefix_rejected (otpUrl secret prefix : string) (d : OTPParser.ParsedOTP) :
  query_value "secret" (query_parameters otpUrl) = Some (Some secret) ->
  prefix = "stm-" \/ prefix = "blz-" \/ prefix = "bliz-" ->
  startsWith secret prefix = true ->
  OTPParser.parseStandardOTPUrl decodeURIComponent uuidv4 otpUrl <> OTPParser.Parsed d.
Proof.
  intros Hq Hp Hs Hparse.
  destruct (parseStandardOTPUrl_inv otpUrl d Hparse)
    as (st0 & st & type & _ & _ & Hloop & _ & label & issuer & account & Hbuild).
  pose proof (forEach_secret _ _ _ Hloop) as Hsecret. rewrite Hq in Hsecret.
  unfold OTPParser.build_result in Hbuild. rewrite Hsecret in Hbuild.
  rewrite (shape_excludes_prefix secret prefix Hp Hs) in Hbuild.
  destruct secret; discriminate Hbuild.
Qed.

(** C2, at the failing inputs: with the secret [stm-ABCDEFGH], under
    the scheme token [totp] as under [hotp], the parser returns the
    diagnostic object of an invalid secret, which carries the secret
    with its prefix and has neither a type nor a [valid] flag. *)
Theorem steam_prefix_is_rejected :
  OTPParser.parseStandardOTPUrl decodeURIComponent uuidv4
    "otpauth://totp/Steam:user?secret=stm-ABCDEFGH"
  = OTPParser.InvalidSecret "Invalid secret format" "stm-ABCDEFGH"
      "otpauth://totp/Steam:user?secret=stm-ABCDEFGH" /\
  OTPParser.parseStandardOTPUrl decodeURIComponent uuidv4
    "otpauth://hotp/Steam:user?secret=stm-ABCDEFGH"
  = OTPParser.InvalidSecret "Invalid secret format" "stm-ABCDEFGH"
      "otpauth://hotp/Steam:user?secret=stm-ABCDEFGH".
Proof.
  split.
  - unfold OTPParser.parseStandardOTPUrl. cbn.
    destruct (decodeURIComponent "Steam:user") as [label | e];
      destruct (includes_char _ ":"); reflexivity.
  - unfold OTPParser.parseStandardOTPUrl. cbn.
    destruct (decodeURIComponent "Steam:user") as [label | e];
      destruct (includes_char _ ":"); reflexivity.
Qed.
End ParserFacts.

Lemma period_normalization_witness :
  exists d15 d45,
    OTPParser.parseStandardOTPUrl plain_decodeURIComponent sample_uuid
      "otpauth://totp/X?secret=JBSWY3DPEHPK3PXP&period=15" = OTPParser.Parsed d15 /\
    OTPParser.period d15 = num_of_Z 15 /\
    OTPParser.parseStandardOTPUrl plain_decodeURIComponent sample_uuid
      "otpauth://totp/X?secret=JBSWY3DPEHPK3PXP&period=45" = OTPParser.Parsed d45 /\
    OTPParser.period d45 = num_of_Z 30.
Proof.
  eexists. eexists.
  split; [vm_compute; reflexivity |]. split; [| split; [vm_compute; reflexivity |]].
  - pose proof (period_normalization plain_decodeURIComponent sample_uuid
                  "otpauth://totp/X?secret=JBSWY3DPEHPK3PXP&period=15" _ eq_refl) as H.
    change (query_value "period" _) with (Some (Some "15")) in H.
    destruct H as [Hvalid _]. apply Hvalid.
    change (Number (Some "15")) with (Fin false 15 0).
    split; [cbn; lia |]. split; [cbn; lia |]. exists 4. reflexivity.
  - pose proof (period_normalization plain_decodeURIComponent sample_uuid
                  "otpauth://totp/X?secret=JBSWY3DPEHPK3PXP&period=45" _ eq_refl) as H.
    change (query_value "period" _) with (Some (Some "45")) in H.
    destruct H as [_ Hinvalid]. apply Hinvalid.
    change (Number (Some "45")) with (Fin false 45 0).
    intros (_ & _ & k & Hk). cbn in Hk. lia.
Defined.

(** C5, the claim as stated fails: [digits=3] parses to a valid
    descriptor whose digits are 3, outside [4, 10]. *)
Lemma digits_outside_range_kept :
  exists d,
    OTPParser.parseStandardOTPUrl plain_decodeURIComponent sample_uuid
      "otpauth://totp/X?secret=JBSWY3DPEHPK3PXP&digits=3" = OTPParser.Parsed d /\
    OTPParser.valid d = true /\
    OTPParser.digits d = num_of_Z 3 /\
    ~ digits_in_range (OTPParser.digits d).
Proof.
  eexists. split; [vm_compute; reflexivity |].
  split; [reflexivity |]. split; [reflexivity |].
  intros [Hge _]. cbn in Hge. lia.
Qed.

Lemma digits_normalization_witness :
  exists d3 d0,
    OTPParser.parseStandardOTPUrl plain_decodeURIComponent sample_uuid
      "otpauth://totp/X?secret=JBSWY3DPEHPK3PXP&digits=3" = OTPParser.Parsed d3 /\
    OTPParser.digits d3 = num_of_Z 3 /\
    OTPParser.parseStandardOTPUrl plain_decodeURIComponent sample_uuid
      "otpauth://totp/X?secret=JBSWY3DPEHPK3PXP&digits=0" = OTPParser.Parsed d0 /\
    OTPParser.digits d0 = num_of_Z 6.
Proof.
  eexists. eexists.
  split; [vm_compute; reflexivity |]. split; [| split; [vm_compute; reflexivity |]].
  - exact (digits_normalization plain_decodeURIComponent sample_uuid
             "otpauth://totp/X?secret=JBSWY3DPEHPK3PXP&digits=3" _ eq_refl).
  - exact (digits_normalization plain_decodeURIComponent sample_uuid
             "otpauth://totp/X?secret=JBSWY3DPEHPK3PXP&digits=0" _ eq_refl).
Defined.

(* ===================================================================== *)
(** * Properties of the image-decode pipeline                             *)
(* ===================================================================== *)

Section PipelineFacts.
Variable Image : Type.
Variable getWidth getHeight : Image -> Z.
Variable image_hasAlpha : Image -> bool.
Variable greyscale invert : Image -> Image.
Variable contrast scale : jsnum -> Image -> Image.
Variable jsQR : Image -> option QRService.InversionAttempts -> result (option string).
Variable parseOTPAuth : string -> OTPParser.ParseResult.

Local Abbreviation extract := (QRService.extractQRFromJimp Image jsQR).
Local Abbreviation attempts_of :=
  (QRService.attempts_of Image getWidth getHeight greyscale invert contrast scale).
Local Abbreviation fastQRScan :=
  (QRService.fastQRScan Image invert contrast jsQR parseOTPAuth).
Local Abbreviation processJimpImage :=
  (QRService.processJimpImage Image getWidth getHeight image_hasAlpha greyscale invert
     contrast scale jsQR parseOTPAuth).

(** An extraction that returns a text returns a non-empty one. *)
Lemma extract_nonempty (img : Image) (text : string) :
  extract img = Some text -> text <> "".
Proof.
  unfold QRService.extractQRFromJimp, QRService.has_data.
  destruct (jsQR img (Some QRService.dontInvert)) as [[[| c r] |] | e];
    try discriminate.
  - destruct (jsQR img (Some QRService.attemptBoth)) as [[[| c r] |] | e];
      try discriminate.
    intros H. injection H as <-. discriminate.
  - intros H. injection H as <-. discriminate.
  - destruct (jsQR img (Some QRService.attemptBoth)) as [[[| c r] |] | e];
      try discriminate.
    intros H. injection H as <-. discriminate.
Qed.

(** Any non-empty text decoded without inversion is extracted. *)
Lemma extract_first_decode (img : Image) (text : string) :
  jsQR img (Some QRService.dontInvert) = Ok (Some text) ->
  text <> "" ->
  extract img = Some text.
Proof.
  intros H Hne. unfold QRService.extractQRFromJimp. rewrite H.
  destruct text as [| c r]; [contradiction | reflexivity].
Qed.

(** The loop stops at the first attempt that extracts a text. *)
Lemma try_attempts_first (pre : list (QRService.Attempt Image)) :
  forall a post text,
    (forall b, In b pre -> extract (QRService.image Image b) = None) ->
    extract (QRService.image Image a) = Some text ->
    QRService.try_attempts Image jsQR (pre ++ a :: post)
    = Some (text, QRService.description Image a).
Proof.
  induction pre as [| b pre IH]; intros a post text Hpre Ha.
  - cbn [app QRService.try_attempts]. rewrite Ha. reflexivity.
  - cbn [app QRService.try_attempts].
    rewrite (Hpre b (or_introl eq_refl)).
    apply IH; [intros b' Hb'; apply Hpre; right; exact Hb' | exact Ha].
Qed.

Lemma try_attempts_none (attempts : list (QRService.Attempt Image)) :
  (forall b, In b attempts -> extract (QRService.image Image b) = None) ->
  QRService.try_attempts Image jsQR attempts = None.
Proof.
  induction attempts as [| b rest IH]; intros Hall; [reflexivity |].
  cbn [QRService.try_attempts]. rewrite (Hall b (or_introl eq_refl)).
  apply IH. intros b' Hb'. apply Hall. right. exact Hb'.
Qed.

(** The fast profile: the first of its three transforms for which the
    decoder returns a code ends the search, whatever the text is. *)
Lemma fastQRScan_first_code (img : Image) :
  (forall text, jsQR img None = Ok (Some text) ->
     fastQRScan img = QRService.processQRResult parseOTPAuth text "optimized") /\
  (forall text, jsQR img None = Ok None -> jsQR (invert img) None = Ok (Some text) ->
     fastQRScan img = QRService.processQRResult parseOTPAuth text "inverted") /\
  (forall text, jsQR img None = Ok None -> jsQR (invert img) None = Ok None ->
     jsQR (contrast (round_ratio false 5 10) img) None = Ok (Some text) ->
     fastQRScan img = QRService.processQRResult parseOTPAuth text "high-contrast") /\
  (QRService.code (fastQRScan img) = Some "NO_QR_FOUND" ->
   jsQR img None = Ok None /\ jsQR (invert img) None = Ok None /\
   jsQR (contrast (round_ratio false 5 10) img) None = Ok None).
Proof.
  unfold QRService.fastQRScan. repeat split.
  - intros text ->. reflexivity.
  - intros text -> ->. reflexivity.
  - intros text -> -> ->. reflexivity.
  - revert H. unfold QRService.processQRResult, QRService.scan_error.
    destruct (jsQR img None) as [[text |] | e]; [| reflexivity |];
      [destruct (parseOTPAuth text) | ]; cbn; discriminate.
  - revert H. unfold QRService.processQRResult, QRService.scan_error.
    destruct (jsQR img None) as [[text |] | e];
      [destruct (parseOTPAuth text); cbn; discriminate | | cbn; discriminate].
    destruct (jsQR (invert img) None) as [[text |] | e]; [| reflexivity |];
      [destruct (parseOTPAuth text) | ]; cbn; discriminate.
  - revert H. unfold QRService.processQRResult, QRService.scan_error.
    destruct (jsQR img None) as [[text |] | e];
      [destruct (parseOTPAuth text); cbn; discriminate | | cbn; discriminate].
    destruct (jsQR (invert img) None) as [[text |] | e];
      [destruct (parseOTPAuth text); cbn; discriminate | | cbn; discriminate].
    destruct (jsQR (contrast (round_ratio false 5 10) img) None) as [[text |] | e];
      [| reflexivity |]; [destruct (parseOTPAuth text) | ]; cbn; discriminate.
Qed.

(** The result of the fast profile for a decoded text: a failure with
    the raw text when the parser returns [null], a success otherwise. *)
Lemma processQRResult_cases (text method : string) :
  let r := QRService.processQRResult parseOTPAuth text method in
  QRService.qrData r = Some text /\
  (parseOTPAuth text = OTPParser.Null ->
   QRService.success r = false /\ QRService.code r = Some "INVALID_OTP_DATA") /\
  (parseOTPAuth text <> OTPParser.Null ->
   QRService.success r = true /\ QRService.data r = Some (parseOTPAuth text)).
Proof.
  unfold QRService.processQRResult.
  destruct (parseOTPAuth text) eqn:Hparse; cbn;
    repeat split; try reflexivity; try congruence; intros; try discriminate;
    contradiction.
Qed.

(** The fast profile, in terms of its list of transforms: the first
    transform for which the decoder does not return [null] decides. *)
Lemma fastQRScan_search (img : Image) :
  forall pre a post,
    fast_transforms invert contrast img = pre ++ a :: post ->
    (forall b, In b pre -> jsQR (fst b) None = Ok None) ->
    (forall text, jsQR (fst a) None = Ok (Some text) ->
       fastQRScan img = QRService.processQRResult parseOTPAuth text (snd a)) /\
    (forall e, jsQR (fst a) None = Throw e ->
       fastQRScan img = QRService.scan_error).
Proof.
  intros pre a post Hsplit Hpre. unfold fast_transforms in Hsplit.
  unfold QRService.fastQRScan.
  destruct pre as [| p1 [| p2 [| p3 pre]]]; cbn [app] in Hsplit.
  - injection Hsplit as <- _. cbn [fst snd].
    split; [intros text -> | intros e ->]; reflexivity.
  - injection Hsplit as <- <- _. cbn [fst snd].
    pose proof (Hpre (img, "optimized") ltac:(left; reflexivity)) as H1.
    cbn [fst] in H1. rewrite H1.
    split; [intros text -> | intros e ->]; reflexivity.
  - injection Hsplit as <- <- <- _. cbn [fst snd].
    pose proof (Hpre (img, "optimized") ltac:(left; reflexivity)) as H1.
    pose proof (Hpre (invert img, "inverted") ltac:(right; left; reflexivity)) as H2.
    cbn [fst] in H1, H2. rewrite H1, H2.
    split; [intros text -> | intros e ->]; reflexivity.
  - exfalso. injection Hsplit as _ _ _ Hrest. destruct pre; discriminate Hrest.
Qed.

(** C6 (as amended).  In both profiles the ordered search stops at the
    first transform whose decode returns a result, whatever the text
    starts with; the prefix is examined afterwards, by the parser.

    Thorough profile ([processJimpImage]), where a decode counts when
    its text is not empty: the result carries that text and the
    description of that transform; it is the failure INVALID_QR_DATA when
    the parser returns [null] for the text and a success otherwise; the
    failure NO_QR_FOUND is returned exactly when no transform decodes a
    text.

    Fast profile ([fastQRScan]), over its three transforms, where every
    decode result counts, also one with an empty text: the result
    carries the text; it is the failure INVALID_OTP_DATA, without a
    method, when the parser returns [null] for the text, and otherwise a
    success with the method name of that transform; when the decoder
    throws at the first transform for which it does not return [null],
    the result is the failure SCAN_ERROR; the failure NO_QR_FOUND is
    returned exactly when the decoder returns [null] for each of the
    three transforms. *)
Theorem search_stops_at_first_text (img : Image) :
  (forall pre a post text,
     attempts_of img = pre ++ a :: post ->
     (forall b, In b pre -> extract (QRService.image Image b) = None) ->
     extract (QRService.image Image a) = Some text ->
     let r := processJimpImage img in
     text <> "" /\
     QRService.qrData r = Some text /\
     QRService.detectionMethod r = Some (QRService.description Image a) /\
     (parseOTPAuth text = OTPParser.Null ->
      QRService.success r = false /\ QRService.code r = Some "INVALID_QR_DATA") /\
     (parseOTPAuth text <> OTPParser.Null ->
      QRService.success r = true /\ QRService.data r = Some (parseOTPAuth text))) /\
  ((forall b, In b (attempts_of img) -> extract (QRService.image Image b) = None) ->
   let r := processJimpImage img in
   QRService.success r = false /\
   QRService.code r = Some "NO_QR_FOUND" /\
   QRService.attemptsCount r = Some (List.length (attempts_of img))) /\
  (QRService.code (processJimpImage img) = Some "NO_QR_FOUND" ->
   forall b, In b (attempts_of img) -> extract (QRService.image Image b) = None) /\
  (forall pre a post text,
     fast_transforms invert contrast img = pre ++ a :: post ->
     (forall b, In b pre -> jsQR (fst b) None = Ok None) ->
     jsQR (fst a) None = Ok (Some text) ->
     let r := fastQRScan img in
     QRService.qrData r = Some text /\
     (parseOTPAuth text = OTPParser.Null ->
      QRService.success r = false /\ QRService.code r = Some "INVALID_OTP_DATA" /\
      QRService.detectionMethod r = None) /\
     (parseOTPAuth text <> OTPParser.Null ->
      QRService.success r = true /\ QRService.code r = None /\
      QRService.data r = Some (parseOTPAuth text) /\
      QRService.detectionMethod r = Some (snd a))) /\
  (forall pre a post e,
     fast_transforms invert contrast img = pre ++ a :: post ->
     (forall b, In b pre -> jsQR (fst b) None = Ok None) ->
     jsQR (fst a) None = Throw e ->
     let r := fastQRScan img in
     QRService.success r = false /\ QRService.code r = Some "SCAN_ERROR") /\
  (QRService.code (fastQRScan img) = Some "NO_QR_FOUND" <->
   forall b, In b (fast_transforms invert contrast img) -> jsQR (fst b) None = Ok None).
Proof.
  split; [| split; [| split; [| split; [| split]]]].
  - intros pre a post text Hsplit Hpre Ha r.
    split; [exact (extract_nonempty _ _ Ha) |].
    unfold r, QRService.processJimpImage. rewrite Hsplit.
    rewrite (try_attempts_first pre a post text Hpre Ha).
    destruct (parseOTPAuth text) eqn:Hparse; cbn;
      repeat split; try reflexivity; try congruence; intros; try discriminate;
      contradiction.
  - intros Hall r. unfold r, QRService.processJimpImage.
    rewrite (try_attempts_none _ Hall). repeat split.
  - unfold QRService.processJimpImage.
    destruct (QRService.try_attempts Image jsQR (attempts_of img)) as [[text method] |]
      eqn:Htry.
    + destruct (parseOTPAuth text); cbn; discriminate.
    + intros _. clear - Htry.
      induction (attempts_of img) as [| b rest IH]; intros b' Hb'; [contradiction |].
      cbn [QRService.try_attempts] in Htry.
      destruct (extract (QRService.image Image b)) eqn:Hb; [discriminate |].
      destruct Hb' as [<- | Hin]; [exact Hb | exact (IH Htry b' Hin)].
  - intros pre a post text Hsplit Hpre Ha r. unfold r.
    destruct (fastQRScan_search img pre a post Hsplit Hpre) as [Hfound _].
    rewrite (Hfound text Ha). unfold QRService.processQRResult.
    destruct (parseOTPAuth text) eqn:Hparse; cbn;
      repeat split; try reflexivity; try congruence; intros; try discriminate;
      contradiction.
  - intros pre a post e Hsplit Hpre Ha r. unfold r.
    destruct (fastQRScan_search img pre a post Hsplit Hpre) as [_ Hthrow].
    rewrite (Hthrow e Ha). split; reflexivity.
  - split.
    + intros Hcode.
      destruct (fastQRScan_first_code img) as (_ & _ & _ & Hnone).
      destruct (Hnone Hcode) as (H1 & H2 & H3).
      intros b [<- | [<- | [<- | []]]]; assumption.
    + intros Hall. unfold QRService.fastQRScan.
      pose proof (Hall (img, "optimized") ltac:(left; reflexivity)) as H1.
      pose proof (Hall (invert img, "inverted") ltac:(right; left; reflexivity)) as H2.
      pose proof (Hall (contrast (round_ratio false 5 10) img, "high-contrast")
                    ltac:(right; right; left; reflexivity)) as H3.
      cbn [fst] in H1, H2, H3. rewrite H1, H2, H3. reflexivity.
Qed.
End PipelineFacts.

(** C6, the claim as stated fails: the decoded text has no credential
    prefix, yet the search ends at the first transform, and the failure
    is INVALID_QR_DATA with the raw text, not NO_QR_FOUND. *)
Lemma text_without_prefix_stops_search :
  isValidOTPUrl "https://example.com/" = false /\
  QRService.success web_address_result = false /\
  QRService.detectionMethod web_address_result = Some "original" /\
  QRService.qrData web_address_result = Some "https://example.com/" /\
  QRService.code web_address_result = Some "INVALID_QR_DATA" /\
  QRService.code web_address_result <> Some "NO_QR_FOUND".
Proof. vm_compute. repeat split; try reflexivity. discriminate. Qed.

Lemma search_stops_at_first_text_witness :
  QRService.qrData web_address_result = Some "https://example.com/" /\
  QRService.detectionMethod web_address_result = Some "original" /\
  QRService.code web_address_result = Some "INVALID_QR_DATA" /\
  QRService.code
    (QRService.fastQRScan unit (fun i => i) (fun _ i => i) web_address_decoder
       (OTPParser.parseOTPAuth plain_decodeURIComponent sample_uuid) tt)
  = Some "INVALID_OTP_DATA".
Proof.
  destruct (search_stops_at_first_text unit (fun _ => 640) (fun _ => 480) (fun _ => false)
              (fun i => i) (fun i => i) (fun _ i => i) (fun _ i => i) web_address_decoder
              (OTPParser.parseOTPAuth plain_decodeURIComponent sample_uuid) tt)
    as (Hfirst & _ & _ & Hfast & _).
  destruct (Hfirst [] {| QRService.image := tt; QRService.description := "original" |}
              (tl (QRService.attempts_of unit (fun _ => 640) (fun _ => 480)
                     (fun i => i) (fun i => i) (fun _ i => i) (fun _ i => i) tt))
              "https://example.com/")
    as (_ & Hdata & Hmethod & Hnull & _).
  - reflexivity.
  - intros b [].
  - reflexivity.
  - split; [exact Hdata |]. split; [exact Hmethod |].
    split; [apply Hnull; reflexivity |].
    destruct (Hfast [] (tt, "optimized") [(tt, "inverted"); (tt, "high-contrast")]
                "https://example.com/")
      as (_ & Hfastnull & _).
    + reflexivity.
    + intros b [].
    + reflexivity.
    + apply Hfastnull. reflexivity.
Defined.

(* ===================================================================== *)
(** * Properties of the secret decoders                                   *)
(* ===================================================================== *)

(** ** Characters and strings *)

Lemma upper_lower_char (c : ascii) : upper_char (lower_char c) = upper_char c.
Proof. destruct c as [[] [] [] [] [] [] [] []]; reflexivity. Qed.

Lemma upper_upper_char (c : ascii) : upper_char (upper_char c) = upper_char c.
Proof. destruct c as [[] [] [] [] [] [] [] []]; reflexivity. Qed.

Lemma toUpperCase_toLowerCase (s : string) :
  toUpperCase (toLowerCase s) = toUpperCase s.
Proof.
  induction s as [| c s IH]; [reflexivity |].
  cbn. rewrite upper_lower_char. f_equal. exact IH.
Qed.

Lemma toUpperCase_idempotent (s : string) :
  toUpperCase (toUpperCase s) = toUpperCase s.
Proof.
  induction s as [| c s IH]; [reflexivity |].
  cbn. rewrite upper_upper_char. f_equal. exact IH.
Qed.

Lemma toUpperCase_append (a b : string) :
  toUpperCase (String.append a b) = String.append (toUpperCase a) (toUpperCase b).
Proof. induction a as [| c a IH]; [reflexivity |]. cbn. f_equal. exact IH. Qed.

Lemma append_assoc (a b c : string) :
  String.append (String.append a b) c = String.append a (String.append b c).
Proof. induction a as [| x a IH]; [reflexivity |]. cbn. f_equal. exact IH. Qed.

Lemma append_empty_r (a : string) : String.append a "" = a.
Proof. induction a as [| x a IH]; [reflexivity |]. cbn. f_equal. exact IH. Qed.

Lemma length_append (a b : string) :
  String.length (String.append a b) = (String.length a + String.length b)%nat.
Proof. induction a as [| x a IH]; [reflexivity |]. cbn. f_equal. exact IH. Qed.

Lemma strip_equals_append (a b : string) :
  replace_all_char "=" "" (String.append a b)
  = String.append (replace_all_char "=" "" a) (replace_all_char "=" "" b).
Proof.
  induction a as [| c a IH]; [reflexivity |].
  cbn [String.append replace_all_char].
  destruct (Ascii.eqb c "="); cbn [String.append]; [exact IH | f_equal; exact IH].
Qed.

Lemma letters_append (a b : string) :
  base32_letters (String.append a b)
  = String.append (base32_letters a) (base32_letters b).
Proof. unfold base32_letters. rewrite toUpperCase_append. apply strip_equals_append. Qed.

Lemma letters_padding (n : nat) : base32_letters (repeat_char "=" n) = "".
Proof. induction n as [| n IH]; [reflexivity |]. exact IH. Qed.

(** ** The letters of the encoder *)

Lemma bits5_quintet (a b c d e : bool) :
  OTPGenerator.bits5 (bits_value [a; b; c; d; e]) = bitstring [a; b; c; d; e].
Proof. destruct a, b, c, d, e; reflexivity. Qed.

Lemma indexOf_symbol (a b c d e : bool) :
  indexOf_char OTPGenerator.base32Chars (base32_symbol [a; b; c; d; e])
  = Some (bits_value [a; b; c; d; e]).
Proof. destruct a, b, c, d, e; reflexivity. Qed.

Lemma letters_symbol (a b c d e : bool) (s : string) :
  base32_letters (String (base32_symbol [a; b; c; d; e]) s)
  = String (base32_symbol [a; b; c; d; e]) (base32_letters s).
Proof. destruct a, b, c, d, e; reflexivity. Qed.

(** Induction over a bit stream, five bits at a time. *)
Lemma bits_ind5 (P : list bool -> Prop) :
  P [] ->
  (forall a, P [a]) ->
  (forall a b, P [a; b]) ->
  (forall a b c, P [a; b; c]) ->
  (forall a b c d, P [a; b; c; d]) ->
  (forall a b c d e rest, P rest -> P (a :: b :: c :: d :: e :: rest)) ->
  forall bits, P bits.
Proof.
  intros H0 H1 H2 H3 H4 H5 bits.
  assert (Hall : forall n bits, (List.length bits <= n)%nat -> P bits).
  { induction n as [| n IH]; intros l Hl.
    - destruct l; [exact H0 | cbn in Hl; lia].
    - destruct l as [| a [| b [| c [| d [| e rest]]]]]; auto.
      apply H5, IH. cbn in Hl. lia. }
  apply (Hall (List.length bits)). lia.
Qed.

Lemma quintets_are_quintets (bits : list bool) : Forall is_quintet (quintets bits).
Proof.
  induction bits as [| a | a b | a b c | a b c d | a b c d e rest IHbits] using bits_ind5; cbn [quintets];
    repeat constructor; try (do 5 eexists; reflexivity); assumption.
Qed.

(** The groups hold the bit stream followed by fewer than five bits. *)
Lemma quintets_concat (bits : list bool) :
  exists pad, List.concat (quintets bits) = bits ++ pad /\ (List.length pad < 5)%nat.
Proof.
  induction bits as [| a | a b | a b c | a b c d | a b c d e rest IHbits] using bits_ind5; cbn [quintets List.concat app].
  - exists []. split; [reflexivity | cbn; lia].
  - exists [false; false; false; false]. split; [reflexivity | cbn; lia].
  - exists [false; false; false]. split; [reflexivity | cbn; lia].
  - exists [false; false]. split; [reflexivity | cbn; lia].
  - exists [false]. split; [reflexivity | cbn; lia].
  - destruct IHbits as (pad & Hpad & Hlen). exists pad.
    split; [rewrite Hpad; reflexivity | exact Hlen].
Qed.

Lemma quintets_length (bits : list bool) :
  List.length (quintets bits) = ((List.length bits + 4) / 5)%nat.
Proof.
  induction bits as [| a | a b | a b c | a b c d | a b c d e rest IHbits] using bits_ind5; cbn [quintets List.length]; try reflexivity.
  rewrite IHbits.
  replace (S (S (S (S (S (List.length rest))))) + 4)%nat
    with (1 * 5 + (List.length rest + 4))%nat by lia.
  rewrite Nat.div_add_l by lia. lia.
Qed.

Lemma bitstring_app (a b : list bool) :
  bitstring (a ++ b) = String.append (bitstring a) (bitstring b).
Proof. induction a as [| x a IH]; [reflexivity |]. cbn. f_equal. exact IH. Qed.

Lemma bitstring_length (a : list bool) : String.length (bitstring a) = List.length a.
Proof. induction a as [| x a IH]; [reflexivity |]. cbn. f_equal. exact IH. Qed.

(** The first loop of the decoder reads back the groups of the encoder. *)
Lemma base32_bits_symbols (qs : list (list bool)) :
  forall acc,
    Forall is_quintet qs ->
    OTPGenerator.base32_bits (string_of_list_ascii (map base32_symbol qs)) acc
    = Ok (String.append acc (bitstring (List.concat qs))).
Proof.
  induction qs as [| q qs IH]; intros acc Hqs.
  - cbn. rewrite append_empty_r. reflexivity.
  - inversion Hqs as [| q' qs' (a & b & c & d & e & ->) Hrest]; subst.
    cbn [map string_of_list_ascii OTPGenerator.base32_bits].
    rewrite indexOf_symbol, bits5_quintet, (IH _ Hrest).
    cbn [List.concat]. rewrite bitstring_app, append_assoc. reflexivity.
Qed.

Lemma letters_symbols (qs : list (list bool)) :
  Forall is_quintet qs ->
  base32_letters (string_of_list_ascii (map base32_symbol qs))
  = string_of_list_ascii (map base32_symbol qs).
Proof.
  induction qs as [| q qs IH]; intros Hqs; [reflexivity |].
  inversion Hqs as [| q' qs' (a & b & c & d & e & ->) Hrest]; subst.
  cbn [map string_of_list_ascii]. rewrite letters_symbol, (IH Hrest). reflexivity.
Qed.

Lemma string_of_list_ascii_app (a b : list ascii) :
  string_of_list_ascii (a ++ b)
  = String.append (string_of_list_ascii a) (string_of_list_ascii b).
Proof. induction a as [| x a IH]; [reflexivity |]. cbn. f_equal. exact IH. Qed.

Lemma string_of_repeat (c : ascii) (n : nat) :
  string_of_list_ascii (repeat c n) = repeat_char c n.
Proof. induction n as [| n IH]; [reflexivity |]. cbn. f_equal. exact IH. Qed.

(** ** The second loop of the decoder *)

Lemma parseInt2_byte (b : Z) :
  is_byte b -> OTPGenerator.parseInt2 (bitstring (byte_bits b)) 0 = b.
Proof.
  intros Hb.
  assert (Hall : forallb (fun n : nat =>
                    OTPGenerator.parseInt2 (bitstring (byte_bits (Z.of_nat n))) 0
                    =? Z.of_nat n) (seq 0 256) = true) by (vm_compute; reflexivity).
  rewrite forallb_forall in Hall.
  specialize (Hall (Z.to_nat b)). cbv beta in Hall.
  rewrite Z2Nat.id in Hall by (unfold is_byte in Hb; lia).
  apply Z.eqb_eq, Hall, in_seq. unfold is_byte in Hb. lia.
Qed.

Lemma bits_to_bytes_bytes (bs : list Z) :
  forall fuel pad,
    (List.length bs <= fuel)%nat ->
    (List.length pad < 8)%nat ->
    Forall is_byte bs ->
    OTPGenerator.bits_to_bytes fuel (bitstring (flat_map byte_bits bs ++ pad)) = bs.
Proof.
  induction bs as [| b bs IH]; intros fuel pad Hfuel Hpad Hbytes.
  - destruct fuel as [| fuel]; [reflexivity |].
    cbn [flat_map app OTPGenerator.bits_to_bytes].
    rewrite bitstring_length.
    destruct (Nat.leb_spec 8 (List.length pad)); [lia | reflexivity].
  - destruct fuel as [| fuel]; [cbn in Hfuel; lia |].
    inversion Hbytes as [| b' bs' Hb Hrest]; subst.
    cbn [flat_map]. rewrite <- app_assoc.
    cbn [OTPGenerator.bits_to_bytes].
    rewrite bitstring_length, length_app.
    change (List.length (byte_bits b)) with 8%nat.
    destruct (Nat.leb_spec 8 (8 + List.length (flat_map byte_bits bs ++ pad))); [| lia].
    f_equal.
    + change (substr (bitstring (byte_bits b ++ flat_map byte_bits bs ++ pad)) 0 8)
        with (bitstring (byte_bits b)).
      apply parseInt2_byte, Hb.
    + change (substr_from (bitstring (byte_bits b ++ flat_map byte_bits bs ++ pad)) 8)
        with (bitstring (flat_map byte_bits bs ++ pad)).
      apply IH; [cbn in Hfuel; lia | exact Hpad | exact Hrest].
Qed.

(** X1.  Round trip: the decoder returns the bytes that the RFC 4648
    encoder was given, for every list of bytes. *)
Theorem base32ToBuffer_encode (bytes : list Z) :
  Forall is_byte bytes ->
  OTPGenerator.base32ToBuffer (base32_encode bytes) = Ok bytes.
Proof.
  intros Hbytes. unfold OTPGenerator.base32ToBuffer, base32_encode, base32_symbols.
  fold (base32_letters
          (string_of_list_ascii
             (map base32_symbol (quintets (flat_map byte_bits bytes)) ++
              repeat "="%char
                ((8 - List.length (map base32_symbol (quintets (flat_map byte_bits bytes)))
                      mod 8) mod 8)%nat))).
  rewrite string_of_list_ascii_app, letters_append, string_of_repeat, letters_padding,
    append_empty_r.
  pose proof (quintets_are_quintets (flat_map byte_bits bytes)) as Hq.
  rewrite (letters_symbols _ Hq), (base32_bits_symbols _ "" Hq).
  cbn [bind String.append].
  destruct (quintets_concat (flat_map byte_bits bytes)) as (pad & Hpad & Hlen).
  rewrite Hpad. f_equal.
  apply bits_to_bytes_bytes; [| lia | exact Hbytes].
  rewrite bitstring_length, length_app.
  assert (List.length (flat_map byte_bits bytes) = 8 * List.length bytes)%nat.
  { clear. induction bytes as [| b bs IH]; [reflexivity |].
    cbn [flat_map]. rewrite length_app, IH. cbn. lia. }
  lia.
Qed.

Lemma base32ToBuffer_encode_witness :
  base32_encode [102; 111; 111; 98; 97; 114] = "MZXW6YTBOI======" /\
  OTPGenerator.base32ToBuffer "MZXW6YTBOI======" = Ok [102; 111; 111; 98; 97; 114].
Proof.
  split; [reflexivity |].
  apply (base32ToBuffer_encode [102; 111; 111; 98; 97; 114]).
  repeat (apply Forall_cons; [unfold is_byte; lia |]). apply Forall_nil.
Defined.

(** The decoder depends on the letters of its argument only. *)
Lemma base32ToBuffer_letters (a b : string) :
  base32_letters a = base32_letters b ->
  OTPGenerator.base32ToBuffer a = OTPGenerator.base32ToBuffer b.
Proof.
  unfold OTPGenerator.base32ToBuffer. fold (base32_letters a). fold (base32_letters b).
  intros ->. reflexivity.
Qed.

(** X2.  The decoder is insensitive to the case of the letters and to
    [=] signs, wherever they stand. *)
Theorem base32ToBuffer_case_and_padding (s : string) :
  OTPGenerator.base32ToBuffer (toLowerCase s) = OTPGenerator.base32ToBuffer s /\
  OTPGenerator.base32ToBuffer (toUpperCase s) = OTPGenerator.base32ToBuffer s /\
  forall (a b : string) (n : nat),
    OTPGenerator.base32ToBuffer (String.append a (String.append (repeat_char "=" n) b))
    = OTPGenerator.base32ToBuffer (String.append a b).
Proof.
  split; [| split].
  - apply base32ToBuffer_letters. unfold base32_letters.
    rewrite toUpperCase_toLowerCase. reflexivity.
  - apply base32ToBuffer_letters. unfold base32_letters.
    rewrite toUpperCase_idempotent. reflexivity.
  - intros a b n. apply base32ToBuffer_letters.
    rewrite !letters_append, letters_padding. reflexivity.
Qed.

(** ** Outcome of the Base32 decoder *)

Lemma indexOf_alphabet (c : ascii) :
  match indexOf_char OTPGenerator.base32Chars c with
  | Some v => in_base32_alphabet c && (0 <=? v) && (v <? 32)
  | None => negb (in_base32_alphabet c)
  end = true.
Proof. destruct c as [[] [] [] [] [] [] [] []]; reflexivity. Qed.

Lemma bits5_length (v : Z) : String.length (OTPGenerator.bits5 v) = 5%nat.
Proof. reflexivity. Qed.

Lemma base32_bits_valid (letters : string) :
  forall acc,
    string_forallb in_base32_alphabet letters = true ->
    exists bits,
      OTPGenerator.base32_bits letters acc = Ok bits /\
      String.length bits = (String.length acc + 5 * String.length letters)%nat.
Proof.
  induction letters as [| c letters IH]; intros acc Hvalid.
  - exists acc. split; [reflexivity | cbn; lia].
  - cbn [string_forallb] in Hvalid. apply andb_prop in Hvalid as [Hc Hrest].
    cbn [OTPGenerator.base32_bits].
    pose proof (indexOf_alphabet c) as Hidx.
    destruct (indexOf_char OTPGenerator.base32Chars c) as [v |].
    + destruct (IH (String.append acc (OTPGenerator.bits5 v)) Hrest) as (bits & Hbits & Hlen).
      exists bits. split; [exact Hbits |].
      rewrite Hlen, length_append, bits5_length. cbn [String.length]. lia.
    + rewrite Hc in Hidx. discriminate Hidx.
Qed.

Lemma base32_bits_invalid (pre : string) :
  forall acc c post,
    string_forallb in_base32_alphabet pre = true ->
    in_base32_alphabet c = false ->
    OTPGenerator.base32_bits (String.append pre (String c post)) acc
    = Throw (Error (String.append "Invalid Base32 character: " (String c ""))).
Proof.
  induction pre as [| x pre IH]; intros acc c post Hpre Hc.
  - cbn [String.append OTPGenerator.base32_bits].
    pose proof (indexOf_alphabet c) as Hidx.
    destruct (indexOf_char OTPGenerator.base32Chars c) as [v |]; [| reflexivity].
    rewrite Hc in Hidx. discriminate Hidx.
  - cbn [string_forallb] in Hpre. apply andb_prop in Hpre as [Hx Hrest].
    cbn [String.append OTPGenerator.base32_bits].
    pose proof (indexOf_alphabet x) as Hidx.
    destruct (indexOf_char OTPGenerator.base32Chars x) as [v |].
    + apply IH; assumption.
    + rewrite Hx in Hidx. discriminate Hidx.
Qed.

Lemma length_drop (n : nat) :
  forall s, String.length (drop n s) = (String.length s - n)%nat.
Proof.
  induction n as [| n IH]; intros s; [cbn; lia |].
  destruct s as [| c s]; [reflexivity |]. cbn [drop String.length]. rewrite IH. lia.
Qed.

Lemma length_take (n : nat) :
  forall s, (String.length (take n s) <= n)%nat.
Proof.
  induction n as [| n IH]; intros s; [cbn; lia |].
  destruct s as [| c s]; [cbn; lia |]. cbn [take String.length].
  specialize (IH s). lia.
Qed.

Lemma parseInt2_bound (s : string) :
  forall acc, 0 <= acc ->
    0 <= OTPGenerator.parseInt2 s acc < (acc + 1) * 2 ^ Z.of_nat (String.length s).
Proof.
  induction s as [| c s IH]; intros acc Hacc.
  - cbn. lia.
  - cbn [OTPGenerator.parseInt2 String.length].
    rewrite Nat2Z.inj_succ, Z.pow_succ_r by lia.
    assert (0 <= (if Ascii.eqb c "1" then 1 else 0) <= 1)
      by (destruct (Ascii.eqb c "1"); lia).
    specialize (IH (2 * acc + (if Ascii.eqb c "1" then 1 else 0)) ltac:(lia)).
    assert (0 < 2 ^ Z.of_nat (String.length s)) by (apply Z.pow_pos_nonneg; lia).
    nia.
Qed.

Lemma parseInt2_octet (s : string) : is_byte (OTPGenerator.parseInt2 (substr s 0 8) 0).
Proof.
  pose proof (parseInt2_bound (substr s 0 8) 0 ltac:(lia)) as H.
  pose proof (length_take 8 s) as Hlen. unfold substr in *. cbn [drop] in *.
  assert (2 ^ Z.of_nat (String.length (take 8 s)) <= 2 ^ 8)
    by (apply Z.pow_le_mono_r; lia).
  unfold is_byte. change (2 ^ 8) with 256 in *. lia.
Qed.

Lemma bits_to_bytes_length (fuel : nat) :
  forall bits,
    (String.length bits / 8 <= fuel)%nat ->
    List.length (OTPGenerator.bits_to_bytes fuel bits) = (String.length bits / 8)%nat /\
    Forall is_byte (OTPGenerator.bits_to_bytes fuel bits).
Proof.
  induction fuel as [| fuel IH]; intros bits Hfuel.
  - cbn [OTPGenerator.bits_to_bytes List.length]. split; [lia | constructor].
  - cbn [OTPGenerator.bits_to_bytes].
    destruct (Nat.leb_spec 8 (String.length bits)) as [Hge | Hlt].
    + assert (Hdiv : (String.length bits / 8 = S ((String.length bits - 8) / 8))%nat).
      { replace (String.length bits) with (1 * 8 + (String.length bits - 8))%nat at 1
          by lia.
        rewrite Nat.div_add_l by lia. lia. }
      destruct (IH (substr_from bits 8)) as [Hlen Hbytes].
      { unfold substr_from. rewrite length_drop. lia. }
      unfold substr_from in *. rewrite length_drop in Hlen.
      split; [cbn [List.length]; lia |].
      constructor; [apply parseInt2_octet | exact Hbytes].
    + split; [cbn [List.length]; rewrite Nat.div_small by lia; reflexivity | constructor].
Qed.

(** A secret whose letters all belong to the alphabet decodes. *)
Lemma base32ToBuffer_valid (s : string) :
  string_forallb in_base32_alphabet (base32_letters s) = true ->
  exists bytes,
    OTPGenerator.base32ToBuffer s = Ok bytes /\
    List.length bytes = (5 * String.length (base32_letters s) / 8)%nat /\
    Forall is_byte bytes.
Proof.
  unfold OTPGenerator.base32ToBuffer. fold (base32_letters s). intros Hvalid.
  destruct (base32_bits_valid (base32_letters s) "" Hvalid) as (bits & Hbits & Hlen).
  rewrite Hbits. cbn [bind]. cbn [String.length Nat.add] in Hlen.
  destruct (bits_to_bytes_length (String.length bits) bits) as [Hcount Hbytes].
  { apply Nat.Div0.div_le_upper_bound. lia. }
  eexists. split; [reflexivity |]. split; [| exact Hbytes].
  rewrite Hcount, Hlen. reflexivity.
Qed.

(** X3.  Outcome of the decoder, in terms of the letters of the secret
    (upper case, [=] removed): when all of them belong to the alphabet,
    the result is a buffer of [floor(5 n / 8)] bytes for [n] letters;
    when valid letters are followed by an ASCII character outside the
    alphabet, the decoder throws, naming this character. *)
Theorem base32ToBuffer_outcome (s : string) :
  (string_forallb in_base32_alphabet (base32_letters s) = true ->
   exists bytes,
     OTPGenerator.base32ToBuffer s = Ok bytes /\
     List.length bytes = (5 * String.length (base32_letters s) / 8)%nat /\
     Forall is_byte bytes) /\
  (forall pre c post,
     base32_letters s = String.append pre (String c post) ->
     string_forallb in_base32_alphabet pre = true ->
     code_of c < 128 ->
     in_base32_alphabet c = false ->
     OTPGenerator.base32ToBuffer s
     = Throw (Error (String.append "Invalid Base32 character: " (String c "")))).
Proof.
  split; [apply base32ToBuffer_valid |].
  intros pre c post Hsplit Hpre _ Hc.
  unfold OTPGenerator.base32ToBuffer. fold (base32_letters s).
  rewrite Hsplit, (base32_bits_invalid pre "" c post Hpre Hc). reflexivity.
Qed.

Lemma base32ToBuffer_outcome_witness :
  (exists bytes,
     OTPGenerator.base32ToBuffer "jbswy3dpehpk3pxp" = Ok bytes /\
     List.length bytes = 10%nat) /\
  OTPGenerator.base32ToBuffer "JBSW1Y3D" = Throw (Error "Invalid Base32 character: 1").
Proof.
  split.
  - destruct (base32ToBuffer_outcome "jbswy3dpehpk3pxp") as [Hvalid _].
    destruct Hvalid as (bytes & Hres & Hlen & _); [reflexivity |].
    exists bytes. split; [exact Hres | exact Hlen].
  - destruct (base32ToBuffer_outcome "JBSW1Y3D") as [_ Hinvalid].
    apply (Hinvalid "JBSW" "1"%char "Y3D"); reflexivity.
Defined.

(** ** The hexadecimal decoder *)

Lemma unhex_digit (upper : bool) (v : Z) :
  0 <= v < 16 -> unhex (hex_digit upper v) = Some v.
Proof.
  intros Hv.
  assert (Hall : forallb (fun n : nat =>
                    match unhex (hex_digit upper (Z.of_nat n)) with
                    | Some w => w =? Z.of_nat n
                    | None => false
                    end) (seq 0 16) = true) by (destruct upper; vm_compute; reflexivity).
  rewrite forallb_forall in Hall.
  specialize (Hall (Z.to_nat v)). cbv beta in Hall.
  rewrite Z2Nat.id in Hall by lia.
  specialize (Hall ltac:(apply in_seq; lia)).
  destruct (unhex (hex_digit upper v)) as [w |]; [| discriminate Hall].
  apply Z.eqb_eq in Hall. congruence.
Qed.

Lemma unhex_range (c : ascii) (v : Z) : unhex c = Some v -> 0 <= v < 16.
Proof.
  destruct c as [[] [] [] [] [] [] [] []]; cbn; intros H;
    first [discriminate H | injection H as <-; lia].
Qed.

Lemma hex_encode_length (upper : bool) (bytes : list Z) :
  String.length (hex_encode upper bytes) = (2 * List.length bytes)%nat.
Proof.
  induction bytes as [| b bytes IH]; [reflexivity |].
  cbn [hex_encode String.length List.length]. rewrite IH. lia.
Qed.

Lemma Buffer_from_hex_encode (upper : bool) (bytes : list Z) :
  Forall is_byte bytes -> Buffer_from_hex (hex_encode upper bytes) = bytes.
Proof.
  induction 1 as [| b bytes Hb _ IH]; [reflexivity |].
  unfold is_byte in Hb.
  cbn [hex_encode Buffer_from_hex].
  rewrite (unhex_digit upper (b / 16)), (unhex_digit upper (b mod 16)), IH.
  - f_equal. pose proof (Z.div_mod b 16 ltac:(lia)). lia.
  - apply Z.mod_pos_bound. lia.
  - split; [apply Z.div_pos; lia | apply Z.div_lt_upper_bound; lia].
Qed.

(** X4.  Round trip: the hexadecimal decoder returns the bytes that were
    written with two digits each, in lower or in upper case. *)
Theorem hexToBuffer_encode (upper : bool) (bytes : list Z) :
  Forall is_byte bytes ->
  OTPGenerator.hexToBuffer (hex_encode upper bytes) = Ok bytes.
Proof.
  intros Hbytes. unfold OTPGenerator.hexToBuffer.
  rewrite hex_encode_length.
  replace ((2 * List.length bytes) mod 2)%nat with 0%nat
    by (rewrite Nat.mul_comm, Nat.Div0.mod_mul; reflexivity).
  cbn [Nat.eqb]. rewrite Buffer_from_hex_encode by exact Hbytes. reflexivity.
Qed.

Lemma hexToBuffer_encode_witness :
  hex_encode true [0; 1; 171; 255] = "0001ABFF" /\
  OTPGenerator.hexToBuffer "0001ABFF" = Ok [0; 1; 171; 255].
Proof.
  split; [reflexivity |].
  apply (hexToBuffer_encode true [0; 1; 171; 255]).
  repeat (apply Forall_cons; [unfold is_byte; lia |]). apply Forall_nil.
Defined.

Lemma Buffer_from_hex_numeral (n : nat) :
  forall s acc,
    String.length s = (2 * n)%nat ->
    OTPParser.all_hex s = true ->
    List.length (Buffer_from_hex s) = n /\
    Forall is_byte (Buffer_from_hex s) /\
    hex_value_from acc s
    = Some (fold_left (fun a b => 256 * a + b) (Buffer_from_hex s) acc).
Proof.
  induction n as [| n IH]; intros s acc Hlen Hhex.
  - destruct s; [| discriminate Hlen]. repeat split. constructor.
  - destruct s as [| a [| b r]]; try (cbn [String.length] in Hlen; lia).
    cbn [OTPParser.all_hex] in Hhex.
    cbn [Buffer_from_hex hex_value_from].
    destruct (unhex a) as [x |] eqn:Ha; [| discriminate Hhex].
    destruct (unhex b) as [y |] eqn:Hb; [| discriminate Hhex].
    cbn [andb] in Hhex.
    apply unhex_range in Ha, Hb.
    destruct (IH r (16 * (16 * acc + x) + y)) as (Hcount & Hbytes & Hvalue);
      [cbn [String.length] in Hlen; lia | exact Hhex |].
    cbn [List.length fold_left]. split; [lia |]. split.
    + constructor; [unfold is_byte; lia | exact Hbytes].
    + rewrite Hvalue. do 2 f_equal. lia.
Qed.

Lemma Buffer_from_hex_length (n : nat) :
  forall s,
    (String.length s <= 2 * n + 1)%nat ->
    (2 * List.length (Buffer_from_hex s) <= String.length s)%nat /\
    Forall is_byte (Buffer_from_hex s).
Proof.
  induction n as [| n IH]; intros s Hlen.
  - destruct s as [| a [| b r]]; try (cbn [String.length] in Hlen; lia);
      cbn; (split; [lia | constructor]).
  - destruct s as [| a [| b r]]; try (cbn; split; [lia | constructor]).
    cbn [Buffer_from_hex].
    destruct (unhex a) as [x |] eqn:Ha; [| cbn; split; [lia | constructor]].
    destruct (unhex b) as [y |] eqn:Hb; [| cbn; split; [lia | constructor]].
    apply unhex_range in Ha, Hb.
    destruct (IH r) as [Hcount Hbytes]; [cbn [String.length] in Hlen; lia |].
    cbn [List.length String.length]. split; [lia |].
    constructor; [unfold is_byte; lia | exact Hbytes].
Qed.

(** X5.  On a string of hexadecimal digits the decoder never loses a
    digit: a string of [n] digits gives [ceil(n / 2)] bytes whose
    big-endian value is the number that the digits write in base 16 (a
    string of odd length is read with a leading zero). *)
Theorem hexToBuffer_numeral (s : string) :
  OTPParser.all_hex s = true ->
  exists bytes,
    OTPGenerator.hexToBuffer s = Ok bytes /\
    List.length bytes = ((String.length s + 1) / 2)%nat /\
    Forall is_byte bytes /\
    hex_value s = Some (bytes_value bytes).
Proof.
  intros Hhex. unfold OTPGenerator.hexToBuffer, hex_value, bytes_value.
  pose proof (Nat.div_mod_eq (String.length s) 2) as Hdiv.
  pose proof (Nat.mod_upper_bound (String.length s) 2 ltac:(lia)) as Hmod.
  destruct (Nat.eqb_spec (String.length s mod 2) 0) as [Heven | Hodd].
  - destruct (Buffer_from_hex_numeral (String.length s / 2) s 0)
      as (Hcount & Hbytes & Hvalue); [lia | exact Hhex |].
    eexists. split; [reflexivity |]. split; [| split; assumption].
    rewrite Hcount.
    replace (String.length s + 1)%nat with (1 + (String.length s / 2) * 2)%nat by lia.
    rewrite Nat.div_add by lia. reflexivity.
  - destruct (Buffer_from_hex_numeral (S (String.length s / 2)) (String "0" s) 0)
      as (Hcount & Hbytes & Hvalue);
      [cbn [String.length]; lia | cbn [OTPParser.all_hex]; exact Hhex |].
    eexists. split; [reflexivity |]. split; [| split; [exact Hbytes |]].
    + rewrite Hcount.
      replace (String.length s + 1)%nat with (0 + (S (String.length s / 2)) * 2)%nat
        by lia.
      rewrite Nat.div_add by lia. reflexivity.
    + exact Hvalue.
Qed.

Lemma hexToBuffer_numeral_witness :
  exists bytes,
    OTPGenerator.hexToBuffer "abc" = Ok bytes /\
    List.length bytes = 2%nat /\
    hex_value "abc" = Some (bytes_value bytes).
Proof.
  destruct (hexToBuffer_numeral "abc") as (bytes & Hres & Hlen & _ & Hvalue);
    [reflexivity |].
  exists bytes. repeat split; assumption.
Defined.

(** X6.  Whatever the string, the hexadecimal decoder returns bytes, and
    never more than one for two characters (rounded up). *)
Theorem hexToBuffer_length_bound (s : string) :
  exists bytes,
    OTPGenerator.hexToBuffer s = Ok bytes /\
    (2 * List.length bytes <= String.length s + 1)%nat /\
    Forall is_byte bytes.
Proof.
  unfold OTPGenerator.hexToBuffer.
  eexists. split; [reflexivity |].
  destruct (Nat.eqb (String.length s mod 2) 0).
  - destruct (Buffer_from_hex_length (String.length s) s) as [Hcount Hbytes]; [lia |].
    split; [lia | exact Hbytes].
  - destruct (Buffer_from_hex_length (S (String.length s)) (String "0" s))
      as [Hcount Hbytes]; [cbn [String.length]; lia |].
    cbn [String.length] in Hcount. split; [lia | exact Hbytes].
Qed.

(** ** Shape of the codes *)

Lemma string_forallb_append (f : ascii -> bool) (a b : string) :
  string_forallb f (String.append a b) = string_forallb f a && string_forallb f b.
Proof.
  induction a as [| c a IH]; [reflexivity |].
  cbn [String.append string_forallb]. rewrite IH, andb_assoc. reflexivity.
Qed.

Lemma string_forallb_repeat (f : ascii -> bool) (c : ascii) (n : nat) :
  f c = true -> string_forallb f (repeat_char c n) = true.
Proof.
  intros Hc. induction n as [| n IH]; [reflexivity |].
  cbn [repeat_char string_forallb]. rewrite Hc, IH. reflexivity.
Qed.

Lemma length_repeat_char (c : ascii) (n : nat) : String.length (repeat_char c n) = n.
Proof. induction n as [| n IH]; [reflexivity |]. cbn [repeat_char String.length]. lia. Qed.

Lemma truncate_nonneg (hash : Buffer) (t : Z) :
  OTPGenerator.truncate hash = Ok t -> 0 <= t.
Proof.
  unfold OTPGenerator.truncate.
  destruct (readUInt32BE hash _) as [word | e]; cbn [bind]; intros H;
    [| discriminate H].
  injection H as <-. apply Z.land_nonneg. right. lia.
Qed.

(** The Steam alphabet has a letter for every remainder of a division
    by its length. *)
Lemma steamChar_alphabet (i : Z) :
  0 <= i < 26 ->
  exists c, OTPGenerator.steamChar i = String c "" /\
            includes_char OTPGenerator.steamChars c = true.
Proof.
  intros Hi.
  assert (Hall : forallb (fun n : nat =>
                    match String.get n OTPGenerator.steamChars with
                    | Some c => includes_char OTPGenerator.steamChars c
                    | None => false
                    end) (seq 0 26) = true) by (vm_compute; reflexivity).
  rewrite forallb_forall in Hall.
  specialize (Hall (Z.to_nat i) ltac:(apply in_seq; lia)). cbv beta in Hall.
  unfold OTPGenerator.steamChar.
  destruct (String.get (Z.to_nat i) OTPGenerator.steamChars) as [c |];
    [| discriminate Hall].
  exists c. split; [reflexivity | exact Hall].
Qed.

Lemma steam_loop_shape (n : nat) :
  forall code num,
    0 <= num ->
    string_forallb (includes_char OTPGenerator.steamChars) code = true ->
    String.length (OTPGenerator.steam_loop n code num) = (String.length code + n)%nat /\
    string_forallb (includes_char OTPGenerator.steamChars)
      (OTPGenerator.steam_loop n code num) = true.
Proof.
  induction n as [| n IH]; intros code num Hnum Hcode.
  - cbn [OTPGenerator.steam_loop]. split; [lia | exact Hcode].
  - cbn [OTPGenerator.steam_loop].
    change (Z.of_nat (String.length OTPGenerator.steamChars)) with 26.
    destruct (steamChar_alphabet (Z.rem num 26)) as (c & Hc & Hin).
    { rewrite Z.rem_mod_nonneg by lia. apply Z.mod_pos_bound. lia. }
    rewrite Hc.
    destruct (IH (String.append code (String c "")) (num / 26)) as [Hlen Hall].
    + apply Z.div_pos; lia.
    + rewrite string_forallb_append, Hcode. cbn [string_forallb]. rewrite Hin. reflexivity.
    + split; [| exact Hall].
      rewrite Hlen, length_append. cbn [String.length]. lia.
Qed.

(** ** Decimal notation *)

Lemma of_uint_acc_lower (d : Decimal.uint) :
  forall acc,
    Z.pos acc * 10 ^ Z.of_nat (Decimal.nb_digits d) <= Z.pos (Pos.of_uint_acc d acc).
Proof.
  induction d as [| d IH | d IH | d IH | d IH | d IH | d IH | d IH | d IH | d IH | d IH];
    intros acc;
    [cbn; lia | ..];
    cbn [Pos.of_uint_acc Decimal.nb_digits];
    rewrite Nat2Z.inj_succ, Z.pow_succ_r by lia;
    match goal with
    | |- _ <= Z.pos (Pos.of_uint_acc d ?a) =>
        specialize (IH a);
        assert (0 < 10 ^ Z.of_nat (Decimal.nb_digits d)) by (apply Z.pow_pos_nonneg; lia);
        nia
    end.
Qed.

Lemma N_to_uint_normal (n : N) : Decimal.unorm (N.to_uint n) = N.to_uint n.
Proof.
  rewrite <- (DecimalN.Unsigned.of_to n) at 2.
  rewrite DecimalN.Unsigned.to_of. reflexivity.
Qed.

Lemma unorm_leading_zero (l : Decimal.uint) :
  Decimal.unorm (Decimal.D0 l) = Decimal.D0 l -> l = Decimal.Nil.
Proof.
  unfold Decimal.unorm. cbn [Decimal.nzhead].
  pose proof (DecimalFacts.nb_digits_nzhead l) as Hle.
  destruct (Decimal.nzhead l) eqn:Hnz; intros H;
    try discriminate H.
  - injection H as <-. reflexivity.
  - injection H as <-. cbn [Decimal.nb_digits] in Hle. lia.
Qed.

Lemma N_to_uint_digits (n : N) (d : nat) :
  (1 <= d)%nat -> Z.of_N n < 10 ^ Z.of_nat d ->
  (1 <= Decimal.nb_digits (N.to_uint n) <= d)%nat.
Proof.
  intros Hd Hn.
  pose proof (N_to_uint_normal n) as Hnorm.
  pose proof (DecimalN.Unsigned.of_to n) as Hval.
  assert (Hbound : forall (l : Decimal.uint) (k : positive),
            N.pos (Pos.of_uint_acc l k) = n ->
            (1 <= S (Decimal.nb_digits l) <= d)%nat).
  { intros l k Hk. split; [lia |].
    pose proof (of_uint_acc_lower l k) as Hlow.
    rewrite <- Hk in Hn. cbn [Z.of_N] in Hn.
    assert (10 ^ Z.of_nat (Decimal.nb_digits l) < 10 ^ Z.of_nat d).
    { assert (0 < 10 ^ Z.of_nat (Decimal.nb_digits l)) by (apply Z.pow_pos_nonneg; lia).
      nia. }
    apply Z.pow_lt_mono_r_iff in H; lia. }
  unfold N.of_uint in Hval.
  destruct (N.to_uint n) as [| l | l | l | l | l | l | l | l | l | l] eqn:Hu;
    cbn [Decimal.nb_digits];
    try (cbn [Pos.of_uint] in Hval; apply (Hbound l _ Hval)).
  - exfalso. destruct n as [| p]; [discriminate Hu |].
    apply (DecimalPos.Unsigned.to_uint_nonnil p). exact Hu.
  - apply unorm_leading_zero in Hnorm. subst l. cbn [Decimal.nb_digits]. lia.
Qed.

Lemma string_of_uint_shape (u : Decimal.uint) :
  String.length (NilEmpty.string_of_uint u) = Decimal.nb_digits u /\
  string_forallb is_decimal_digit (NilEmpty.string_of_uint u) = true.
Proof.
  induction u as [| u [IHl IHd] | u [IHl IHd] | u [IHl IHd] | u [IHl IHd] | u [IHl IHd]
                  | u [IHl IHd] | u [IHl IHd] | u [IHl IHd] | u [IHl IHd] | u [IHl IHd]];
    cbn [NilEmpty.string_of_uint String.length Decimal.nb_digits string_forallb];
    [split; reflexivity | ..];
    (split; [rewrite IHl; reflexivity | rewrite IHd; reflexivity]).
Qed.

(** The decimal notation of a number below [10^d] has at most [d]
    characters, all of them digits. *)
Lemma N_toString_shape (n : N) (d : nat) :
  (1 <= d)%nat -> Z.of_N n < 10 ^ Z.of_nat d ->
  (String.length (N_toString n) <= d)%nat /\
  string_forallb is_decimal_digit (N_toString n) = true.
Proof.
  intros Hd Hn. pose proof (N_to_uint_digits n d Hd Hn) as Hdigits.
  unfold N_toString, NilZero.string_of_uint.
  destruct (string_of_uint_shape (N.to_uint n)) as [Hlen Hall].
  destruct (N.to_uint n) eqn:Hu;
    [cbn [Decimal.nb_digits] in Hdigits; lia | ..];
    (split; [rewrite Hlen; lia | exact Hall]).
Qed.

Section CodeShape.
Variable createHmac : string -> Buffer -> Buffer -> result Buffer.

(** X7.  Whenever [generateOTPCode] returns a code for a digit count of
    at least one, the code has exactly that many characters, all of
    them decimal digits. *)
Theorem generateOTPCode_digits (secret : string) (counter : Z) (digits : N)
    (algorithm : string) (isHex : bool) (code : string) :
  OTPGenerator.generateOTPCode createHmac secret counter digits algorithm isHex = Ok code ->
  (1 <= digits)%N ->
  String.length code = N.to_nat digits /\
  string_forallb is_decimal_digit code = true.
Proof.
  unfold OTPGenerator.generateOTPCode. intros H Hdigits.
  destruct (if isHex then _ else _) as [key | e]; [| discriminate H].
  cbn [bind] in H.
  destruct (OTPGenerator.counterBuffer counter) as [msg | e]; [| discriminate H].
  cbn [bind] in H.
  destruct (createHmac _ key msg) as [hash | e]; [| discriminate H].
  cbn [bind] in H.
  destruct (OTPGenerator.truncate hash) as [t | e] eqn:Ht; [| discriminate H].
  cbn [bind] in H.
  apply truncate_nonneg in Ht.
  assert (Hpow : 0 < 10 ^ Z.of_N digits) by (apply Z.pow_pos_nonneg; lia).
  rewrite Z.rem_mod_nonneg in H by lia.
  pose proof (Z.mod_pos_bound t (10 ^ Z.of_N digits) Hpow) as Hcode.
  set (v := t mod 10 ^ Z.of_N digits) in *.
  unfold Z_toString in H. destruct (Z.ltb_spec v 0) as [? | _]; [lia |].
  destruct (N_toString_shape (Z.abs_N v) (N.to_nat digits)) as [Hlen Hall].
  - lia.
  - rewrite N2Z.inj_abs_N, Z.abs_eq, N_nat_Z by lia. lia.
  - unfold padStart in H.
    destruct (N.leb_spec digits (N.of_nat (String.length (N_toString (Z.abs_N v)))))
      as [Hle | _].
    + injection H as <-. split; [lia | exact Hall].
    + destruct (N.ltb MAX_STRING_LENGTH digits); [discriminate H |].
      injection H as <-. unfold pad_left. split.
      * rewrite length_append, length_repeat_char. lia.
      * rewrite string_forallb_append, Hall, string_forallb_repeat by reflexivity.
        reflexivity.
Qed.

(** X8.  Whenever [generateSteamOTP] returns a code, the code has five
    characters, all of them taken from the Steam alphabet. *)
Theorem generateSteamOTP_shape (secret : string) (counter : Z) (code : string) :
  OTPGenerator.generateSteamOTP createHmac secret counter = Ok code ->
  String.length code = 5%nat /\
  string_forallb (includes_char OTPGenerator.steamChars) code = true.
Proof.
  unfold OTPGenerator.generateSteamOTP. intros H.
  destruct (OTPGenerator.base32ToBuffer secret) as [key | e]; [| discriminate H].
  cbn [bind] in H.
  destruct (OTPGenerator.counterBuffer counter) as [msg | e]; [| discriminate H].
  cbn [bind] in H.
  destruct (createHmac _ key msg) as [hash | e]; [| discriminate H].
  cbn [bind] in H.
  destruct (OTPGenerator.truncate hash) as [t | e] eqn:Ht; [| discriminate H].
  cbn [bind] in H. injection H as <-.
  apply truncate_nonneg in Ht.
  apply (steam_loop_shape 5 "" t Ht). reflexivity.
Qed.

(** X9.  Timing of a time-based result of [generateCurrentCode] at the
    time [t >= 0], when the period [p] it reports is positive: [p] is
    the effective period of the descriptor or 30; the counter is the
    number of the window that holds [t]; the remaining time lies in
    [1 .. p]; the refresh date is the instant, in milliseconds, at which
    the remaining time has elapsed, which is the start of the next
    window; and the result is never flagged as invalid. *)
Theorem generateCurrentCode_timing (t : Z) (o : OTPGenerator.OtpData)
    (r : OTPGenerator.TimeResult.t) :
  OTPGenerator.generateCurrentCode createHmac t (Some o) = Ok (OTPGenerator.Timed r) ->
  0 <= t ->
  0 < OTPGenerator.TimeResult.period r ->
  let p := OTPGenerator.TimeResult.period r in
  let c := OTPGenerator.TimeResult.counter r in
  let left := OTPGenerator.TimeResult.timeRemaining r in
  (p = effective_period o \/ p = 30) /\
  c * p <= t < (c + 1) * p /\
  0 < left <= p /\
  OTPGenerator.TimeResult.nextRefresh r = 1000 * (t + left) /\
  t + left = (c + 1) * p /\
  OTPGenerator.TimeResult.valid r <> Some false.
Proof.
  intros H Ht Hp.
  assert (Hwindow : forall p, 0 < p ->
            (t / p) * p <= t < (t / p + 1) * p /\
            0 < p - Z.rem t p <= p /\
            (t / p + 1) * p * 1000 = 1000 * (t + (p - Z.rem t p)) /\
            t + (p - Z.rem t p) = (t / p + 1) * p).
  { intros p Hpos. rewrite Z.rem_mod_nonneg by lia.
    pose proof (Z.div_mod t p ltac:(lia)) as Hdm.
    pose proof (Z.mod_pos_bound t p Hpos) as Hm. nia. }
  unfold OTPGenerator.generateCurrentCode in H.
  destruct (String.eqb (OTPGenerator.secret o) ""); [discriminate H |].
  destruct (String.eqb (OTPGenerator.type o) "totp" || String.eqb (OTPGenerator.type o) "hex").
  { unfold OTPGenerator.generateTOTP in H.
    destruct (OTPGenerator.generateOTPCode _ _ _ _ _ _) as [code | e];
      [| discriminate H].
    cbn [bind] in H. injection H as <-.
    cbn [OTPGenerator.TimeResult.period OTPGenerator.TimeResult.counter
         OTPGenerator.TimeResult.timeRemaining OTPGenerator.TimeResult.nextRefresh
         OTPGenerator.TimeResult.valid] in *.
    change (or_Z (OTPGenerator.period o) 30) with (effective_period o) in *.
    destruct (Hwindow (effective_period o) Hp) as (H1 & H2 & H3 & H4).
    repeat split; try tauto; try lia.
    destruct (Z.ltb_spec 0 (effective_period o - Z.rem t (effective_period o)));
      [discriminate | lia]. }
  destruct (String.eqb (OTPGenerator.type o) "hotp" || String.eqb (OTPGenerator.type o) "hhex").
  { destruct (OTPGenerator.generateHOTP _ _); discriminate H. }
  destruct (Hwindow 30 ltac:(lia)) as (H1 & H2 & H3 & H4).
  destruct (String.eqb (OTPGenerator.type o) "steam").
  { unfold OTPGenerator.generateSteamCode in H.
    destruct (OTPGenerator.generateSteamOTP _ _ _) as [code | e]; [| discriminate H].
    cbn [bind] in H. injection H as <-.
    cbn [OTPGenerator.TimeResult.period OTPGenerator.TimeResult.counter
         OTPGenerator.TimeResult.timeRemaining OTPGenerator.TimeResult.nextRefresh
         OTPGenerator.TimeResult.valid] in *.
    repeat split; try tauto; try lia. discriminate. }
  destruct (String.eqb (OTPGenerator.type o) "battle"); [| discriminate H].
  unfold OTPGenerator.generateBattleCode in H.
  destruct (OTPGenerator.generateOTPCode _ _ _ _ _ _) as [code | e]; [| discriminate H].
  cbn [bind] in H. injection H as <-.
  cbn [OTPGenerator.TimeResult.period OTPGenerator.TimeResult.counter
       OTPGenerator.TimeResult.timeRemaining OTPGenerator.TimeResult.nextRefresh
       OTPGenerator.TimeResult.valid] in *.
  repeat split; try tauto; try lia. discriminate.
Qed.
End CodeShape.

Lemma generateOTPCode_digits_witness :
  exists code,
    OTPGenerator.generateOTPCode Crypto.createHmac "GEZDGNBVGY3TQOJQGEZDGNBVGY3TQOJQ"
      1 6 "SHA1" false = Ok code /\
    String.length code = 6%nat /\
    string_forallb is_decimal_digit code = true.
Proof.
  assert (Hcode : OTPGenerator.generateOTPCode Crypto.createHmac
                    "GEZDGNBVGY3TQOJQGEZDGNBVGY3TQOJQ" 1 6 "SHA1" false = Ok "287082")
    by (vm_compute; reflexivity).
  exists "287082". split; [exact Hcode |].
  apply (generateOTPCode_digits Crypto.createHmac _ _ _ _ _ _ Hcode). lia.
Defined.

Lemma generateSteamOTP_shape_witness :
  exists code,
    OTPGenerator.generateSteamOTP Crypto.createHmac "JBSWY3DPEHPK3PXP" 56666666 = Ok code /\
    String.length code = 5%nat /\
    string_forallb (includes_char OTPGenerator.steamChars) code = true.
Proof.
  assert (Hcode : OTPGenerator.generateSteamOTP Crypto.createHmac "JBSWY3DPEHPK3PXP"
                    56666666 = Ok "2KM2P")
    by (vm_compute; reflexivity).
  exists "2KM2P". split; [exact Hcode |].
  apply (generateSteamOTP_shape Crypto.createHmac _ _ _ Hcode).
Defined.

Lemma generateCurrentCode_timing_witness :
  exists r,
    OTPGenerator.generateCurrentCode Crypto.createHmac 1700000000 (Some rfc6238_descriptor)
    = Ok (OTPGenerator.Timed r) /\
    OTPGenerator.TimeResult.counter r * 30 <= 1700000000
      < (OTPGenerator.TimeResult.counter r + 1) * 30 /\
    OTPGenerator.TimeResult.nextRefresh r
    = 1000 * (1700000000 + OTPGenerator.TimeResult.timeRemaining r).
Proof.
  destruct (OTPGenerator.generateCurrentCode Crypto.createHmac 1700000000
              (Some rfc6238_descriptor)) as [[r | r] | e] eqn:Hres;
    try (vm_compute in Hres; discriminate Hres).
  assert (Hperiod : OTPGenerator.TimeResult.period r = 30).
  { vm_compute in Hres. injection Hres as <-. reflexivity. }
  exists r. split; [reflexivity |].
  destruct (generateCurrentCode_timing Crypto.createHmac 1700000000 rfc6238_descriptor r
              Hres ltac:(lia) ltac:(lia)) as (_ & Hwin & _ & Hnext & _).
  rewrite Hperiod in Hwin. split; [exact Hwin | exact Hnext].
Defined.

Section TimeWindowCodes.
Variable createHmac : string -> Buffer -> Buffer -> result Buffer.

Lemma effective_period_nonzero (o : OTPGenerator.OtpData) : effective_period o <> 0.
Proof.
  unfold effective_period, or_Z.
  destruct (OTPGenerator.period o) as [v |]; [| lia].
  destruct (Z.eqb_spec v 0); lia.
Qed.

(** The time loop, started at index [i] with [codes] collected: it
    leaves the store as it is and appends one entry for each window. *)
Lemma totp_loop_windows (o : OTPGenerator.OtpData) (otpData : nat)
    (currentTime period : Z) (st : OTPGenerator.Store) (n : nat) :
  OTPGenerator.deref st otpData = Some o ->
  forall i codes,
    (forall k, i <= k < i + Z.of_nat n ->
       is_ok (OTPGenerator.generateTOTP createHmac o (currentTime + k * period)) = true) ->
    exists new,
      OTPGenerator.totp_loop createHmac n i currentTime period st otpData codes
      = (Ok (codes ++ new), st) /\
      List.length new = n /\
      forall j, (j < n)%nat ->
        exists e,
          nth_error new j = Some e /\
          OTPGenerator.generateTOTP createHmac o
            (currentTime + (i + Z.of_nat j) * period)
          = Ok (OTPGenerator.TotpEntry.result e) /\
          OTPGenerator.TotpEntry.sequence e = i + Z.of_nat j /\
          OTPGenerator.TotpEntry.timestamp e
          = (currentTime + (i + Z.of_nat j) * period) * 1000 /\
          (OTPGenerator.TotpEntry.timeWindow e = "current" <-> i + Z.of_nat j = 0).
Proof.
  intros Ho. induction n as [| n IH]; intros i codes Hok.
  - exists []. cbn [OTPGenerator.totp_loop]. rewrite app_nil_r.
    split; [reflexivity |]. split; [reflexivity |]. intros j Hj. lia.
  - cbn [OTPGenerator.totp_loop]. rewrite Ho.
    pose proof (Hok i ltac:(lia)) as Hi.
    destruct (OTPGenerator.generateTOTP createHmac o (currentTime + i * period))
      as [r | e] eqn:Hr; [| discriminate Hi].
    match goal with
    | |- context [OTPGenerator.totp_loop _ _ _ _ _ _ _ (codes ++ [?entry])] =>
        set (e0 := entry)
    end.
    destruct (IH (i + 1) (codes ++ [e0])) as (new & Hloop & Hlen & Hnth).
    { intros k Hk. apply Hok. lia. }
    exists (e0 :: new). split.
    + rewrite Hloop, <- app_assoc. reflexivity.
    + split; [cbn [List.length]; lia |].
      intros [| j] Hj.
      * exists e0. cbn [nth_error]. rewrite Z.add_0_r.
        split; [reflexivity |]. split; [exact Hr |]. split; [reflexivity |].
        split; [reflexivity |].
        unfold e0. cbn [OTPGenerator.TotpEntry.timeWindow].
        destruct (Z.eqb_spec i 0) as [-> | Hne]; [tauto |].
        split; [intros Habs; discriminate Habs | intros Habs; contradiction].
      * destruct (Hnth j ltac:(lia)) as (e & He & Hgen & Hseq & Hts & Hw).
        exists e. cbn [nth_error].
        replace (i + Z.of_nat (S j)) with (i + 1 + Z.of_nat j) by lia.
        repeat split; try assumption; apply Hw.
Qed.

(** X10.  For a descriptor of the time family in the store (any type
    other than the two counter types, the Steam and Battle variants
    included), a count, and generation succeeding at each of the windows
    concerned: [getMultipleCodes] returns [count] entries and leaves the
    store as it is; the entry [k] is the result of [generateTOTP] at the
    time [currentTime + k * period], so that its counter is the current
    window number plus [k]; it is numbered [k], carries that time in
    milliseconds, and only the first entry is labelled "current". *)
Theorem getMultipleCodes_totp_windows (currentTime : Z) (st : OTPGenerator.Store)
    (otpData : nat) (o : OTPGenerator.OtpData) (count : Z) :
  OTPGenerator.deref st otpData = Some o ->
  OTPGenerator.type o <> "hotp" ->
  OTPGenerator.type o <> "hhex" ->
  0 <= count ->
  (forall k, 0 <= k < count ->
     is_ok (OTPGenerator.generateTOTP createHmac o
              (currentTime + k * effective_period o)) = true) ->
  exists codes,
    OTPGenerator.getMultipleCodes createHmac currentTime st otpData count
    = (Ok (OTPGenerator.TotpCodes codes), st) /\
    Z.of_nat (List.length codes) = count /\
    forall k, 0 <= k < count ->
      exists e,
        nth_error codes (Z.to_nat k) = Some e /\
        OTPGenerator.generateTOTP createHmac o (currentTime + k * effective_period o)
        = Ok (OTPGenerator.TotpEntry.result e) /\
        OTPGenerator.TimeResult.counter (OTPGenerator.TotpEntry.result e)
        = currentTime / effective_period o + k /\
        OTPGenerator.TimeResult.type (OTPGenerator.TotpEntry.result e) = "TOTP" /\
        OTPGenerator.TotpEntry.sequence e = k /\
        OTPGenerator.TotpEntry.timestamp e
        = 1000 * (currentTime + k * effective_period o) /\
        (OTPGenerator.TotpEntry.timeWindow e = "current" <-> k = 0).
Proof.
  intros Ho Hhotp Hhhex Hcount Hok.
  destruct (totp_loop_windows o otpData currentTime (effective_period o) st
              (Z.to_nat count) Ho 0 [])
    as (codes & Hloop & Hlen & Hnth).
  { intros k Hk. apply Hok. lia. }
  cbn [app] in Hloop.
  exists codes. split; [| split; [lia |]].
  - unfold OTPGenerator.getMultipleCodes. rewrite Ho.
    apply String.eqb_neq in Hhotp, Hhhex. rewrite Hhotp, Hhhex. cbn [orb].
    change (or_Z (OTPGenerator.period o) 30) with (effective_period o).
    rewrite Hloop. reflexivity.
  - intros k Hk.
    destruct (Hnth (Z.to_nat k) ltac:(lia)) as (e & He & Hgen & Hseq & Hts & Hw).
    rewrite Z.add_0_l, Z2Nat.id in Hgen, Hseq, Hts, Hw by lia.
    exists e. split; [exact He |]. split; [exact Hgen |].
    split; [| split; [| split; [exact Hseq | split; [lia | exact Hw]]]].
    + apply generateTOTP_counter in Hgen as [Hc _]. rewrite Hc.
      apply Z.div_add. apply effective_period_nonzero.
    + unfold OTPGenerator.generateTOTP in Hgen.
      destruct (OTPGenerator.generateOTPCode _ _ _ _ _ _); [| discriminate Hgen].
      cbn [bind] in Hgen. injection Hgen as Hgen. rewrite <- Hgen. reflexivity.
Qed.
End TimeWindowCodes.

Lemma getMultipleCodes_totp_windows_witness :
  exists codes,
    OTPGenerator.getMultipleCodes Crypto.createHmac 59 [rfc6238_descriptor] 0 3
    = (Ok (OTPGenerator.TotpCodes codes), [rfc6238_descriptor]) /\
    Z.of_nat (List.length codes) = 3.
Proof.
  destruct (getMultipleCodes_totp_windows Crypto.createHmac 59 [rfc6238_descriptor] 0
              rfc6238_descriptor 3)
    as (codes & Hres & Hlen & _).
  - reflexivity.
  - discriminate.
  - discriminate.
  - lia.
  - intros k Hk.
    assert (k = 0 \/ k = 1 \/ k = 2) as [-> | [-> | ->]] by lia; vm_compute; reflexivity.
  - exists codes. split; [exact Hres | exact Hlen].
Defined.

Section VerificationSoundness.
Variable createHmac : string -> Buffer -> Buffer -> result Buffer.
Variable otpData : OTPGenerator.OtpData.
Variable providedCode : string.
Variable currentTime : Z.

(** A match found by the loop is the first match of a window in its
    range. *)
Lemma verify_loop_found (n : nat) :
  forall i r,
    OTPGenerator.verify_loop createHmac n i otpData providedCode currentTime
      (effective_period otpData) = Ok (Some r) ->
    exists j,
      i <= j < i + Z.of_nat n /\
      code_at createHmac otpData currentTime j = Ok providedCode /\
      r = match_at otpData providedCode j /\
      forall k, i <= k < j -> differs_at createHmac otpData providedCode currentTime k.
Proof.
  induction n as [| n IH]; intros i r H; [discriminate H |].
  cbn [OTPGenerator.verify_loop] in H.
  destruct (OTPGenerator.generateTOTP createHmac otpData
              (currentTime + i * effective_period otpData)) as [testCode | e] eqn:Hgen;
    [| discriminate H].
  cbn [bind] in H.
  assert (Hcode : code_at createHmac otpData currentTime i
                  = Ok (OTPGenerator.TimeResult.code testCode)).
  { unfold code_at, code_of_result. rewrite Hgen. reflexivity. }
  destruct (String.eqb_spec (OTPGenerator.TimeResult.code testCode) providedCode)
    as [Heq | Hneq].
  - injection H as <-. exists i. split; [lia |].
    split; [rewrite Hcode, Heq; reflexivity |].
    split; [unfold match_at; rewrite Heq; reflexivity |].
    intros k Hk. lia.
  - destruct (IH (i + 1) r H) as (j & Hj & Hm & Hr & Hbefore).
    exists j. split; [lia |]. split; [exact Hm |]. split; [exact Hr |].
    intros k Hk. destruct (Z.eq_dec k i) as [-> | Hki].
    + exists (OTPGenerator.TimeResult.code testCode). split; assumption.
    + apply Hbefore. lia.
Qed.

(** X11.  [verifyCode] accepts a candidate only when it is the code of
    a window it examined.  A result with [valid = true] reports the
    candidate as the expected code; for a descriptor of the counter
    family, the candidate is the code at the stored counter; for any
    other descriptor the result is the one of the first offset of
    [-windowSize .. windowSize] whose code is the candidate, all earlier
    offsets having produced other codes. *)
Theorem verifyCode_accepts_window_codes (windowSize : Z) (r : OTPGenerator.VerifyResult.t) :
  OTPGenerator.verifyCode createHmac currentTime otpData providedCode windowSize = Ok r ->
  OTPGenerator.VerifyResult.valid r = true ->
  OTPGenerator.VerifyResult.expectedCode r = providedCode /\
  (((OTPGenerator.type otpData = "hotp" \/ OTPGenerator.type otpData = "hhex") /\
    exists c, OTPGenerator.generateHOTP createHmac otpData = Ok c /\
              OTPGenerator.CounterResult.code c = providedCode)
   \/
   (OTPGenerator.type otpData <> "hotp" /\ OTPGenerator.type otpData <> "hhex" /\
    exists j,
      - windowSize <= j <= windowSize /\
      code_at createHmac otpData currentTime j = Ok providedCode /\
      r = match_at otpData providedCode j /\
      forall k, - windowSize <= k < j ->
                differs_at createHmac otpData providedCode currentTime k)).
Proof.
  unfold OTPGenerator.verifyCode. intros H Hvalid.
  destruct (String.eqb_spec (OTPGenerator.type otpData) "hotp") as [Hhotp | Hhotp];
    [| destruct (String.eqb_spec (OTPGenerator.type otpData) "hhex") as [Hhhex | Hhhex]];
    cbn [orb] in H.
  1, 2: destruct (OTPGenerator.generateHOTP createHmac otpData) as [c | e] eqn:Hgen;
    [| discriminate H];
    cbn [bind] in H; injection H as <-;
    cbn [OTPGenerator.VerifyResult.valid OTPGenerator.VerifyResult.expectedCode] in *;
    apply String.eqb_eq in Hvalid;
    (split; [exact Hvalid |]); left; (split; [tauto |]);
    exists c; split; [reflexivity | exact Hvalid].
  change (or_Z (OTPGenerator.period otpData) 30) with (effective_period otpData) in H.
  destruct (OTPGenerator.verify_loop createHmac _ _ otpData providedCode currentTime _)
    as [[found |] | e] eqn:Hloop; cbn [bind] in H; [| | discriminate H].
  - injection H as <-.
    apply verify_loop_found in Hloop as (j & Hj & Hm & Hr & Hbefore).
    split; [rewrite Hr; reflexivity |].
    right. split; [exact Hhotp |]. split; [exact Hhhex |].
    exists j. split; [lia |]. split; [exact Hm |]. split; [exact Hr | exact Hbefore].
  - destruct (OTPGenerator.generateTOTP createHmac otpData currentTime);
      [| discriminate H].
    cbn [bind] in H. injection H as <-. discriminate Hvalid.
Qed.
End VerificationSoundness.

Lemma verifyCode_accepts_window_codes_witness :
  exists r,
    OTPGenerator.verifyCode Crypto.createHmac 59 rfc6238_descriptor "94287082" 1 = Ok r /\
    OTPGenerator.VerifyResult.expectedCode r = "94287082".
Proof.
  destruct (OTPGenerator.verifyCode Crypto.createHmac 59 rfc6238_descriptor "94287082" 1)
    as [r | e] eqn:Hres; [| vm_compute in Hres; discriminate Hres].
  exists r. split; [reflexivity |].
  apply (verifyCode_accepts_window_codes Crypto.createHmac rfc6238_descriptor "94287082"
           59 1 r Hres).
  vm_compute in Hres. injection Hres as <-. reflexivity.
Defined.

(** ** Secrets accepted by the parser *)

Lemma base32_char_letter (c : ascii) :
  OTPParser.is_base32_char c = true ->
  Ascii.eqb (upper_char c) "=" = false /\ in_base32_alphabet (upper_char c) = true.
Proof.
  destruct c as [[] [] [] [] [] [] [] []]; cbn; intros H;
    first [discriminate H | split; reflexivity].
Qed.

Lemma all_equals_letters (s : string) :
  OTPParser.all_equals s = true -> base32_letters s = "".
Proof.
  induction s as [| c s IH]; [reflexivity |].
  cbn [OTPParser.all_equals]. intros H. apply andb_prop in H as [Hc Hs].
  apply Ascii.eqb_eq in Hc. subst c. apply IH, Hs.
Qed.

Lemma base32_tail_letters (s : string) :
  OTPParser.base32_tail s = true ->
  string_forallb in_base32_alphabet (base32_letters s) = true.
Proof.
  induction s as [| c s IH]; [reflexivity |].
  cbn [OTPParser.base32_tail].
  destruct (OTPParser.is_base32_char c) eqn:Hc.
  - intros Hs. apply base32_char_letter in Hc as [Hne Hin].
    unfold base32_letters. cbn [toUpperCase map_string replace_all_char].
    rewrite Hne. cbn [string_forallb]. rewrite Hin. apply IH, Hs.
  - intros Hs. rewrite (all_equals_letters _ Hs). reflexivity.
Qed.

(** A secret of the Base32 shape decodes. *)
Lemma test_base32_decodes (s : string) :
  OTPParser.test_base32 s = true ->
  is_ok (OTPGenerator.base32ToBuffer s) = true.
Proof.
  intros H.
  destruct (base32ToBuffer_valid s) as (bytes & Hres & _).
  - destruct s as [| c s]; [discriminate H |].
    cbn [OTPParser.test_base32] in H. apply andb_prop in H as [Hc Hs].
    apply base32_tail_letters. cbn [OTPParser.base32_tail]. rewrite Hc. exact Hs.
  - rewrite Hres. reflexivity.
Qed.

Section ParserRun.
Variable decodeURIComponent : string -> result string.
Variable uuidv4 : string.

Lemma parameter_step_counter (st st' : OTPParser.Params) (item : string) :
  OTPParser.parameter_step decodeURIComponent st item = Ok st' ->
  OTPParser.p_counter st' =
    (if String.eqb (parameter_key item) "counter"
     then Some (OTPParser.normalize_counter (parameter_value item))
     else OTPParser.p_counter st).
Proof.
  unfold OTPParser.parameter_step. cbv zeta.
  fold (parameter_key item). fold (parameter_value item).
  generalize (parameter_key item) (parameter_value item). intros key value.
  destruct (String.eqb_spec key "secret") as [-> | _];
    [intros H; injection H as <-; reflexivity |].
  destruct (String.eqb_spec key "issuer") as [-> | _];
    [intros H; injection H as <-; reflexivity |].
  destruct (String.eqb_spec key "counter") as [-> | _];
    [intros H; injection H as <-; reflexivity |].
  destruct (String.eqb_spec key "period") as [-> | _];
    [intros H; injection H as <-; reflexivity |].
  destruct (String.eqb_spec key "digits") as [-> | _];
    [intros H; injection H as <-; reflexivity |].
  destruct (String.eqb_spec key "algorithm") as [-> | _].
  - destruct value; [| discriminate].
    intros H; injection H as <-; reflexivity.
  - intros H; injection H as <-; reflexivity.
Qed.

Lemma parameter_step_algorithm (st st' : OTPParser.Params) (item : string) :
  OTPParser.parameter_step decodeURIComponent st item = Ok st' ->
  OTPParser.p_algorithm st' =
    (if String.eqb (parameter_key item) "algorithm"
     then option_map toUpperCase (parameter_value item)
     else OTPParser.p_algorithm st).
Proof.
  unfold OTPParser.parameter_step. cbv zeta.
  fold (parameter_key item). fold (parameter_value item).
  generalize (parameter_key item) (parameter_value item). intros key value.
  destruct (String.eqb_spec key "secret") as [-> | _];
    [intros H; injection H as <-; reflexivity |].
  destruct (String.eqb_spec key "issuer") as [-> | _];
    [intros H; injection H as <-; reflexivity |].
  destruct (String.eqb_spec key "counter") as [-> | _];
    [intros H; injection H as <-; reflexivity |].
  destruct (String.eqb_spec key "period") as [-> | _];
    [intros H; injection H as <-; reflexivity |].
  destruct (String.eqb_spec key "digits") as [-> | _];
    [intros H; injection H as <-; reflexivity |].
  destruct (String.eqb_spec key "algorithm") as [-> | _].
  - destruct value; [| discriminate].
    intros H; injection H as <-; reflexivity.
  - intros H; injection H as <-; reflexivity.
Qed.

(** The callback throws on an [algorithm] parameter without a value,
    and on nothing else. *)
Lemma parameter_step_throws (st : OTPParser.Params) (item : string) :
  is_ok (OTPParser.parameter_step decodeURIComponent st item) = false <->
  parameter_key item = "algorithm" /\ parameter_value item = None.
Proof.
  unfold OTPParser.parameter_step. cbv zeta.
  fold (parameter_key item). fold (parameter_value item).
  generalize (parameter_key item) (parameter_value item). intros key value.
  destruct (String.eqb_spec key "secret") as [-> | _];
    [split; [discriminate | intros [H _]; discriminate H] |].
  destruct (String.eqb_spec key "issuer") as [-> | _];
    [split; [discriminate | intros [H _]; discriminate H] |].
  destruct (String.eqb_spec key "counter") as [-> | _];
    [split; [discriminate | intros [H _]; discriminate H] |].
  destruct (String.eqb_spec key "period") as [-> | _];
    [split; [discriminate | intros [H _]; discriminate H] |].
  destruct (String.eqb_spec key "digits") as [-> | _];
    [split; [discriminate | intros [H _]; discriminate H] |].
  destruct (String.eqb_spec key "algorithm") as [-> | Hne].
  - destruct value; cbn [is_ok].
    + split; [discriminate | intros [_ H]; discriminate H].
    + split; [intros _; split; reflexivity | reflexivity].
  - split; [discriminate | intros [H _]; contradiction].
Qed.

Lemma forEach_counter (parameters : list string) :
  forall st st',
    OTPParser.parameters_forEach decodeURIComponent parameters st = Ok st' ->
    OTPParser.p_counter st' =
      match query_value "counter" parameters with
      | Some v => Some (OTPParser.normalize_counter v)
      | None => OTPParser.p_counter st
      end.
Proof.
  induction parameters as [| item rest IH]; intros st st' H.
  - injection H as <-. reflexivity.
  - cbn [OTPParser.parameters_forEach] in H.
    destruct (OTPParser.parameter_step decodeURIComponent st item) as [st1 |] eqn:Hstep;
      [| discriminate H].
    cbn [bind] in H. rewrite (IH _ _ H). cbn [query_value].
    destruct (query_value "counter" rest); [reflexivity |].
    rewrite (parameter_step_counter _ _ _ Hstep).
    destruct (String.eqb (parameter_key item) "counter"); reflexivity.
Qed.

Lemma forEach_algorithm (parameters : list string) :
  forall st st',
    OTPParser.parameters_forEach decodeURIComponent parameters st = Ok st' ->
    OTPParser.p_algorithm st' =
      match query_value "algorithm" parameters with
      | Some v => option_map toUpperCase v
      | None => OTPParser.p_algorithm st
      end.
Proof.
  induction parameters as [| item rest IH]; intros st st' H.
  - injection H as <-. reflexivity.
  - cbn [OTPParser.parameters_forEach] in H.
    destruct (OTPParser.parameter_step decodeURIComponent st item) as [st1 |] eqn:Hstep;
      [| discriminate H].
    cbn [bind] in H. rewrite (IH _ _ H). cbn [query_value].
    destruct (query_value "algorithm" rest); [reflexivity |].
    rewrite (parameter_step_algorithm _ _ _ Hstep).
    destruct (String.eqb (parameter_key item) "algorithm"); reflexivity.
Qed.

(** The loop ends normally exactly when every [algorithm] parameter
    carries a value. *)
Lemma forEach_throws (parameters : list string) :
  forall st,
    is_ok (OTPParser.parameters_forEach decodeURIComponent parameters st) = false <->
    exists item, In item parameters /\
                 parameter_key item = "algorithm" /\ parameter_value item = None.
Proof.
  induction parameters as [| item rest IH]; intros st.
  - cbn. split; [discriminate | intros (item & [] & _)].
  - cbn [OTPParser.parameters_forEach].
    destruct (OTPParser.parameter_step decodeURIComponent st item) as [st1 | e] eqn:Hstep;
      cbn [bind].
    + rewrite IH. split.
      * intros (x & Hin & Hx). exists x. split; [right; exact Hin | exact Hx].
      * intros (x & [<- | Hin] & Hx).
        -- apply (parameter_step_throws st) in Hx. rewrite Hstep in Hx. discriminate Hx.
        -- exists x. split; [exact Hin | exact Hx].
    + cbn [is_ok]. split; [intros _ | reflexivity].
      exists item. split; [left; reflexivity |].
      apply (parameter_step_throws st). rewrite Hstep. reflexivity.
Qed.

Lemma split_empty (sep : string) : split "" sep = [""].
Proof. reflexivity. Qed.

Lemma length_take_exact (n : nat) :
  forall s, (n <= String.length s)%nat -> String.length (take n s) = n.
Proof.
  induction n as [| n IH]; intros s Hs; [destruct s; reflexivity |].
  destruct s as [| c s]; [cbn in Hs; lia |].
  cbn [take String.length] in *. rewrite IH by lia. reflexivity.
Qed.

Lemma length_map_string (f : ascii -> ascii) (s : string) :
  String.length (map_string f s) = String.length s.
Proof. induction s as [| c s IH]; [reflexivity |]. cbn. rewrite IH. reflexivity. Qed.

Lemma drop_nonempty (n : nat) (s : string) :
  drop n s <> "" -> (n < String.length s)%nat.
Proof.
  intros H. pose proof (length_drop n s) as Hlen.
  destruct (drop n s) eqn:Hd; [contradiction |]. cbn [String.length] in Hlen. lia.
Qed.

(** What [parseStandardOTPUrl] did when it returned something else than
    [null]: the loop over [query_parameters] ended normally, from a
    state without parameters, and the rest of the function built the
    result for the scheme token, which has four characters. *)
Lemma parseStandardOTPUrl_run (otpUrl : string) :
  OTPParser.parseStandardOTPUrl decodeURIComponent uuidv4 otpUrl <> OTPParser.Null ->
  exists st0 st label account,
    OTPParser.p_counter st0 = None /\ OTPParser.p_algorithm st0 = None /\
    OTPParser.parameters_forEach decodeURIComponent (query_parameters otpUrl) st0 = Ok st /\
    String.length (scheme_token otpUrl) = 4%nat /\
    OTPParser.parseStandardOTPUrl decodeURIComponent uuidv4 otpUrl
    = OTPParser.build_result uuidv4 otpUrl (scheme_token otpUrl) label
        (OTPParser.p_issuer st) account st /\
    label = decoded_or_raw decodeURIComponent (raw_label otpUrl) /\
    OTPParser.p_issuer st0
    = (if includes_char label ":" then nth_error (split label ":") 0 else None) /\
    account
    = (if includes_char label ":" then nth_error (split label ":") 1 else Some label) /\
    OTPParser.p_secret st0 = Some "".
Proof.
  unfold OTPParser.parseStandardOTPUrl, query_parameters, scheme_token, raw_label,
    decoded_or_raw.
  destruct (nth_error (split otpUrl "otpauth://") 1) as [[| c0 u0] |];
    try (intros H; contradiction H; reflexivity).
  set (uri := String c0 u0).
  destruct (nth 0 (split (substr_from uri 5) "?") "") as [| l0 l1] eqn:Hlabel;
    [intros H; contradiction H; reflexivity |].
  destruct (nth_error (split (substr_from uri 5) "?") 1) as [[| p0 p1] |];
    try (intros H; contradiction H; reflexivity).
  set (label := match decodeURIComponent (String l0 l1) with
                | Ok decoded => decoded
                | Throw _ => String l0 l1
                end).
  assert (Hpair : (if includes_char label ":"
                   then (nth_error (split label ":") 0, nth_error (split label ":") 1)
                   else (None, Some label))
                  = (if includes_char label ":" then nth_error (split label ":") 0
                     else None,
                     if includes_char label ":" then nth_error (split label ":") 1
                     else Some label))
    by (destruct (includes_char label ":"); reflexivity).
  rewrite Hpair. clear Hpair.
  match goal with
  | |- context [OTPParser.parameters_forEach _ _ ?init] => set (st0 := init)
  end.
  destruct (OTPParser.parameters_forEach decodeURIComponent _ st0) as [st |] eqn:Hloop;
    [| intros H; contradiction H; reflexivity].
  intros _.
  exists st0, st, label,
    (if includes_char label ":" then nth_error (split label ":") 1 else Some label).
  split; [reflexivity |]. split; [reflexivity |]. split; [exact Hloop |].
  split; [| repeat split; try reflexivity;
            unfold label; rewrite <- Hlabel; reflexivity].
  unfold toLowerCase, substr. cbn [drop]. rewrite length_map_string.
  apply length_take_exact.
  assert (Hne : drop 5 uri <> "").
  { intros Hempty. unfold substr_from in Hlabel. rewrite Hempty in Hlabel.
    discriminate Hlabel. }
  apply drop_nonempty in Hne. lia.
Qed.

(** The result built for a secret that passed the shape test. *)
Lemma build_result_parsed (otpUrl type label : string) (issuer account : option string)
    (st : OTPParser.Params) (d : OTPParser.ParsedOTP) :
  OTPParser.build_result uuidv4 otpUrl type label issuer account st = OTPParser.Parsed d ->
  OTPParser.p_secret st = Some (OTPParser.secret d) /\
  OTPParser.secret d <> "" /\
  (OTPParser.test_base32 (OTPParser.secret d) = true \/
   OTPParser.test_hex (OTPParser.secret d) = true) /\
  OTPParser.type d =
    (if OTPParser.test_base32 (OTPParser.secret d) then type
     else if String.eqb type "totp" then "hex"
     else if String.eqb type "hotp" then "hhex"
     else type) /\
  OTPParser.counter d = or_num (OTPParser.p_counter st) (num_of_Z 0) /\
  OTPParser.algorithm d = or_string (OTPParser.p_algorithm st) "SHA1" /\
  OTPParser.label d = label /\
  OTPParser.originalUrl d = otpUrl /\
  OTPParser.hash d = uuidv4 /\
  OTPParser.issuer d = or_string issuer "" /\
  OTPParser.account d = or_string account "".
Proof.
  unfold OTPParser.build_result.
  destruct (OTPParser.p_secret st) as [[| c0 s0] |]; try discriminate.
  set (secret := String c0 s0).
  assert (Hne : secret <> "") by discriminate. clearbody secret.
  destruct (negb (OTPParser.test_hex secret) && negb (OTPParser.test_base32 secret))
    eqn:Hshape; [discriminate |].
  assert (Hno : forall prefix,
             prefix = "stm-" \/ prefix = "blz-" \/ prefix = "bliz-" ->
             startsWith secret prefix = false).
  { intros prefix Hp. destruct (startsWith secret prefix) eqn:Hs; [| reflexivity].
    rewrite (shape_excludes_prefix secret prefix Hp Hs) in Hshape. discriminate. }
  rewrite (Hno "blz-"), (Hno "bliz-"), (Hno "stm-") by auto.
  intros H. injection H as <-.
  cbn [OTPParser.secret OTPParser.type OTPParser.counter OTPParser.algorithm
       OTPParser.label OTPParser.originalUrl OTPParser.hash OTPParser.issuer
       OTPParser.account].
  split; [reflexivity |]. split; [exact Hne |].
  destruct (OTPParser.test_base32 secret) eqn:Hb32; cbn [negb andb] in *.
  - split; [left; reflexivity |]. repeat split; reflexivity.
  - rewrite andb_true_r in Hshape. apply negb_false_iff in Hshape. rewrite Hshape.
    split; [right; reflexivity |]. repeat split; reflexivity.
Qed.

Lemma not_lt_zero (n : jsnum) :
  isNaN n = false -> num_lt n (num_of_Z 0) = false -> num_ge_Z n 0.
Proof.
  destruct n as [| neg | neg m e]; [discriminate | |].
  - destruct neg; [discriminate | reflexivity].
  - intros _. unfold num_lt, num_compare, num_of_Z, mk_fin, num_ge_Z. cbn [Z.ltb Z.abs_N Z.compare signed].
    set (q := Z.min e 0).
    assert (Hp : 0 < 2 ^ (e - q)) by (apply Z.pow_pos_nonneg; lia).
    assert (Hp' : 0 < 2 ^ Z.max 0 e) by (apply Z.pow_pos_nonneg; lia).
    change (signed false 0) with 0.
    rewrite Z.mul_0_l.
    destruct (Z.compare_spec (signed neg m * 2 ^ (e - q)) 0) as [H | H | H];
      intros Hlt; try discriminate Hlt; nia.
Qed.

(** X12.  The counter of a descriptor is the value of the last
    [counter] parameter when that is a positive number, and zero when it
    is negative, zero or not a number, or when the query has no
    [counter]; it is never negative and never NaN. *)
Theorem counter_normalization (otpUrl : string) (d : OTPParser.ParsedOTP) :
  OTPParser.parseStandardOTPUrl decodeURIComponent uuidv4 otpUrl = OTPParser.Parsed d ->
  OTPParser.counter d =
    match query_value "counter" (query_parameters otpUrl) with
    | Some v =>
        if isNaN (Number v) || num_lt (Number v) (num_of_Z 0) || num_is_zero (Number v)
        then num_of_Z 0 else Number v
    | None => num_of_Z 0
    end /\
  num_ge_Z (OTPParser.counter d) 0.
Proof.
  intros Hparse.
  destruct (parseStandardOTPUrl_run otpUrl) as (st0 & st & label & account & Hc0 & _ & Hloop & _ & Hrun & _).
  { rewrite Hparse. discriminate. }
  rewrite Hparse in Hrun. symmetry in Hrun.
  apply build_result_parsed in Hrun as (_ & _ & _ & _ & Hcounter & _).
  rewrite (forEach_counter _ _ _ Hloop), Hc0 in Hcounter.
  assert (Hzero : num_ge_Z (num_of_Z 0) 0) by (cbn; lia).
  destruct (query_value "counter" (query_parameters otpUrl)) as [v |];
    [| rewrite Hcounter; split; [reflexivity | exact Hzero]].
  rewrite Hcounter. unfold OTPParser.normalize_counter. cbv zeta.
  destruct (isNaN (Number v)) eqn:Hnan; cbn [orb];
    [split; [reflexivity | exact Hzero] |].
  destruct (num_lt (Number v) (num_of_Z 0)) eqn:Hlt; cbn [orb];
    [split; [reflexivity | exact Hzero] |].
  unfold or_num.
  assert (Htruthy : num_truthy (Number v) = negb (num_is_zero (Number v))).
  { destruct (Number v); try reflexivity. discriminate Hnan. }
  rewrite Htruthy.
  destruct (num_is_zero (Number v)); cbn [negb];
    [split; [reflexivity | exact Hzero] |].
  split; [reflexivity |]. apply not_lt_zero; assumption.
Qed.

(** X13.  The type of a descriptor and the shape of its secret.  A
    secret of the Base32 shape leaves the scheme token as the type and
    is decoded by the Base32 decoder without an exception; any other
    secret is made of hexadecimal digits only and turns the tokens
    [totp] and [hotp] into [hex] and [hhex].  Hence a descriptor of type
    [totp] or [hotp] has a secret of the Base32 shape that the Base32
    decoder accepts, and a descriptor of type [hex] comes from the token
    [totp] and a secret of hexadecimal digits that is not of the Base32
    shape.  The type [hhex] tells less: it comes from the token [hotp]
    and such a hexadecimal secret, or from the token [hhex] itself, with
    a secret of either shape.  So the secret need not fit the decoder of
    the type: the last URI below parses to the type [hhex] with a Base32
    secret, of which the hexadecimal decoder keeps no byte. *)
Theorem parsed_type_and_secret_shape :
  (forall (otpUrl : string) (d : OTPParser.ParsedOTP),
     OTPParser.parseStandardOTPUrl decodeURIComponent uuidv4 otpUrl = OTPParser.Parsed d ->
     let token := scheme_token otpUrl in
     let secret := OTPParser.secret d in
     (OTPParser.test_base32 secret = true ->
      OTPParser.type d = token /\ is_ok (OTPGenerator.base32ToBuffer secret) = true) /\
     (OTPParser.test_base32 secret = false ->
      OTPParser.test_hex secret = true /\
      OTPParser.type d =
        (if String.eqb token "totp" then "hex"
         else if String.eqb token "hotp" then "hhex" else token)) /\
     (OTPParser.type d = "totp" \/ OTPParser.type d = "hotp" ->
      OTPParser.test_base32 secret = true /\
      is_ok (OTPGenerator.base32ToBuffer secret) = true) /\
     (OTPParser.type d = "hex" ->
      token = "totp" /\
      OTPParser.test_hex secret = true /\ OTPParser.test_base32 secret = false) /\
     (OTPParser.type d = "hhex" ->
      token = "hhex" \/
      (token = "hotp" /\
       OTPParser.test_hex secret = true /\ OTPParser.test_base32 secret = false))) /\
  (exists d,
     OTPParser.parseStandardOTPUrl decodeURIComponent uuidv4
       "otpauth://hhex/X?secret=JBSWY3DPEHPK3PXP" = OTPParser.Parsed d /\
     OTPParser.type d = "hhex" /\
     OTPParser.secret d = "JBSWY3DPEHPK3PXP" /\
     OTPParser.test_base32 (OTPParser.secret d) = true /\
     OTPParser.test_hex (OTPParser.secret d) = false /\
     OTPGenerator.hexToBuffer (OTPParser.secret d) = Ok []).
Proof.
  split.
  - intros otpUrl d Hparse token secret.
    destruct (parseStandardOTPUrl_run otpUrl)
      as (st0 & st & label & account & _ & _ & _ & Hlen & Hrun & _).
    { rewrite Hparse. discriminate. }
    rewrite Hparse in Hrun. symmetry in Hrun.
    apply build_result_parsed in Hrun as (_ & _ & Hshape & Htype & _).
    fold token in Hlen, Htype. fold secret in Hshape, Htype.
    destruct (OTPParser.test_base32 secret) eqn:Hb32.
    + pose proof (test_base32_decodes secret Hb32) as Hdec.
      split; [intros _; split; assumption |].
      split; [discriminate |].
      split; [intros _; split; [reflexivity | exact Hdec] |].
      split.
      * intros Hhex. rewrite Hhex in Htype. rewrite <- Htype in Hlen. discriminate Hlen.
      * intros Hhhex. left. congruence.
    + destruct Hshape as [Habs | Hhex]; [discriminate Habs |].
      split; [discriminate |].
      split; [intros _; split; assumption |].
      destruct (String.eqb_spec token "totp") as [Ht | Ht].
      { split; [intros [H | H]; rewrite Htype in H; discriminate H |].
        split; [intros _; repeat split; assumption |].
        intros H. rewrite Htype in H. discriminate H. }
      destruct (String.eqb_spec token "hotp") as [Hh | Hh].
      { split; [intros [H | H]; rewrite Htype in H; discriminate H |].
        split; [intros H; rewrite Htype in H; discriminate H |].
        intros _. right. repeat split; assumption. }
      split; [intros [H | H]; rewrite Htype in H; contradiction |].
      split.
      * intros H. rewrite H in Htype. rewrite <- Htype in Hlen. discriminate Hlen.
      * intros H. left. congruence.
  - unfold OTPParser.parseStandardOTPUrl. cbn.
    destruct (decodeURIComponent "X") as [label | e];
      destruct (includes_char _ ":");
      eexists; (split; [reflexivity |]); repeat split; reflexivity.
Qed.

(** X14.  The [algorithm] parameter.  A query in which some
    [algorithm] parameter carries no value makes the parser give up:
    the result is [null], whatever the other parameters are.
    Otherwise the algorithm of a descriptor is the value of the last
    [algorithm] parameter in upper case, and SHA1 when that value is
    empty or when the query names no algorithm. *)
Theorem algorithm_parameter (otpUrl : string) :
  (forall item,
     In item (query_parameters otpUrl) ->
     parameter_key item = "algorithm" -> parameter_value item = None ->
     OTPParser.parseStandardOTPUrl decodeURIComponent uuidv4 otpUrl = OTPParser.Null) /\
  (forall d,
     OTPParser.parseStandardOTPUrl decodeURIComponent uuidv4 otpUrl = OTPParser.Parsed d ->
     OTPParser.algorithm d =
       match query_value "algorithm" (query_parameters otpUrl) with
       | Some (Some (String c v)) => toUpperCase (String c v)
       | _ => "SHA1"
       end).
Proof.
  split.
  - intros item Hin Hkey Hvalue.
    destruct (OTPParser.parseStandardOTPUrl decodeURIComponent uuidv4 otpUrl)
      eqn:Hparse; [reflexivity | exfalso ..];
      (destruct (parseStandardOTPUrl_run otpUrl)
         as (st0 & st & _ & _ & _ & _ & Hloop & _);
       [rewrite Hparse; discriminate |];
       assert (Hthrow : is_ok (OTPParser.parameters_forEach decodeURIComponent
                                 (query_parameters otpUrl) st0) = false)
         by (apply forEach_throws; exists item; auto);
       rewrite Hloop in Hthrow; discriminate Hthrow).
  - intros d Hparse.
    destruct (parseStandardOTPUrl_run otpUrl)
      as (st0 & st & label & account & _ & Ha0 & Hloop & _ & Hrun & _).
    { rewrite Hparse. discriminate. }
    rewrite Hparse in Hrun. symmetry in Hrun.
    apply build_result_parsed in Hrun as (_ & _ & _ & _ & _ & Halg & _).
    rewrite (forEach_algorithm _ _ _ Hloop), Ha0 in Halg. rewrite Halg.
    destruct (query_value "algorithm" (query_parameters otpUrl)) as [[[| c v] |] |];
      reflexivity.
Qed.
End ParserRun.

Lemma counter_normalization_witness :
  exists d,
    OTPParser.parseStandardOTPUrl plain_decodeURIComponent sample_uuid
      "otpauth://hotp/X?secret=JBSWY3DPEHPK3PXP&counter=-5" = OTPParser.Parsed d /\
    OTPParser.counter d = num_of_Z 0.
Proof.
  eexists. split; [vm_compute; reflexivity |].
  exact (proj1 (counter_normalization plain_decodeURIComponent sample_uuid
                  "otpauth://hotp/X?secret=JBSWY3DPEHPK3PXP&counter=-5" _ eq_refl)).
Defined.

Lemma parsed_type_and_secret_shape_witness :
  exists d,
    OTPParser.parseStandardOTPUrl plain_decodeURIComponent sample_uuid
      "otpauth://totp/X?secret=0123456789abcdef" = OTPParser.Parsed d /\
    OTPParser.type d = "hex" /\
    OTPParser.test_hex (OTPParser.secret d) = true.
Proof.
  eexists. split; [vm_compute; reflexivity |].
  destruct (parsed_type_and_secret_shape plain_decodeURIComponent sample_uuid)
    as [Hall _].
  destruct (Hall "otpauth://totp/X?secret=0123456789abcdef" _ eq_refl)
    as (_ & Hhex & _).
  destruct (Hhex eq_refl) as [Hshape Htype].
  split; [exact Htype | exact Hshape].
Defined.

Lemma algorithm_parameter_witness :
  OTPParser.parseStandardOTPUrl plain_decodeURIComponent sample_uuid
    "otpauth://totp/X?secret=JBSWY3DPEHPK3PXP&algorithm" = OTPParser.Null /\
  exists d,
    OTPParser.parseStandardOTPUrl plain_decodeURIComponent sample_uuid
      "otpauth://totp/X?secret=JBSWY3DPEHPK3PXP&algorithm=sha256" = OTPParser.Parsed d /\
    OTPParser.algorithm d = "SHA256".
Proof.
  split.
  - destruct (algorithm_parameter plain_decodeURIComponent sample_uuid
                "otpauth://totp/X?secret=JBSWY3DPEHPK3PXP&algorithm") as [Hnull _].
    apply (Hnull "algorithm"); [right; left; reflexivity | reflexivity | reflexivity].
  - eexists. split; [vm_compute; reflexivity |].
    destruct (algorithm_parameter plain_decodeURIComponent sample_uuid
                "otpauth://totp/X?secret=JBSWY3DPEHPK3PXP&algorithm=sha256") as [_ Halg].
    exact (Halg _ eq_refl).
Defined.

(* ===================================================================== *)
(** * Validation of parsed descriptors                                    *)
(* ===================================================================== *)

Section ValidationFacts.
Variable decodeURIComponent : string -> result string.
Variable uuidv4 : string.
Variable Number_toString : jsnum -> string.

Local Abbreviation parseOTPAuth := (OTPParser.parseOTPAuth decodeURIComponent uuidv4).
Local Abbreviation validateOTPData := (OTPParser.validateOTPData Number_toString).

(** The type of a descriptor is the scheme token, of four characters,
    or one of the two hexadecimal types. *)
Lemma parsed_type_length (otpUrl : string) (d : OTPParser.ParsedOTP) :
  OTPParser.parseStandardOTPUrl decodeURIComponent uuidv4 otpUrl = OTPParser.Parsed d ->
  OTPParser.secret d <> "" /\
  (String.length (OTPParser.type d) = 4%nat \/ OTPParser.type d = "hex").
Proof.
  intros Hparse.
  destruct (parseStandardOTPUrl_run decodeURIComponent uuidv4 otpUrl)
    as (st0 & st & label & account & _ & _ & _ & Hlen & Hrun & _).
  { rewrite Hparse. discriminate. }
  rewrite Hparse in Hrun. symmetry in Hrun.
  apply build_result_parsed in Hrun as (_ & Hne & _ & Htype & _).
  split; [exact Hne |]. rewrite Htype.
  destruct (OTPParser.test_base32 (OTPParser.secret d)); [left; exact Hlen |].
  destruct (String.eqb (scheme_token otpUrl) "totp"); [right; reflexivity |].
  destruct (String.eqb (scheme_token otpUrl) "hotp"); left; [reflexivity | exact Hlen].
Qed.

Lemma parseOTPAuth_parsed (otpUrl : string) (d : OTPParser.ParsedOTP) :
  parseOTPAuth otpUrl = OTPParser.Parsed d ->
  OTPParser.parseStandardOTPUrl decodeURIComponent uuidv4 otpUrl = OTPParser.Parsed d.
Proof.
  unfold OTPParser.parseOTPAuth, OTPParser.parseMigrationUrl.
  destruct (String.eqb otpUrl ""); [discriminate |].
  destruct (startsWith otpUrl "otpauth-migration://"); [discriminate |].
  destruct (startsWith otpUrl "otpauth://"); [tauto | discriminate].
Qed.

(** Validation of a descriptor: it stands or falls with the type. *)
Lemma validateOTPData_parsed (otpUrl : string) (d : OTPParser.ParsedOTP) :
  parseOTPAuth otpUrl = OTPParser.Parsed d ->
  OTPParser.Validation.errors (validateOTPData (OTPParser.Parsed d)) =
    (if OTPParser.includes OTPParser.OTPType_values (OTPParser.type d) then []
     else [String.append "Invalid OTP type: " (OTPParser.type d)]) /\
  (OTPParser.includes OTPParser.OTPType_values (OTPParser.type d) = true <->
   In (OTPParser.type d) ["totp"; "hotp"; "hex"; "hhex"]).
Proof.
  intros Hparse. apply parseOTPAuth_parsed in Hparse.
  destruct (parsed_type_length otpUrl d Hparse) as [Hsecret Htype].
  split.
  - unfold OTPParser.validateOTPData.
    cbn [OTPParser.get_secret OTPParser.get_type OTPParser.Validation.errors].
    destruct (OTPParser.secret d) as [| s0 s1]; [contradiction |].
    destruct (OTPParser.type d) as [| t0 t1];
      [destruct Htype as [Habs | Habs]; discriminate Habs |].
    cbn [OTPParser.string_truthy].
    destruct (OTPParser.includes OTPParser.OTPType_values (String t0 t1)); reflexivity.
  - unfold OTPParser.includes, OTPParser.OTPType_values. cbn [existsb In].
    rewrite !orb_true_iff, !String.eqb_eq. split.
    + intros [H | [H | [H | [H | [H | [H | H]]]]]]; try discriminate H;
        try (rewrite H; tauto);
        rewrite H in Htype; destruct Htype as [Habs | Habs]; discriminate Habs.
    + intros [H | [H | [H | [H | []]]]]; rewrite <- H; tauto.
Qed.

(** X15.  Validation of what the parser returns.  The result of
    [parseOTPAuth] validates exactly when it is a descriptor whose type
    is one of [totp], [hotp], [hex] and [hhex]: [null], the diagnostic
    object of a malformed secret and the migration notice are rejected,
    and so is a descriptor whose scheme token is unknown, with the
    single error that names the token.  The digits, the period and the
    algorithm never decide. *)
Theorem validation_of_parse_results (otpUrl : string) :
  let v := validateOTPData (parseOTPAuth otpUrl) in
  (OTPParser.Validation.valid v = true <->
   exists d, parseOTPAuth otpUrl = OTPParser.Parsed d /\
             In (OTPParser.type d) ["totp"; "hotp"; "hex"; "hhex"]) /\
  (forall d, parseOTPAuth otpUrl = OTPParser.Parsed d ->
             OTPParser.Validation.valid v = false ->
             OTPParser.Validation.errors v
             = [String.append "Invalid OTP type: " (OTPParser.type d)]).
Proof.
  cbv zeta.
  destruct (parseOTPAuth otpUrl) as [| err secret url | url | d] eqn:Hparse.
  - split; [| intros d Hd; discriminate Hd].
    split; [discriminate | intros (d & Hd & _); discriminate Hd].
  - split; [| intros d Hd; discriminate Hd].
    split; [| intros (d & Hd & _); discriminate Hd].
    destruct secret; cbn; discriminate.
  - split; [| intros d Hd; discriminate Hd].
    split; [discriminate | intros (d & Hd & _); discriminate Hd].
  - destruct (validateOTPData_parsed otpUrl d Hparse) as [Herrors Hiff].
    assert (Hvalid : OTPParser.Validation.valid (validateOTPData (OTPParser.Parsed d))
                     = OTPParser.includes OTPParser.OTPType_values (OTPParser.type d)).
    { change (OTPParser.Validation.valid (validateOTPData (OTPParser.Parsed d)))
        with (Nat.eqb (List.length (OTPParser.Validation.errors
                                      (validateOTPData (OTPParser.Parsed d)))) 0).
      rewrite Herrors.
      destruct (OTPParser.includes OTPParser.OTPType_values (OTPParser.type d));
        reflexivity. }
    split.
    + rewrite Hvalid, Hiff. split.
      * intros Hin. exists d. split; [reflexivity | exact Hin].
      * intros (d' & Hd' & Hin). injection Hd' as <-. exact Hin.
    + intros d' Hd' Hfalse. injection Hd' as <-.
      rewrite Hvalid in Hfalse. rewrite Herrors, Hfalse. reflexivity.
Qed.

Variable createHmac : string -> Buffer -> Buffer -> result Buffer.

(** X16.  Validation agrees with the dispatch of the code generator.
    For a descriptor [d] returned by the parser and the generator's view
    [o] of it (same type, same secret): when [d] validates,
    [generateCurrentCode] runs [generateTOTP] or [generateHOTP] on it,
    according to the type; when it does not, [generateCurrentCode]
    throws, naming the type as unsupported.  The Steam and Battle
    generators are never run on a parsed descriptor. *)
Theorem validation_matches_dispatch (otpUrl : string) (d : OTPParser.ParsedOTP)
    (o : OTPGenerator.OtpData) (t : Z) :
  parseOTPAuth otpUrl = OTPParser.Parsed d ->
  OTPGenerator.type o = OTPParser.type d ->
  OTPGenerator.secret o = OTPParser.secret d ->
  let v := validateOTPData (OTPParser.Parsed d) in
  let r := OTPGenerator.generateCurrentCode createHmac t (Some o) in
  (OTPParser.Validation.valid v = true ->
   (OTPParser.type d = "totp" \/ OTPParser.type d = "hex") /\
   r = bind (OTPGenerator.generateTOTP createHmac o t)
         (fun x => Ok (OTPGenerator.Timed x))
   \/
   (OTPParser.type d = "hotp" \/ OTPParser.type d = "hhex") /\
   r = bind (OTPGenerator.generateHOTP createHmac o)
         (fun x => Ok (OTPGenerator.Counted x))) /\
  (OTPParser.Validation.valid v = false ->
   r = Throw (Error (String.append "Unsupported OTP type: " (OTPParser.type d)))).
Proof.
  intros Hparse Hty Hsec v r.
  destruct (validateOTPData_parsed otpUrl d Hparse) as [Herrors Hiff].
  assert (Hvalid : OTPParser.Validation.valid v
                   = OTPParser.includes OTPParser.OTPType_values (OTPParser.type d)).
  { unfold v.
    change (OTPParser.Validation.valid (validateOTPData (OTPParser.Parsed d)))
      with (Nat.eqb (List.length (OTPParser.Validation.errors
                                    (validateOTPData (OTPParser.Parsed d)))) 0).
    rewrite Herrors.
    destruct (OTPParser.includes OTPParser.OTPType_values (OTPParser.type d));
      reflexivity. }
  apply parseOTPAuth_parsed in Hparse.
  destruct (parsed_type_length otpUrl d Hparse) as [Hsecret Hlen].
  assert (Hnonempty : String.eqb (OTPGenerator.secret o) "" = false).
  { rewrite Hsec. apply String.eqb_neq. exact Hsecret. }
  unfold r, OTPGenerator.generateCurrentCode. rewrite Hnonempty, Hty.
  rewrite Hvalid. split.
  - intros Hin. apply Hiff in Hin.
    destruct Hin as [H | [H | [H | [H | []]]]]; rewrite <- H; cbn [String.eqb Ascii.eqb Bool.eqb orb];
      [left | right | left | right]; (split; [tauto | reflexivity]).
  - intros Hout.
    assert (Hnot : ~ In (OTPParser.type d) ["totp"; "hotp"; "hex"; "hhex"]).
    { intros Hin. apply Hiff in Hin. congruence. }
    cbn [In] in Hnot.
    destruct (String.eqb_spec (OTPParser.type d) "totp") as [H | _]; [symmetry in H; tauto |].
    destruct (String.eqb_spec (OTPParser.type d) "hex") as [H | _]; [symmetry in H; tauto |].
    destruct (String.eqb_spec (OTPParser.type d) "hotp") as [H | _]; [symmetry in H; tauto |].
    destruct (String.eqb_spec (OTPParser.type d) "hhex") as [H | _]; [symmetry in H; tauto |].
    cbn [orb].
    destruct (String.eqb_spec (OTPParser.type d) "steam") as [H | _].
    { rewrite H in Hlen. destruct Hlen as [Habs | Habs]; discriminate Habs. }
    destruct (String.eqb_spec (OTPParser.type d) "battle") as [H | _].
    { rewrite H in Hlen. destruct Hlen as [Habs | Habs]; discriminate Habs. }
    reflexivity.
Qed.
End ValidationFacts.

Lemma validation_of_parse_results_witness :
  let v := OTPParser.validateOTPData (fun _ => "")
             (OTPParser.parseOTPAuth plain_decodeURIComponent sample_uuid
                "otpauth://yolo/X?secret=JBSWY3DPEHPK3PXP") in
  OTPParser.Validation.valid v = false /\
  OTPParser.Validation.errors v = ["Invalid OTP type: yolo"].
Proof.
  cbv zeta. split; [vm_compute; reflexivity |].
  destruct (validation_of_parse_results plain_decodeURIComponent sample_uuid (fun _ => "")
              "otpauth://yolo/X?secret=JBSWY3DPEHPK3PXP") as [_ Herrors].
  exact (Herrors _ eq_refl eq_refl).
Defined.

Lemma validation_matches_dispatch_witness :
  OTPGenerator.generateCurrentCode Crypto.createHmac 59
    (Some {| OTPGenerator.type := "yolo";
             OTPGenerator.secret := "JBSWY3DPEHPK3PXP";
             OTPGenerator.algorithm := Some "SHA1";
             OTPGenerator.digits := Some 6%N;
             OTPGenerator.period := Some 30;
             OTPGenerator.counter := Some 0 |})
  = Throw (Error "Unsupported OTP type: yolo").
Proof.
  apply (proj2 (validation_matches_dispatch plain_decodeURIComponent sample_uuid
                  (fun _ => "") Crypto.createHmac
                  "otpauth://yolo/X?secret=JBSWY3DPEHPK3PXP" _
                  {| OTPGenerator.type := "yolo";
                     OTPGenerator.secret := "JBSWY3DPEHPK3PXP";
                     OTPGenerator.algorithm := Some "SHA1";
                     OTPGenerator.digits := Some 6%N;
                     OTPGenerator.period := Some 30;
                     OTPGenerator.counter := Some 0 |} 59
                  eq_refl eq_refl eq_refl)).
  reflexivity.
Defined.

(* ===================================================================== *)
(** * The image-decode pipeline with the credential-URI parser            *)
(* ===================================================================== *)

Section PipelineWithParser.
Variable Image : Type.
Variable getWidth getHeight : Image -> Z.
Variable image_hasAlpha : Image -> bool.
Variable greyscale invert : Image -> Image.
Variable contrast scale : jsnum -> Image -> Image.
Variable jsQR : Image -> option QRService.InversionAttempts -> result (option string).
Variable decodeURIComponent : string -> result string.
Variable uuidv4 : string.

Local Abbreviation parseOTPAuth := (OTPParser.parseOTPAuth decodeURIComponent uuidv4).

(** The parser returns [null] for every text that does not start with
    one of the two prefixes. *)
Lemma parseOTPAuth_prefix (text : string) :
  parseOTPAuth text <> OTPParser.Null -> isValidOTPUrl text = true.
Proof.
  unfold OTPParser.parseOTPAuth, isValidOTPUrl.
  destruct (String.eqb text ""); [intros H; contradiction H; reflexivity |].
  destruct (startsWith text "otpauth-migration://"); [intros _; apply orb_true_r |].
  destruct (startsWith text "otpauth://"); [reflexivity |].
  intros H; contradiction H; reflexivity.
Qed.

Lemma parseOTPAuth_migration (text : string) :
  startsWith text "otpauth-migration://" = true ->
  parseOTPAuth text = OTPParser.Migration text.
Proof.
  unfold OTPParser.parseOTPAuth, OTPParser.parseMigrationUrl. intros H.
  destruct (String.eqb_spec text "") as [-> | _]; [discriminate H |].
  rewrite H. reflexivity.
Qed.

Lemma processQRResult_success (text method : string) :
  let r := QRService.processQRResult parseOTPAuth text method in
  QRService.success r = true ->
  QRService.qrData r = Some text /\
  QRService.data r = Some (parseOTPAuth text) /\
  parseOTPAuth text <> OTPParser.Null.
Proof.
  unfold QRService.processQRResult.
  destruct (parseOTPAuth text); cbn; intros H;
    first [discriminate H | repeat split; discriminate].
Qed.

(** X17.  Both profiles, run with the parser of this repository: a
    result that reports success carries a decoded text that starts with
    one of the two credential prefixes, and the object that the parser
    returned for this text, which is not [null].  Success does not mean
    that a descriptor was read: for a text with the migration prefix the
    object is the migration notice. *)
Theorem success_carries_credential_text (img : Image) (r : QRService.ProcessResult) :
  r = QRService.processJimpImage Image getWidth getHeight image_hasAlpha greyscale
        invert contrast scale jsQR parseOTPAuth img
  \/ r = QRService.fastQRScan Image invert contrast jsQR parseOTPAuth img ->
  QRService.success r = true ->
  exists text,
    QRService.qrData r = Some text /\
    isValidOTPUrl text = true /\
    QRService.data r = Some (parseOTPAuth text) /\
    parseOTPAuth text <> OTPParser.Null /\
    (startsWith text "otpauth-migration://" = true ->
     QRService.data r = Some (OTPParser.Migration text)).
Proof.
  assert (Hfinish : forall text,
            QRService.qrData r = Some text ->
            QRService.data r = Some (parseOTPAuth text) ->
            parseOTPAuth text <> OTPParser.Null ->
            exists text,
              QRService.qrData r = Some text /\
              isValidOTPUrl text = true /\
              QRService.data r = Some (parseOTPAuth text) /\
              parseOTPAuth text <> OTPParser.Null /\
              (startsWith text "otpauth-migration://" = true ->
               QRService.data r = Some (OTPParser.Migration text))).
  { intros text Hq Hd Hn. exists text.
    split; [exact Hq |]. split; [apply parseOTPAuth_prefix, Hn |].
    split; [exact Hd |]. split; [exact Hn |].
    intros Hm. rewrite Hd, (parseOTPAuth_migration text Hm). reflexivity. }
  intros [-> | ->] Hsuccess.
  - unfold QRService.processJimpImage in *.
    destruct (QRService.try_attempts Image jsQR _) as [[text method] |];
      [| discriminate Hsuccess].
    destruct (parseOTPAuth text) eqn:Hparse; try discriminate Hsuccess;
      apply (Hfinish text); cbn; rewrite ?Hparse; try reflexivity; discriminate.
  - unfold QRService.fastQRScan in *.
    destruct (jsQR img None) as [[text |] | e];
      [| | discriminate Hsuccess].
    { apply processQRResult_success in Hsuccess as (Hq & Hd & Hn).
      apply (Hfinish text); assumption. }
    destruct (jsQR (invert img) None) as [[text |] | e];
      [| | discriminate Hsuccess].
    { apply processQRResult_success in Hsuccess as (Hq & Hd & Hn).
      apply (Hfinish text); assumption. }
    destruct (jsQR (contrast (round_ratio false 5 10) img) None) as [[text |] | e];
      [| discriminate Hsuccess | discriminate Hsuccess].
    apply processQRResult_success in Hsuccess as (Hq & Hd & Hn).
    apply (Hfinish text); assumption.
Qed.
End PipelineWithParser.

(* ===================================================================== *)
(** * Code generation with the digests of Node                            *)
(* ===================================================================== *)

Lemma be_bytes_length (n : nat) : forall x, List.length (be_bytes n x) = n.
Proof.
  induction n as [| n IH]; intros x; [reflexivity |].
  cbn [be_bytes]. rewrite length_app, IH. cbn [List.length]. lia.
Qed.

Lemma SHA1_digest_length (msg : list Z) : List.length (Crypto.SHA1.digest msg) = 20%nat.
Proof.
  unfold Crypto.SHA1.digest.
  destruct (fold_left Crypto.SHA1.compress _ _) as [[[[h0 h1] h2] h3] h4].
  rewrite !length_app, !be_bytes_length. reflexivity.
Qed.

Lemma SHA2_round_length (p : Crypto.SHA2.params) (s : list Z) (kw : Z * Z) :
  List.length (Crypto.SHA2.round p s kw) = List.length s.
Proof.
  unfold Crypto.SHA2.round.
  destruct s as [| a [| b [| c [| d [| e [| f [| g [| h [| i r]]]]]]]]];
    destruct kw; reflexivity.
Qed.

Lemma SHA2_rounds_length (p : Crypto.SHA2.params) (l : list (Z * Z)) :
  forall s, List.length (fold_left (Crypto.SHA2.round p) l s) = List.length s.
Proof.
  induction l as [| kw l IH]; intros s; [reflexivity |].
  cbn [fold_left]. rewrite IH. apply SHA2_round_length.
Qed.

Lemma SHA2_compress_length (p : Crypto.SHA2.params) (h block : list Z) :
  List.length (Crypto.SHA2.compress p h block) = List.length h.
Proof.
  unfold Crypto.SHA2.compress.
  rewrite length_map, length_combine, SHA2_rounds_length. apply Nat.min_id.
Qed.

Lemma SHA2_digest_length (p : Crypto.SHA2.params) (msg : list Z) :
  List.length (Crypto.SHA2.digest p msg)
  = (List.length (Crypto.SHA2.Hinit p) * Crypto.SHA2.wbytes p)%nat.
Proof.
  unfold Crypto.SHA2.digest.
  rewrite (flat_map_constant_length (c := Crypto.SHA2.wbytes p))
    by (intros x _; apply be_bytes_length).
  f_equal.
  generalize (Crypto.blocks (16 * Crypto.SHA2.wbytes p)
                (Crypto.pad (16 * Crypto.SHA2.wbytes p) (2 * Crypto.SHA2.wbytes p) msg)).
  intros bs. generalize (Crypto.SHA2.Hinit p).
  induction bs as [| b bs IH]; intros h; [reflexivity |].
  cbn [fold_left]. rewrite IH. apply SHA2_compress_length.
Qed.

(** The outputs of the three digests of the descriptors: 20, 32 and 64
    bytes. *)
Lemma createHmac_supported (name : string) (key msg : Buffer) :
  In name ["sha1"; "sha256"; "sha512"] ->
  exists hash, Crypto.createHmac name key msg = Ok hash /\
               (20 <= List.length hash)%nat.
Proof.
  unfold Crypto.createHmac, Crypto.hmac. cbn [In].
  intros [<- | [<- | [<- | []]]]; cbn [String.eqb Ascii.eqb Bool.eqb];
    eexists; (split; [reflexivity |]).
  - rewrite SHA1_digest_length. lia.
  - rewrite SHA2_digest_length.
    change (List.length (Crypto.SHA2.Hinit Crypto.SHA2.sha256)) with 8%nat.
    change (Crypto.SHA2.wbytes Crypto.SHA2.sha256) with 4%nat. lia.
  - rewrite SHA2_digest_length.
    change (List.length (Crypto.SHA2.Hinit Crypto.SHA2.sha512)) with 8%nat.
    change (Crypto.SHA2.wbytes Crypto.SHA2.sha512) with 8%nat. lia.
Qed.

(** The dynamic truncation reads inside every digest of 20 bytes or
    more. *)
Lemma truncate_total (hash : Buffer) :
  (20 <= List.length hash)%nat -> exists t, OTPGenerator.truncate hash = Ok t.
Proof.
  intros Hlen. unfold OTPGenerator.truncate, readUInt32BE.
  change 0x0f with (Z.ones 4). rewrite Z.land_ones by lia.
  pose proof (Z.mod_pos_bound (last hash 0) (2 ^ 4) ltac:(lia)) as Hoff.
  change (2 ^ 4) with 16 in *.
  destruct (Nat.ltb_spec (List.length hash) (Z.to_nat (last hash 0 mod 16) + 4))
    as [Hlt | _]; [lia |].
  eexists. reflexivity.
Qed.

Lemma counterBuffer_ok (counter : Z) :
  is_ok (OTPGenerator.counterBuffer counter) = true <-> 0 <= counter < 2 ^ 32.
Proof.
  split.
  - intros Hok.
    destruct (Z_lt_ge_dec counter 0) as [Hneg | Hpos];
      [rewrite counterBuffer_out_of_range in Hok by lia; discriminate Hok |].
    destruct (Z_lt_ge_dec counter (2 ^ 32)) as [Hlt | Hge]; [lia |].
    rewrite counterBuffer_out_of_range in Hok by lia. discriminate Hok.
  - intros Hc. rewrite counterBuffer_in_range by exact Hc. reflexivity.
Qed.

Lemma truncate_bound (hash : Buffer) (t : Z) :
  OTPGenerator.truncate hash = Ok t -> 0 <= t < 2 ^ 31.
Proof.
  unfold OTPGenerator.truncate.
  destruct (readUInt32BE hash _) as [word | e]; cbn [bind]; intros H;
    [| discriminate H].
  injection H as <-. change 0x7fffffff with (Z.ones 31).
  rewrite Z.land_ones by lia. apply Z.mod_pos_bound. lia.
Qed.

(** The decimal notation of a reduced truncation has ten characters at
    most. *)
Lemma code_text_short (t : Z) (digits : N) :
  0 <= t < 2 ^ 31 ->
  (String.length (Z_toString (Z.rem t (10 ^ Z.of_N digits))) <= 10)%nat.
Proof.
  intros Ht.
  assert (Hpow : 0 < 10 ^ Z.of_N digits) by (apply Z.pow_pos_nonneg; lia).
  rewrite Z.rem_mod_nonneg by lia.
  pose proof (Z.mod_pos_bound t (10 ^ Z.of_N digits) Hpow) as Hv.
  pose proof (Z.mod_le t (10 ^ Z.of_N digits) ltac:(lia) Hpow) as Hle.
  set (v := t mod 10 ^ Z.of_N digits) in *.
  unfold Z_toString. destruct (Z.ltb_spec v 0) as [? | _]; [lia |].
  apply (N_toString_shape (Z.abs_N v) 10); [lia |].
  rewrite N2Z.inj_abs_N, Z.abs_eq by lia.
  change (10 ^ Z.of_nat 10) with 10000000000. change (2 ^ 31) with 2147483648 in Ht. lia.
Qed.

(** Padding a short text fails exactly when the target length exceeds
    the greatest length of a string. *)
Lemma padStart_short (s : string) (n : N) (c : ascii) :
  (String.length s <= 10)%nat ->
  (is_ok (padStart s n c) = true <-> (n <= MAX_STRING_LENGTH)%N) /\
  ((MAX_STRING_LENGTH < n)%N -> padStart s n c = Throw (RangeError "Invalid string length")).
Proof.
  intros Hs. unfold padStart.
  assert (Hmax : (10 < MAX_STRING_LENGTH)%N) by reflexivity.
  destruct (N.leb_spec n (N.of_nat (String.length s))) as [Hle | Hgt].
  - split; [split; [lia | reflexivity] | lia].
  - destruct (N.ltb_spec MAX_STRING_LENGTH n) as [Hbig | Hsmall].
    + split; [split; [discriminate | lia] | reflexivity].
    + split; [split; [lia | reflexivity] | lia].
Qed.

(** X18.  With one of the digests SHA1, SHA256 and SHA512, named in
    any letter case, [generateOTPCode] has three causes of failure and
    no other: it returns a code exactly when the secret decodes, the
    counter lies in [0 .. 2^32 - 1], and the digit count does not exceed
    the greatest length of a string.  The dynamic truncation never
    fails; a digit count beyond the limit makes [padStart] throw. *)
Theorem generateOTPCode_succeeds_iff (secret : string) (counter : Z) (digits : N)
    (algorithm : string) (isHex : bool) :
  In (toLowerCase algorithm) ["sha1"; "sha256"; "sha512"] ->
  (is_ok (OTPGenerator.generateOTPCode Crypto.createHmac secret counter digits
            algorithm isHex) = true <->
   is_ok (if isHex then OTPGenerator.hexToBuffer secret
          else OTPGenerator.base32ToBuffer secret) = true /\
   0 <= counter < 2 ^ 32 /\
   (digits <= MAX_STRING_LENGTH)%N) /\
  (is_ok (if isHex then OTPGenerator.hexToBuffer secret
          else OTPGenerator.base32ToBuffer secret) = true ->
   0 <= counter < 2 ^ 32 ->
   (MAX_STRING_LENGTH < digits)%N ->
   OTPGenerator.generateOTPCode Crypto.createHmac secret counter digits algorithm isHex
   = Throw (RangeError "Invalid string length")).
Proof.
  intros Hname. unfold OTPGenerator.generateOTPCode.
  destruct (if isHex then _ else _) as [key | e]; cbn [bind is_ok];
    [| split; [split; [discriminate | intros [H _]; discriminate H]
              | intros H; discriminate H]].
  pose proof (counterBuffer_ok counter) as Hcounter.
  destruct (OTPGenerator.counterBuffer counter) as [msg | e]; cbn [bind is_ok] in *;
    [| split; [split; [discriminate
                      | intros (_ & Hc & _); apply Hcounter in Hc; discriminate Hc]
              | intros _ Hc; apply Hcounter in Hc; discriminate Hc]].
  destruct (createHmac_supported (toLowerCase algorithm) key msg Hname)
    as (hash & Hhash & Hlen).
  rewrite Hhash. cbn [bind].
  destruct (truncate_total hash Hlen) as [t Ht]. rewrite Ht. cbn [bind].
  destruct (padStart_short (Z_toString (Z.rem t (10 ^ Z.of_N digits))) digits "0")
    as [Hiff Hthrow]; [apply code_text_short, (truncate_bound hash), Ht |].
  split.
  - rewrite Hiff. split.
    + intros Hd. split; [reflexivity |]. split; [apply Hcounter; reflexivity | exact Hd].
    + intros (_ & _ & Hd). exact Hd.
  - intros _ _ Hd. apply Hthrow, Hd.
Qed.

Lemma generateOTPCode_succeeds_iff_witness :
  is_ok (OTPGenerator.generateOTPCode Crypto.createHmac "JBSWY3DPEHPK3PXP" 4294967295 6
           "Sha512" false) = true /\
  OTPGenerator.generateOTPCode Crypto.createHmac "JBSWY3DPEHPK3PXP" 0 (2 ^ 29) "SHA1" false
  = Throw (RangeError "Invalid string length").
Proof.
  split.
  - apply (generateOTPCode_succeeds_iff "JBSWY3DPEHPK3PXP" 4294967295 6 "Sha512" false).
    + right. right. left. reflexivity.
    + split; [vm_compute; reflexivity |]. split; [lia | vm_compute; discriminate].
  - apply (generateOTPCode_succeeds_iff "JBSWY3DPEHPK3PXP" 0 (2 ^ 29) "SHA1" false).
    + left. reflexivity.
    + vm_compute. reflexivity.
    + lia.
    + reflexivity.
Defined.

Section ParsedDescriptors.
Variable decodeURIComponent : string -> result string.
Variable uuidv4 : string.

(** X19.  From a credential URI to a code.  Let [d] be a descriptor
    returned by the parser, of one of the four types that validation
    accepts and with one of the three algorithms SHA1, SHA256 and
    SHA512, and let [o] be the generator's view of it (same type, secret
    and algorithm).  Then [generateCurrentCode] returns a result as soon
    as the digit count of [o] does not exceed the greatest length of a
    string and the counter to encode lies in [0 .. 2^32 - 1]: the
    window number [floor(t / period)] for the types [totp] and [hex],
    the stored counter for [hotp] and [hhex].  The secret that the
    parser accepted never stands in the way. *)
Theorem parsed_descriptor_generates (otpUrl : string) (d : OTPParser.ParsedOTP)
    (o : OTPGenerator.OtpData) (t : Z) :
  OTPParser.parseOTPAuth decodeURIComponent uuidv4 otpUrl = OTPParser.Parsed d ->
  In (OTPParser.type d) ["totp"; "hotp"; "hex"; "hhex"] ->
  In (OTPParser.algorithm d) ["SHA1"; "SHA256"; "SHA512"] ->
  OTPGenerator.type o = OTPParser.type d ->
  OTPGenerator.secret o = OTPParser.secret d ->
  OTPGenerator.algorithm o = Some (OTPParser.algorithm d) ->
  (OTPGenerator.or_N (OTPGenerator.digits o) 6 <= MAX_STRING_LENGTH)%N ->
  (OTPParser.type d = "totp" \/ OTPParser.type d = "hex" ->
   0 <= t / effective_period o < 2 ^ 32) ->
  (OTPParser.type d = "hotp" \/ OTPParser.type d = "hhex" ->
   0 <= or_Z (OTPGenerator.counter o) 0 < 2 ^ 32) ->
  is_ok (OTPGenerator.generateCurrentCode Crypto.createHmac t (Some o)) = true.
Proof.
  intros Hparse Htype Halg Hty Hsec Ho Hdigits Htime Hcount.
  apply parseOTPAuth_parsed in Hparse.
  destruct (parseStandardOTPUrl_run decodeURIComponent uuidv4 otpUrl)
    as (st0 & st & label & account & _ & _ & _ & Hlen & Hrun & _).
  { rewrite Hparse. discriminate. }
  rewrite Hparse in Hrun. symmetry in Hrun.
  apply build_result_parsed in Hrun as (_ & Hne & Hshape & Htoken & _).
  assert (Hname : In (toLowerCase (or_string (OTPGenerator.algorithm o) "SHA1"))
                    ["sha1"; "sha256"; "sha512"]).
  { rewrite Ho. destruct Halg as [<- | [<- | [<- | []]]]; cbn; auto. }
  assert (Hb32 : OTPParser.type d = "totp" \/ OTPParser.type d = "hotp" ->
                 is_ok (OTPGenerator.base32ToBuffer (OTPParser.secret d)) = true).
  { intros Hcase. apply test_base32_decodes.
    destruct (OTPParser.test_base32 (OTPParser.secret d)); [reflexivity |].
    exfalso. rewrite Htoken in Hcase.
    destruct (String.eqb_spec (scheme_token otpUrl) "totp") as [_ | Ht];
      [destruct Hcase as [H | H]; discriminate H |].
    destruct (String.eqb_spec (scheme_token otpUrl) "hotp") as [_ | Hh];
      [destruct Hcase as [H | H]; discriminate H |].
    destruct Hcase; contradiction. }
  assert (Hcode : forall counter isHex,
            0 <= counter < 2 ^ 32 ->
            (isHex = false -> is_ok (OTPGenerator.base32ToBuffer (OTPParser.secret d)) = true) ->
            is_ok (OTPGenerator.generateOTPCode Crypto.createHmac (OTPGenerator.secret o)
                     counter (OTPGenerator.or_N (OTPGenerator.digits o) 6)
                     (or_string (OTPGenerator.algorithm o) "SHA1") isHex) = true).
  { intros counter isHex Hc Hkey. unfold OTPGenerator.generateOTPCode. rewrite Hsec.
    assert (Hk : is_ok (if isHex then OTPGenerator.hexToBuffer (OTPParser.secret d)
                        else OTPGenerator.base32ToBuffer (OTPParser.secret d)) = true)
      by (destruct isHex; [reflexivity | apply Hkey; reflexivity]).
    destruct (if isHex then _ else _) as [key | e]; [| discriminate Hk].
    cbn [bind]. rewrite counterBuffer_in_range by exact Hc. cbn [bind].
    destruct (createHmac_supported
                (toLowerCase (or_string (OTPGenerator.algorithm o) "SHA1")) key
                ([0; 0; 0; 0] ++ be_bytes 4 counter) Hname) as (hash & Hhash & Hhl).
    rewrite Hhash. cbn [bind].
    destruct (truncate_total hash Hhl) as [tr Htr]. rewrite Htr. cbn [bind].
    rewrite padStart_within by exact Hdigits. reflexivity. }
  assert (Hnonempty : String.eqb (OTPGenerator.secret o) "" = false).
  { rewrite Hsec. apply String.eqb_neq. exact Hne. }
  unfold OTPGenerator.generateCurrentCode. rewrite Hnonempty, Hty.
  destruct Htype as [H | [H | [H | [H | []]]]]; rewrite <- H in *;
    cbn [String.eqb Ascii.eqb Bool.eqb orb andb].
  - unfold OTPGenerator.generateTOTP. rewrite Hty.
    specialize (Hcode (t / or_Z (OTPGenerator.period o) 30) false
                  (Htime ltac:(auto)) ltac:(intros _; apply Hb32; auto)).
    change (String.eqb "totp" "hex") with false.
    destruct (OTPGenerator.generateOTPCode _ _ _ _ _ _); [reflexivity | discriminate Hcode].
  - unfold OTPGenerator.generateHOTP. rewrite Hty.
    specialize (Hcode (or_Z (OTPGenerator.counter o) 0) false
                  (Hcount ltac:(auto)) ltac:(intros _; apply Hb32; auto)).
    change (String.eqb "hotp" "hhex") with false.
    destruct (OTPGenerator.generateOTPCode _ _ _ _ _ _); [reflexivity | discriminate Hcode].
  - unfold OTPGenerator.generateTOTP. rewrite Hty.
    specialize (Hcode (t / or_Z (OTPGenerator.period o) 30) true
                  (Htime ltac:(auto)) ltac:(discriminate)).
    change (String.eqb "hex" "hex") with true.
    destruct (OTPGenerator.generateOTPCode _ _ _ _ _ _); [reflexivity | discriminate Hcode].
  - unfold OTPGenerator.generateHOTP. rewrite Hty.
    specialize (Hcode (or_Z (OTPGenerator.counter o) 0) true
                  (Hcount ltac:(auto)) ltac:(discriminate)).
    change (String.eqb "hhex" "hhex") with true.
    destruct (OTPGenerator.generateOTPCode _ _ _ _ _ _); [reflexivity | discriminate Hcode].
Qed.
End ParsedDescriptors.

Lemma parsed_descriptor_generates_witness :
  is_ok (OTPGenerator.generateCurrentCode Crypto.createHmac 1700000000
           (Some sha256_descriptor)) = true.
Proof.
  apply (parsed_descriptor_generates plain_decodeURIComponent sample_uuid
           "otpauth://totp/X?secret=JBSWY3DPEHPK3PXP&algorithm=sha256" _
           sha256_descriptor 1700000000 eq_refl).
  - left. reflexivity.
  - right. left. reflexivity.
  - reflexivity.
  - reflexivity.
  - reflexivity.
  - vm_compute. discriminate.
  - intros _. change (1700000000 / effective_period sha256_descriptor) with 56666666. lia.
  - intros [H | H]; discriminate H.
Defined.

Lemma success_carries_credential_text_witness :
  exists text,
    QRService.qrData credential_scan = Some text /\ isValidOTPUrl text = true.
Proof.
  destruct (success_carries_credential_text unit (fun _ => 640) (fun _ => 480)
              (fun _ => false) (fun i => i) (fun i => i) (fun _ i => i) (fun _ i => i)
              credential_decoder plain_decodeURIComponent sample_uuid tt credential_scan)
    as (text & Hq & Hv & _).
  - right. reflexivity.
  - reflexivity.
  - exists text. split; [exact Hq | exact Hv].
Defined.

(* ===================================================================== *)
(** * Label, issuer and account                                           *)
(* ===================================================================== *)

Section LabelFacts.
Variable decodeURIComponent : string -> result string.
Variable uuidv4 : string.

Lemma parameter_step_issuer (st st' : OTPParser.Params) (item : string) :
  OTPParser.parameter_step decodeURIComponent st item = Ok st' ->
  OTPParser.p_issuer st' =
    (if String.eqb (parameter_key item) "issuer"
     then Some (issuer_text decodeURIComponent (parameter_value item))
     else OTPParser.p_issuer st).
Proof.
  unfold OTPParser.parameter_step, issuer_text. cbv zeta.
  fold (parameter_key item). fold (parameter_value item).
  generalize (parameter_key item) (parameter_value item). intros key value.
  destruct (String.eqb_spec key "secret") as [-> | _];
    [intros H; injection H as <-; reflexivity |].
  destruct (String.eqb_spec key "issuer") as [-> | _];
    [intros H; injection H as <-; reflexivity |].
  destruct (String.eqb_spec key "counter") as [-> | _];
    [intros H; injection H as <-; reflexivity |].
  destruct (String.eqb_spec key "period") as [-> | _];
    [intros H; injection H as <-; reflexivity |].
  destruct (String.eqb_spec key "digits") as [-> | _];
    [intros H; injection H as <-; reflexivity |].
  destruct (String.eqb_spec key "algorithm") as [-> | _].
  - destruct value; [| discriminate].
    intros H; injection H as <-; reflexivity.
  - intros H; injection H as <-; reflexivity.
Qed.

Lemma forEach_issuer (parameters : list string) :
  forall st st',
    OTPParser.parameters_forEach decodeURIComponent parameters st = Ok st' ->
    OTPParser.p_issuer st' =
      match query_value "issuer" parameters with
      | Some v => Some (issuer_text decodeURIComponent v)
      | None => OTPParser.p_issuer st
      end.
Proof.
  induction parameters as [| item rest IH]; intros st st' H.
  - injection H as <-. reflexivity.
  - cbn [OTPParser.parameters_forEach] in H.
    destruct (OTPParser.parameter_step decodeURIComponent st item) as [st1 |] eqn:Hstep;
      [| discriminate H].
    cbn [bind] in H. rewrite (IH _ _ H). cbn [query_value].
    destruct (query_value "issuer" rest); [reflexivity |].
    rewrite (parameter_step_issuer _ _ _ Hstep).
    destruct (String.eqb (parameter_key item) "issuer"); reflexivity.
Qed.

Lemma or_string_nth (l : list string) (n : nat) :
  or_string (nth_error l n) "" = nth n l "".
Proof.
  revert n. induction l as [| x l IH]; intros [| n]; try reflexivity.
  - destruct x; reflexivity.
  - apply IH.
Qed.

(** X20.  Label, account and issuer of a descriptor.  The label is the
    text between the scheme token and the question mark, decoded when
    it can be.  The account is the whole label when the label holds no
    colon, and otherwise what stands between the first colon and the
    second one, if any: the rest of the label is dropped.  The issuer
    is the value of the last [issuer] parameter, decoded when it can be
    and with every plus sign replaced by a space (the text "undefined"
    when the parameter carries no value); without such a parameter it is
    the part of the label before the first colon, and empty when the
    label holds no colon. *)
Theorem label_account_issuer (otpUrl : string) (d : OTPParser.ParsedOTP) :
  OTPParser.parseStandardOTPUrl decodeURIComponent uuidv4 otpUrl = OTPParser.Parsed d ->
  let label := OTPParser.label d in
  label = decoded_or_raw decodeURIComponent (raw_label otpUrl) /\
  OTPParser.account d =
    (if includes_char label ":" then nth 1 (split label ":") "" else label) /\
  OTPParser.issuer d =
    match query_value "issuer" (query_parameters otpUrl) with
    | Some v => issuer_text decodeURIComponent v
    | None => if includes_char label ":" then nth 0 (split label ":") "" else ""
    end.
Proof.
  intros Hparse.
  destruct (parseStandardOTPUrl_run decodeURIComponent uuidv4 otpUrl)
    as (st0 & st & label & account & _ & _ & Hloop & _ & Hrun & Hlabel & Hi0 & Haccount & _).
  { rewrite Hparse. discriminate. }
  rewrite Hparse in Hrun. symmetry in Hrun.
  apply build_result_parsed in Hrun
    as (_ & _ & _ & _ & _ & _ & Hl & _ & _ & Hissuer & Hacc).
  cbv zeta. rewrite Hl, Hissuer, Hacc, Haccount, (forEach_issuer _ _ _ Hloop), Hi0.
  split; [exact Hlabel |]. split.
  - destruct (includes_char label ":"); [apply or_string_nth |].
    destruct label; reflexivity.
  - destruct (query_value "issuer" (query_parameters otpUrl)) as [v |].
    + cbn [or_string]. destruct (issuer_text decodeURIComponent v); reflexivity.
    + destruct (includes_char label ":"); [apply or_string_nth | reflexivity].
Qed.
End LabelFacts.

Lemma label_account_issuer_witness :
  exists d,
    OTPParser.parseStandardOTPUrl plain_decodeURIComponent sample_uuid
      "otpauth://totp/ACME:alice:work?secret=JBSWY3DPEHPK3PXP&issuer=Big+Corp"
    = OTPParser.Parsed d /\
    OTPParser.account d = "alice" /\
    OTPParser.issuer d = "Big Corp".
Proof.
  eexists. split; [vm_compute; reflexivity |].
  destruct (label_account_issuer plain_decodeURIComponent sample_uuid
              "otpauth://totp/ACME:alice:work?secret=JBSWY3DPEHPK3PXP&issuer=Big+Corp"
              _ eq_refl) as (_ & Haccount & Hissuer).
  split; [exact Haccount | exact Hissuer].
Defined.

(* ===================================================================== *)
(** * Time-based codes are counter-based codes                            *)
(* ===================================================================== *)

Section TimeAndCounter.
Variable createHmac : string -> Buffer -> Buffer -> result Buffer.

(** X21.  RFC 6238 defines a time-based code as the counter-based code
    of the window number.  For a descriptor of type [totp] or [hex] and
    any time [t], [generateTOTP] computes the code, or throws the
    exception, that [generateHOTP] computes for the same descriptor
    turned into the counter family ([totp] to [hotp], [hex] to [hhex])
    with the counter [floor(t / period)]. *)
Theorem totp_is_hotp_of_window (o : OTPGenerator.OtpData) (t : Z) :
  OTPGenerator.type o = "totp" \/ OTPGenerator.type o = "hex" ->
  code_of_result (OTPGenerator.generateTOTP createHmac o t)
  = bind (OTPGenerator.generateHOTP createHmac (counter_view o (t / effective_period o)))
      (fun r => Ok (OTPGenerator.CounterResult.code r)).
Proof.
  intros Hty. unfold OTPGenerator.generateTOTP, OTPGenerator.generateHOTP, code_of_result,
    counter_view, effective_period.
  cbn [OTPGenerator.secret OTPGenerator.digits OTPGenerator.algorithm OTPGenerator.type
       OTPGenerator.counter].
  assert (Hc : or_Z (Some (t / or_Z (OTPGenerator.period o) 30)) 0
               = t / or_Z (OTPGenerator.period o) 30).
  { unfold or_Z at 1. destruct (Z.eqb_spec (t / or_Z (OTPGenerator.period o) 30) 0);
      congruence. }
  rewrite Hc.
  assert (Hhex : String.eqb (if String.eqb (OTPGenerator.type o) "hex" then "hhex" else "hotp")
                   "hhex" = String.eqb (OTPGenerator.type o) "hex").
  { destruct (String.eqb (OTPGenerator.type o) "hex"); reflexivity. }
  rewrite Hhex.
  destruct (OTPGenerator.generateOTPCode _ _ _ _ _ _); reflexivity.
Qed.
End TimeAndCounter.

Lemma totp_is_hotp_of_window_witness :
  code_of_result (OTPGenerator.generateTOTP Crypto.createHmac rfc6238_descriptor 59)
  = bind (OTPGenerator.generateHOTP Crypto.createHmac (counter_view rfc6238_descriptor 1))
      (fun r => Ok (OTPGenerator.CounterResult.code r)).
Proof.
  apply (totp_is_hotp_of_window Crypto.createHmac rfc6238_descriptor 59).
  left. reflexivity.
Defined.

(* ===================================================================== *)
(** * The current code and the list of codes                              *)
(* ===================================================================== *)

Section CurrentAndMultiple.
Variable createHmac : string -> Buffer -> Buffer -> result Buffer.

Lemma hotp_loop_prefix (n : nat) :
  forall i st otpData codes out st',
    OTPGenerator.hotp_loop createHmac n i st otpData codes = (Ok out, st') ->
    exists new, out = codes ++ new.
Proof.
  induction n as [| n IH]; intros i st otpData codes out st' H.
  - injection H as <- _. exists []. symmetry. apply List.app_nil_r.
  - cbn [OTPGenerator.hotp_loop] in H.
    destruct (OTPGenerator.deref st otpData) as [o |]; [| discriminate H].
    cbn [OTPGenerator.alloc] in H.
    destruct (OTPGenerator.generateHOTP _ _) as [r | e]; [| discriminate H].
    apply IH in H as [new ->]. rewrite <- List.app_assoc. eexists. reflexivity.
Qed.

Lemma totp_loop_prefix (n : nat) :
  forall i currentTime period st otpData codes out st',
    OTPGenerator.totp_loop createHmac n i currentTime period st otpData codes
    = (Ok out, st') ->
    exists new, out = codes ++ new.
Proof.
  induction n as [| n IH]; intros i currentTime period st otpData codes out st' H.
  - injection H as <- _. exists []. symmetry. apply List.app_nil_r.
  - cbn [OTPGenerator.totp_loop] in H.
    destruct (OTPGenerator.deref st otpData) as [o |]; [| discriminate H].
    destruct (OTPGenerator.generateTOTP _ _ _) as [r | e]; [| discriminate H].
    apply IH in H as [new ->]. rewrite <- List.app_assoc. eexists. reflexivity.
Qed.

(** The first entry of a list that the time branch returned. *)
Lemma getMultipleCodes_totp_head (currentTime : Z) (st st' : OTPGenerator.Store)
    (otpData : nat) (o : OTPGenerator.OtpData) (count : Z)
    (codes : OTPGenerator.MultipleCodes) :
  OTPGenerator.deref st otpData = Some o ->
  String.eqb (OTPGenerator.type o) "hotp" = false ->
  String.eqb (OTPGenerator.type o) "hhex" = false ->
  1 <= count ->
  OTPGenerator.getMultipleCodes createHmac currentTime st otpData count = (Ok codes, st') ->
  exists e rest,
    codes = OTPGenerator.TotpCodes (e :: rest) /\
    OTPGenerator.generateTOTP createHmac o currentTime
    = Ok (OTPGenerator.TotpEntry.result e).
Proof.
  intros Ho Hhotp Hhhex Hcount. unfold OTPGenerator.getMultipleCodes.
  rewrite Ho, Hhotp, Hhhex. cbn [orb].
  destruct (Z.to_nat count) as [| n] eqn:Hn; [lia |].
  cbn [OTPGenerator.totp_loop]. rewrite Ho.
  replace (currentTime + 0 * or_Z (OTPGenerator.period o) 30) with currentTime by lia.
  destruct (OTPGenerator.generateTOTP createHmac o currentTime) as [r | e];
    [| intros H; discriminate H].
  destruct (OTPGenerator.totp_loop createHmac n _ _ _ _ _ _) as [[out |] st1] eqn:Hloop;
    intros H; [| discriminate H].
  cbn [bind] in H. injection H as <- _.
  apply totp_loop_prefix in Hloop as [new ->]. cbn [app].
  eexists. eexists. split; reflexivity.
Qed.

(** X22.  The list of codes starts with the current code, for the four
    standard types only.  Let [getMultipleCodes] return a list for a
    descriptor with a secret and a count of at least one, at the time at
    which [generateCurrentCode] is called.  For the types [hotp] and
    [hhex], and for the types [totp] and [hex], the result of
    [generateCurrentCode] is the result held by the first entry.  For
    the types [steam] and [battle] it is not: the first entry is a
    result of [generateTOTP], marked TOTP, whereas no result of
    [generateCurrentCode] is marked so. *)
Theorem current_code_heads_multiple_codes (currentTime : Z) (st st' : OTPGenerator.Store)
    (otpData : nat) (o : OTPGenerator.OtpData) (count : Z)
    (codes : OTPGenerator.MultipleCodes) :
  OTPGenerator.deref st otpData = Some o ->
  OTPGenerator.secret o <> "" ->
  1 <= count ->
  OTPGenerator.getMultipleCodes createHmac currentTime st otpData count = (Ok codes, st') ->
  (OTPGenerator.type o = "hotp" \/ OTPGenerator.type o = "hhex" ->
   exists e rest,
     codes = OTPGenerator.HotpCodes (e :: rest) /\
     OTPGenerator.generateCurrentCode createHmac currentTime (Some o)
     = Ok (OTPGenerator.Counted (OTPGenerator.HotpEntry.result e))) /\
  (OTPGenerator.type o = "totp" \/ OTPGenerator.type o = "hex" ->
   exists e rest,
     codes = OTPGenerator.TotpCodes (e :: rest) /\
     OTPGenerator.generateCurrentCode createHmac currentTime (Some o)
     = Ok (OTPGenerator.Timed (OTPGenerator.TotpEntry.result e))) /\
  (OTPGenerator.type o = "steam" \/ OTPGenerator.type o = "battle" ->
   exists e rest,
     codes = OTPGenerator.TotpCodes (e :: rest) /\
     OTPGenerator.TimeResult.type (OTPGenerator.TotpEntry.result e) = "TOTP" /\
     forall r,
       OTPGenerator.generateCurrentCode createHmac currentTime (Some o)
       = Ok (OTPGenerator.Timed r) ->
       OTPGenerator.TimeResult.type r <> "TOTP").
Proof.
  intros Ho Hsecret Hcount Hres.
  apply String.eqb_neq in Hsecret.
  split; [| split].
  - intros Hty.
    assert (Hb : String.eqb (OTPGenerator.type o) "hotp"
                 || String.eqb (OTPGenerator.type o) "hhex" = true)
      by (destruct Hty as [-> | ->]; reflexivity).
    assert (Hnot : String.eqb (OTPGenerator.type o) "totp"
                   || String.eqb (OTPGenerator.type o) "hex" = false)
      by (destruct Hty as [-> | ->]; reflexivity).
    unfold OTPGenerator.getMultipleCodes in Hres. rewrite Ho, Hb in Hres.
    destruct (Z.to_nat count) as [| n] eqn:Hn; [lia |].
    cbn [OTPGenerator.hotp_loop OTPGenerator.alloc] in Hres. rewrite Ho in Hres.
    rewrite Z.add_0_r in Hres.
    assert (Hsame : OTPGenerator.generateHOTP createHmac
                      (OTPGenerator.with_counter o (or_Z (OTPGenerator.counter o) 0))
                    = OTPGenerator.generateHOTP createHmac o).
    { unfold OTPGenerator.generateHOTP, OTPGenerator.with_counter.
      cbn [OTPGenerator.counter OTPGenerator.secret OTPGenerator.digits
           OTPGenerator.algorithm OTPGenerator.type].
      rewrite or_Z_Some_0. reflexivity. }
    rewrite Hsame in Hres.
    unfold OTPGenerator.generateCurrentCode. rewrite Hsecret, Hnot, Hb.
    destruct (OTPGenerator.generateHOTP createHmac o) as [r | e]; [| discriminate Hres].
    destruct (OTPGenerator.hotp_loop createHmac n _ _ _ _) as [[out |] st1] eqn:Hloop;
      [| discriminate Hres].
    cbn [bind] in Hres. injection Hres as <- _.
    apply hotp_loop_prefix in Hloop as [new ->]. cbn [app].
    eexists. eexists. split; reflexivity.
  - intros Hty.
    destruct (getMultipleCodes_totp_head currentTime st st' otpData o count codes)
      as (e & rest & Hcodes & Hgen);
      try assumption; try (destruct Hty as [-> | ->]; reflexivity).
    exists e, rest. split; [exact Hcodes |].
    unfold OTPGenerator.generateCurrentCode. rewrite Hsecret.
    assert (Hb : String.eqb (OTPGenerator.type o) "totp"
                 || String.eqb (OTPGenerator.type o) "hex" = true)
      by (destruct Hty as [-> | ->]; reflexivity).
    rewrite Hb, Hgen. reflexivity.
  - intros Hty.
    destruct (getMultipleCodes_totp_head currentTime st st' otpData o count codes)
      as (e & rest & Hcodes & Hgen);
      try assumption; try (destruct Hty as [-> | ->]; reflexivity).
    exists e, rest. split; [exact Hcodes |]. split.
    + unfold OTPGenerator.generateTOTP in Hgen.
      destruct (OTPGenerator.generateOTPCode _ _ _ _ _ _); [| discriminate Hgen].
      cbn [bind] in Hgen. injection Hgen as Hgen. rewrite <- Hgen. reflexivity.
    + intros r. unfold OTPGenerator.generateCurrentCode. rewrite Hsecret.
      destruct Hty as [-> | ->]; cbn [String.eqb Ascii.eqb Bool.eqb orb].
      * unfold OTPGenerator.generateSteamCode.
        destruct (OTPGenerator.generateSteamOTP _ _ _); cbn [bind]; intros H;
          [| discriminate H].
        injection H as <-. discriminate.
      * unfold OTPGenerator.generateBattleCode.
        destruct (OTPGenerator.generateOTPCode _ _ _ _ _ _); cbn [bind]; intros H;
          [| discriminate H].
        injection H as <-. discriminate.
Qed.
End CurrentAndMultiple.

Lemma current_code_heads_multiple_codes_witness :
  exists e rest,
    fst (OTPGenerator.getMultipleCodes Crypto.createHmac 59 [rfc6238_descriptor] 0 2)
    = Ok (OTPGenerator.TotpCodes (e :: rest)) /\
    OTPGenerator.generateCurrentCode Crypto.createHmac 59 (Some rfc6238_descriptor)
    = Ok (OTPGenerator.Timed (OTPGenerator.TotpEntry.result e)).
Proof.
  destruct (OTPGenerator.getMultipleCodes Crypto.createHmac 59 [rfc6238_descriptor] 0 2)
    as [[codes | err] st'] eqn:Hres; [| vm_compute in Hres; discriminate Hres].
  destruct (current_code_heads_multiple_codes Crypto.createHmac 59 [rfc6238_descriptor]
              st' 0 rfc6238_descriptor 2 codes eq_refl ltac:(discriminate) ltac:(lia) Hres)
    as (_ & Htime & _).
  destruct (Htime (or_introl eq_refl)) as (e & rest & -> & Hcur).
  exists e, rest. split; [reflexivity | exact Hcur].
Defined.

(* ===================================================================== *)
(** * The secret parameter decides the outcome                            *)
(* ===================================================================== *)

Section SecretOutcome.
Variable decodeURIComponent : string -> result string.
Variable uuidv4 : string.

Lemma build_result_invalid (otpUrl type label : string) (issuer account : option string)
    (st : OTPParser.Params) (error secret url : string) :
  OTPParser.build_result uuidv4 otpUrl type label issuer account st
  = OTPParser.InvalidSecret error secret url ->
  OTPParser.p_secret st = Some secret /\ secret <> "" /\
  OTPParser.test_hex secret = false /\ OTPParser.test_base32 secret = false /\
  error = "Invalid secret format" /\ url = otpUrl.
Proof.
  unfold OTPParser.build_result.
  destruct (OTPParser.p_secret st) as [[| c0 s0] |]; try discriminate.
  set (s := String c0 s0).
  assert (Hne : s <> "") by discriminate. clearbody s.
  destruct (negb (OTPParser.test_hex s) && negb (OTPParser.test_base32 s)) eqn:Hshape.
  - intros H. injection H as <- <- <-.
    apply andb_prop in Hshape as [Hhex Hb32].
    apply negb_true_iff in Hhex, Hb32.
    repeat split; try reflexivity; assumption.
  - destruct (startsWith s "blz-");
      [ destruct (startsWith _ "stm-")
      | destruct (startsWith s "bliz-"); destruct (startsWith _ "stm-") ];
      discriminate.
Qed.

Lemma build_result_not_migration (otpUrl type label : string)
    (issuer account : option string) (st : OTPParser.Params) (url : string) :
  OTPParser.build_result uuidv4 otpUrl type label issuer account st
  <> OTPParser.Migration url.
Proof.
  unfold OTPParser.build_result.
  destruct (OTPParser.p_secret st) as [[| c0 s0] |]; try discriminate.
  destruct (negb _ && negb _); [discriminate |].
  destruct (startsWith (String c0 s0) "blz-");
    [ destruct (startsWith _ "stm-")
    | destruct (startsWith (String c0 s0) "bliz-"); destruct (startsWith _ "stm-") ];
    discriminate.
Qed.

(** X23.  What [parseStandardOTPUrl] returns, by the secret.  A
    descriptor carries the value of the last [secret] parameter,
    unchanged, and this value has the hexadecimal or the Base32 shape.
    The diagnostic object is returned only for a last [secret] value,
    not empty, that has neither shape: it carries that value, the
    message "Invalid secret format" and the URI.  The migration notice
    is never returned. *)
Theorem outcome_by_secret (otpUrl : string) :
  match OTPParser.parseStandardOTPUrl decodeURIComponent uuidv4 otpUrl with
  | OTPParser.Parsed d =>
      query_value "secret" (query_parameters otpUrl) = Some (Some (OTPParser.secret d)) /\
      OTPParser.secret d <> "" /\
      (OTPParser.test_base32 (OTPParser.secret d) = true \/
       OTPParser.test_hex (OTPParser.secret d) = true)
  | OTPParser.InvalidSecret error secret url =>
      query_value "secret" (query_parameters otpUrl) = Some (Some secret) /\
      secret <> "" /\
      OTPParser.test_hex secret = false /\ OTPParser.test_base32 secret = false /\
      error = "Invalid secret format" /\ url = otpUrl
  | OTPParser.Migration _ => False
  | OTPParser.Null => True
  end.
Proof.
  destruct (OTPParser.parseStandardOTPUrl decodeURIComponent uuidv4 otpUrl)
    as [| error secret url | url | d] eqn:Hparse; [exact I | ..];
    (destruct (parseStandardOTPUrl_run decodeURIComponent uuidv4 otpUrl)
       as (st0 & st & label & account & _ & _ & Hloop & _ & Hrun & _ & _ & _ & Hs0);
     [rewrite Hparse; discriminate |]);
    rewrite Hparse in Hrun; symmetry in Hrun;
    pose proof (forEach_secret decodeURIComponent _ _ _ Hloop) as Hsecret.
  - apply build_result_invalid in Hrun as (Hp & Hne & Hhex & Hb32 & Herr & Hurl).
    rewrite Hp in Hsecret.
    split; [| repeat split; assumption].
    destruct (query_value "secret" (query_parameters otpUrl)) as [v |];
      [congruence |].
    exfalso. apply Hne. congruence.
  - exact (build_result_not_migration _ _ _ _ _ _ _ Hrun).
  - apply build_result_parsed in Hrun as (Hp & Hne & Hshape & _).
    rewrite Hp in Hsecret.
    split; [| split; assumption].
    destruct (query_value "secret" (query_parameters otpUrl)) as [v |];
      [congruence |].
    exfalso. apply Hne. congruence.
Qed.
End SecretOutcome.
